(** * Table schemas of [pathway.internals.schema]

    A shallow embedding of [python/pathway/internals/schema.py]: the schema
    value built by [SchemaMetaclass], the builders ([schema_builder],
    [schema_add], [update_types]), the comparisons ([__eq__], [__hash__],
    [is_subschema], [assert_equal_to]) and the two inference front ends
    ([_type_converter] for pandas samples, [schema_from_csv]).

    Python dictionaries keep insertion order and that order is observable
    ([_as_tuple] compares [tuple(self.__columns__.items())]), so a dictionary
    is an association list with at most one entry per key.  Exceptions are
    values of [exn] carried by the [result] monad.

    A schema is a class, and a call [cls.method()] looks the name up in the
    class before the metaclass: [call_method] models the lookup, so that a
    column stored under the name of a method is seen to shadow it. *)

From Stdlib Require Import List String Ascii Bool Arith Lia Permutation ZArith.
Import ListNotations.
Open Scope string_scope.
Open Scope list_scope.

Set Implicit Arguments.

(* ------------------------------------------------------------------ *)
(** ** Python dictionaries *)
(* ------------------------------------------------------------------ *)

Module Dict.
Section Dict.
Variable V : Type.

Definition dict := list (string * V).

Definition keys (d : dict) : list string := map fst d.
Definition values (d : dict) : list V := map snd d.

(** [d.get(k)] *)
Fixpoint get (k : string) (d : dict) : option V :=
  match d with
  | [] => None
  | (k', v) :: d' => if String.eqb k k' then Some v else get k d'
  end.

(** [k in d] *)
Definition contains (k : string) (d : dict) : bool :=
  existsb (String.eqb k) (keys d).

(** [d[k] = v]: an existing key keeps its position, a new key goes last. *)
Fixpoint set (k : string) (v : V) (d : dict) : dict :=
  match d with
  | [] => [(k, v)]
  | (k', v') :: d' =>
      if String.eqb k k' then (k', v) :: d' else (k', v') :: set k v d'
  end.

(** [del d[k]] for a key that may be absent. *)
Fixpoint remove (k : string) (d : dict) : dict :=
  match d with
  | [] => []
  | (k', v') :: d' =>
      if String.eqb k k' then d' else (k', v') :: remove k d'
  end.

(** [d.pop(k, default)]: the value found (or the default) and the
    dictionary left. *)
Definition pop (k : string) (default : V) (d : dict) : V * dict :=
  match get k d with
  | Some v => (v, remove k d)
  | None => (default, d)
  end.

(** [dict(items)], [{k: v for ...}] and [{**d}]: insertion one by one. *)
Definition of_items (items : list (string * V)) : dict :=
  fold_left (fun d kv => set (fst kv) (snd kv) d) items [].

(** [dict(ChainMap(m1, ..., mk))].  [ChainMap.__iter__] walks the maps
    from the last to the first, collecting keys in first-seen order; a
    lookup returns the value of the first map that has the key. *)
Fixpoint chain_get (k : string) (maps : list dict) : option V :=
  match maps with
  | [] => None
  | m :: ms => match get k m with
               | Some v => Some v
               | None => chain_get k ms
               end
  end.

Definition add_key (ks : list string) (k : string) : list string :=
  if existsb (String.eqb k) ks then ks else ks ++ [k].

Definition chain_keys (maps : list dict) : list string :=
  fold_left (fun ks m => fold_left add_key (keys m) ks) (rev maps) [].

Definition of_chain (maps : list dict) : dict :=
  flat_map (fun k => match chain_get k maps with
                     | Some v => [(k, v)]
                     | None => []
                     end)
           (chain_keys maps).
End Dict.
End Dict.

(* ------------------------------------------------------------------ *)
(** ** What the module imports *)
(* ------------------------------------------------------------------ *)

(** The data-type algebra [pathway.internals.dtype] (imported as [dt]), the
    pandas type predicates, the reader of the [csv] module and the Python
    built-ins [int], [float] and [hash] are used by the module and defined
    elsewhere.  They are taken as an interface; every definition below is
    parametric in it.

    [Hint] is the type of the Python objects found in [__annotations__]
    (native types such as [int], [typing.Any], or a [DType] itself); [Value]
    is the type of the remaining Python objects (default values, class
    attributes that are not column definitions), compared by [==] as
    [Value_eq_dec] decides.  [dt.wrap] is applied by the source to values
    that already are [DType]s (line 178, and line 527 when called from line
    157) and line 168 compares the result with the original, hence
    [wrap_dtype].

    [csv.reader(lines, delimiter=, escapechar=, quoting=csv.QUOTE_NONE)]
    checks its arguments when it is made ([csv_dialect]) and then pulls
    lines one at a time: each line completes a record, leaves one unfinished
    (after an escaped end of line) or is rejected ([csv_line]); at the end
    of the input an unfinished record may still be given out ([csv_end]).
    [CsvException] is what the module raises: the [TypeError] of a delimiter
    or an escape character that is not one character, the [_csv.Error] of a
    field beyond the size limit.

    [hash] is partial: [hash_value] is [None] on an unhashable object, such
    as a list. *)
Class External := {
  DType : Type;
  Hint : Type;
  Value : Type;
  PdDtype : Type;
  DType_eq_dec : forall x y : DType, {x = y} + {x <> y};
  Hint_eq_dec : forall x y : Hint, {x = y} + {x <> y};
  Value_eq_dec : forall x y : Value, {x = y} + {x <> y};
  (* dt constants and constructors *)
  ANY : DType;
  ANY_TUPLE : DType;
  NONE : DType;
  ARRAY : DType;
  INT : DType;
  FLOAT : DType;
  BOOL : DType;
  STR : DType;
  DATE_TIME_NAIVE : DType;
  DATE_TIME_UTC : DType;
  DURATION : DType;
  Optional : DType -> DType;
  wrap : Hint -> DType;
  typehint : DType -> Hint;
  dtype_issubclass : DType -> DType -> bool;
  (* Python objects used as type hints *)
  Any : Hint;
  int : Hint;
  float : Hint;
  str : Hint;
  hint_of_dtype : DType -> Hint;
  wrap_dtype : forall d, wrap (hint_of_dtype d) = d;
  (* pd.api.types *)
  is_integer_dtype : PdDtype -> bool;
  is_float_dtype : PdDtype -> bool;
  is_bool_dtype : PdDtype -> bool;
  is_string_dtype : PdDtype -> bool;
  is_datetime64_ns_dtype : PdDtype -> bool;
  is_timedelta64_dtype : PdDtype -> bool;
  is_object_dtype : PdDtype -> bool;
  (* built-ins: [int(s)] and [float(s)] succeed on a string, [str] of a
     list and of a pandas index, [hash] of the leaves and of a tuple of
     hashes *)
  int_parses : string -> bool;
  float_parses : string -> bool;
  str_of_list : list string -> string;
  str_of_index : list string -> string;
  (* csv.reader with QUOTE_NONE *)
  CsvException : Type;
  Dialect : Type;
  Unfinished : Type;
  csv_dialect : string -> option string -> CsvException + Dialect;
  csv_line : Dialect -> option Unfinished -> string
             -> CsvException + (Unfinished + list string);
  csv_end : Dialect -> Unfinished -> option (list string);
  hash_str : string -> Z;
  hash_bool : bool -> Z;
  hash_dtype : DType -> Z;
  hash_value : Value -> option Z;
  hash_undefined : Z;
  hash_tuple : list Z -> Z
}.

(* ------------------------------------------------------------------ *)
(** ** Exceptions *)
(* ------------------------------------------------------------------ *)

(** The message of an exception, one constructor per [raise] or [assert]
    of the module, with the values its text is formatted from. *)
Inductive message {E : External} :=
| msg_should_be_column_definition (name : string)
    (* "`{name}` should be a column definition, found {type(column)}" *)
| msg_annotation_does_not_match (name : string)
    (* "type annotation of column `{name}` does not match column definition" *)
| msg_lack_type_annotation (names : string)
    (* "definitions of columns {names} lack type annotation" *)
| msg_has_to_be_existing_column
    (* "Schema.update_types() argument name has to be an existing column name." *)
| msg_does_not_have_columns (missing_columns : list string)
    (* "schema does not have columns {missing_columns}" *)
| msg_type_does_not_match (col : string) (self_type other_type : Hint)
                          (self_name other_name : string)
    (* "type of column {col} does not match - its type is ... in ... and ... in ..." *)
| msg_extra_columns (extra_columns : list string)
    (* "there are extra columns: {extra_columns} which are not present ..." *)
| msg_primary_keys_do_not_match (self_keys other_keys : option (list string))
                                (self_name other_name : string)
    (* "primary keys in the schemas do not match - they are ... and ..." *)
| msg_empty_csv
    (* "can't generate Schema based on an empty CSV file" *)
| msg_not_a_string
    (* [int(None)], [float(None)]: raised by the built-in *)
| msg_islice_stop
    (* [islice(it, n)] with a negative [n]: raised by the built-in *)
| msg_not_callable (attribute : string)
    (* "'ColumnDefinition' object is not callable": the class attribute
       [attribute] is called as a method *)
| msg_unhashable
    (* "unhashable type: ...": raised by the built-in [hash] *)
| msg_class_attribute (attribute : string)
    (* raised by [type.__new__] on a class dictionary whose entry
       [attribute] ([__slots__], [__qualname__], [__classcell__]) is not
       what the name requires *)
| msg_no_items
    (* "'ColumnDefinition' object has no attribute 'items'": raised by
       [get_type_hints] on a class whose [__annotations__] is a column
       definition *).

Inductive exn {E : External} :=
| AssertionError (msg : option message)   (* [None]: a bare [assert] *)
| ValueError (msg : message)
| TypeError (msg : message)
| KeyError (key : string)
| IndexError
| AttributeError (msg : message)
| CsvRaised (e : CsvException)   (* raised by the [csv] module *).

Inductive result {E : External} (A : Type) :=
| Ok (a : A)
| Raise (e : exn).
Arguments Ok {E A} a.
Arguments Raise {E A} e.

Definition bind {E : External} {A B : Type}
    (m : result A) (f : A -> result B) : result B :=
  match m with
  | Ok a => f a
  | Raise e => Raise e
  end.

Notation "x <- m ;; k" := (bind m (fun x => k))
  (at level 61, m at next level, right associativity).
Notation "' p <- m ;; k" := (bind m (fun x => let p := x in k))
  (at level 61, p pattern, m at next level, right associativity).

(** A [for] loop whose body may raise. *)
Fixpoint for_each {E : External} {A S : Type}
    (body : S -> A -> result S) (l : list A) (s : S) : result S :=
  match l with
  | [] => Ok s
  | x :: l' => s' <- body s x ;; for_each body l' s'
  end.

(** [[f(x) for x in l]] with a body that may raise. *)
Fixpoint map_result {E : External} {A B : Type} (f : A -> result B)
    (l : list A) : result (list B) :=
  match l with
  | [] => Ok []
  | x :: l' => y <- f x ;; ys <- map_result f l' ;; Ok (y :: ys)
  end.

(** [assert cond, msg], with assertions enabled (the interpreter does not
    run with [-O]). *)
Definition assert_ {E : External} (cond : bool) (msg : option message)
    : result unit :=
  if cond then Ok tt else Raise (AssertionError msg).

(* ------------------------------------------------------------------ *)
(** ** Columns, properties and schemas *)
(* ------------------------------------------------------------------ *)

Section Schema.
Context {E : External}.

(** [default_value] is any Python object; the instance
    [_no_default_value_marker] of [_Undefined] marks its absence. *)
Inductive DefaultValue :=
| _no_default_value_marker
| Default (v : Value).

Definition DefaultValue_eqb (a b : DefaultValue) : bool :=
  match a, b with
  | _no_default_value_marker, _no_default_value_marker => true
  | Default v, Default w => if Value_eq_dec v w then true else false
  | _, _ => false
  end.

Record SchemaProperties := {
  append_only : bool
}.

Record ColumnDefinition := {
  def_primary_key : bool;
  def_default_value : DefaultValue;
  def_dtype : option DType;
  def_name : option string
}.

Record ColumnSchema := {
  primary_key : bool;
  default_value : DefaultValue;
  dtype : DType;
  name : string;
  col_append_only : bool
}.

(** [ColumnSchema.has_default_value] *)
Definition has_default_value (c : ColumnSchema) : bool :=
  negb (DefaultValue_eqb (default_value c) _no_default_value_marker).

(** [ColumnSchema.to_definition] *)
Definition to_definition (c : ColumnSchema) : ColumnDefinition :=
  {| def_primary_key := primary_key c;
     def_default_value := default_value c;
     def_dtype := Some (dtype c);
     def_name := Some (name c) |}.

(** [column_definition(primary_key=, default_value=, dtype=, name=)] *)
Definition column_definition (primary_key : bool) (default_value : DefaultValue)
    (dtype : option Hint) (name : option string) : ColumnDefinition :=
  {| def_primary_key := primary_key;
     def_default_value := default_value;
     def_dtype := option_map wrap dtype;
     def_name := name |}.

(** [dataclasses.replace(c, dtype=d)] and [dataclasses.replace(c, primary_key=True)] *)
Definition replace_dtype (c : ColumnDefinition) (d : DType) : ColumnDefinition :=
  {| def_primary_key := def_primary_key c;
     def_default_value := def_default_value c;
     def_dtype := Some d;
     def_name := def_name c |}.

Definition replace_primary_key (c : ColumnDefinition) (b : bool)
    : ColumnDefinition :=
  {| def_primary_key := b;
     def_default_value := def_default_value c;
     def_dtype := def_dtype c;
     def_name := def_name c |}.

(** An attribute of a class body or of the dictionary given to the
    metaclass: a column definition or some other object. *)
Inductive attr :=
| ADef (c : ColumnDefinition)
| AOther (v : Value).

(** A schema is a class made by [SchemaMetaclass] with [Schema] as its only
    base, as every builder of the module makes it.  [__name__] is the name
    of the class, a string that [type] accepts (it rejects a name with a
    null character).  [__annotations__] and
    [__dict__] are the annotations and the other entries of the dictionary
    the class was made from ([__metaclass__] and [__orig__] hold nothing the
    module reads back, and the entries that [type] and [get_type_hints]
    themselves interpret are dealt with where a builder can produce them,
    in [class_creation]); the last four fields are set by
    [SchemaMetaclass.__init__].  With [Schema] as only base, which has no
    annotation of its own, [get_type_hints(schema)] is [__annotations__]. *)
Record Schema := {
  __name__ : string;
  __annotations__ : Dict.dict Hint;
  __dict__ : Dict.dict attr;
  __properties__ : SchemaProperties;
  __columns__ : Dict.dict ColumnSchema;
  __dtypes__ : Dict.dict DType;
  __types__ : Dict.dict Hint
}.

(** [_cls_fields]: the entries of the class dictionary whose name does not
    start with two underscores. *)
Definition _cls_fields (d : Dict.dict attr) : Dict.dict attr :=
  filter (fun kv => negb (String.prefix "__" (fst kv))) d.

(** [column.name or name] *)
Definition name_or (column_name : option string) (name : string) : string :=
  match column_name with
  | Some n => if String.eqb n EmptyString then name else n
  | None => name
  end.

(** One turn of the loop of [_create_column_definitions]. *)
Definition create_column (append_only : bool)
    (st : Dict.dict attr * Dict.dict ColumnSchema) (item : string * Hint)
    : result (Dict.dict attr * Dict.dict ColumnSchema) :=
  let '(fields, columns) := st in
  let '(name, annotation) := item in
  let col_dtype := wrap annotation in
  let '(column, fields) :=
    Dict.pop name
      (ADef (column_definition false _no_default_value_marker
               (Some (hint_of_dtype col_dtype)) None))
      fields in
  match column with
  | AOther _ => Raise (ValueError (msg_should_be_column_definition name))
  | ADef column =>
      let dtype := match def_dtype column with
                   | Some d => d
                   | None => col_dtype
                   end in
      if DType_eq_dec col_dtype dtype then
        let name := name_or (def_name column) name in
        Ok (fields,
            Dict.set name
              {| primary_key := def_primary_key column;
                 default_value := def_default_value column;
                 dtype := wrap (hint_of_dtype dtype);
                 name := name;
                 col_append_only := append_only |}
              columns)
      else Raise (TypeError (msg_annotation_does_not_match name))
  end.

(** [_create_column_definitions], on the annotations, the class dictionary
    and the properties of the schema under construction. *)
Definition _create_column_definitions (annotations : Dict.dict Hint)
    (cls_dict : Dict.dict attr) (properties : SchemaProperties)
    : result (Dict.dict ColumnSchema) :=
  let fields := _cls_fields cls_dict in
  '(fields, columns) <-
     for_each (create_column (append_only properties)) annotations (fields, []) ;;
  match fields with
  | [] => Ok columns
  | _ :: _ =>
      let names := String.concat ", " (Dict.keys fields) in
      Raise (ValueError (msg_lack_type_annotation names))
  end.

(** [SchemaMetaclass(_name, (Schema,), _dict, append_only=...)] *)
Definition SchemaMetaclass (_name : string) (annotations : Dict.dict Hint)
    (_dict : Dict.dict attr) (append_only : bool) : result Schema :=
  let properties := {| append_only := append_only |} in
  columns <- _create_column_definitions annotations _dict properties ;;
  let dtypes := map (fun kv => (fst kv, dtype (snd kv))) columns in
  Ok {| __name__ := _name;
        __annotations__ := annotations;
        __dict__ := _dict;
        __properties__ := properties;
        __columns__ := columns;
        __dtypes__ := dtypes;
        __types__ := map (fun kv => (fst kv, typehint (snd kv))) dtypes |}.

(** [_schema_builder(_name, _dict, properties=)] *)
Definition _schema_builder (_name : string) (annotations : Dict.dict Hint)
    (_dict : Dict.dict attr) (properties : SchemaProperties) : result Schema :=
  SchemaMetaclass _name annotations _dict (append_only properties).

(** [SchemaProperties()] *)
Definition default_properties : SchemaProperties := {| append_only := false |}.

(** [hash(default_value)] of a column definition or schema: the marker is
    an ordinary object. *)
Definition hash_default (d : DefaultValue) : result Z :=
  match d with
  | _no_default_value_marker => Ok hash_undefined
  | Default v => match hash_value v with
                 | Some h => Ok h
                 | None => Raise (TypeError msg_unhashable)
                 end
  end.

(** What making the class does with the dictionary
    [{"__metaclass__": ..., "__annotations__": ..., **columns}] of
    [schema_builder] before any column is looked at, and the annotations
    that [get_type_hints] then finds.  [type.__new__] reads the entries
    [__slots__], [__qualname__] and [__classcell__], in this order, and
    raises [TypeError] on a column definition there.  [get_type_hints]
    returns no annotation at all when the class has a true attribute
    [__no_type_check__], as a column definition is; otherwise it looks the
    module of the class up in [sys.modules] under the entry [__module__],
    which hashes a column definition stored there, and calls [items] on
    the entry [__annotations__], which a column of that name has
    replaced. *)
Definition class_creation (columns : Dict.dict ColumnDefinition)
    (annotations : Dict.dict Hint) : result (Dict.dict Hint) :=
  if Dict.contains "__slots__" columns then
    Raise (TypeError (msg_class_attribute "__slots__"))
  else if Dict.contains "__qualname__" columns then
    Raise (TypeError (msg_class_attribute "__qualname__"))
  else if Dict.contains "__classcell__" columns then
    Raise (TypeError (msg_class_attribute "__classcell__"))
  else if Dict.contains "__no_type_check__" columns then Ok []
  else
    _ <- match Dict.get "__module__" columns with
         | Some c => _ <- hash_default (def_default_value c) ;; Ok tt
         | None => Ok tt
         end ;;
    if Dict.contains "__annotations__" columns then
      Raise (AttributeError msg_no_items)
    else Ok annotations.

(** [schema_builder(columns, name=, properties=)] *)
Definition schema_builder (columns : Dict.dict ColumnDefinition)
    (name : option string) (properties : SchemaProperties) : result Schema :=
  let name := match name with
              | Some n => n
              | None => ("custom_schema(" ++ str_of_list (Dict.keys columns) ++ ")")%string
              end in
  let annotations :=
    map (fun kv => (fst kv, match def_dtype (snd kv) with
                            | Some d => hint_of_dtype d
                            | None => Any
                            end)) columns in
  annotations <- class_creation columns annotations ;;
  _schema_builder name annotations
    (map (fun kv => (fst kv, ADef (snd kv))) columns) properties.

End Schema.

(* ------------------------------------------------------------------ *)
(** ** Queries, algebra and comparisons *)
(* ------------------------------------------------------------------ *)

Section Operations.
Context {E : External}.

(** A schema value is one that the metaclass returned, for a dictionary
    of annotations and a class dictionary (each key at most once). *)
Definition built (s : Schema) : Prop :=
  exists _name annotations _dict append_only,
    NoDup (Dict.keys annotations) /\ NoDup (Dict.keys _dict) /\
    SchemaMetaclass _name annotations _dict append_only = Ok s.

(** [d[k]] *)
Definition getitem {V : Type} (d : Dict.dict V) (k : string) : result V :=
  match Dict.get k d with
  | Some v => Ok v
  | None => Raise (KeyError k)
  end.

(** A call [cls.method()] of a method that [SchemaMetaclass] defines.
    The attribute is looked up in the class before the metaclass, whose
    functions are no data descriptors: an entry of the class dictionary
    under the name of the method is what gets called.  In a schema the
    metaclass returned such an entry is a column definition (under a name
    without two leading underscores anything else makes
    [_create_column_definitions] raise), and a column definition is not
    callable. *)
Definition shadowed (method : string) (cls : Schema) : bool :=
  Dict.contains method (__dict__ cls).

Definition call_method {A : Type} (cls : Schema) (method : string)
    (body : Schema -> A) : result A :=
  if shadowed method cls then Raise (TypeError (msg_not_callable method))
  else Ok (body cls).

(** [SchemaMetaclass.keys] *)
Definition keys (s : Schema) : list string := Dict.keys (__columns__ s).

(** [SchemaMetaclass.column_names] *)
Definition column_names (s : Schema) : result (list string) :=
  call_method s "keys" keys.

(** [SchemaMetaclass.typehints] *)
Definition typehints (s : Schema) : Dict.dict Hint := __types__ s.

(** [SchemaMetaclass.primary_key_columns] *)
Definition primary_key_columns (s : Schema) : option (list string) :=
  let pkey_fields :=
    map fst (filter (fun kv => primary_key (snd kv)) (__columns__ s)) in
  match pkey_fields with
  | [] => None
  | _ :: _ => Some pkey_fields
  end.

(** [SchemaMetaclass.default_values] *)
Definition default_values (s : Schema) : Dict.dict DefaultValue :=
  map (fun kv => (fst kv, default_value (snd kv)))
      (filter (fun kv => has_default_value (snd kv)) (__columns__ s)).

(** Comparisons of key views, as [dict_keys] implements them: the lengths
    are compared first, then every key of the shorter side is looked up in
    the other. *)
Definition all_contained_in (a b : list string) : bool :=
  forallb (fun k => existsb (String.eqb k) b) a.

Definition keys_eq (a b : list string) : bool :=
  Nat.eqb (List.length a) (List.length b) && all_contained_in a b.

Definition keys_lt (a b : list string) : bool :=
  Nat.ltb (List.length a) (List.length b) && all_contained_in a b.

Definition keys_gt (a b : list string) : bool :=
  Nat.ltb (List.length b) (List.length a) && all_contained_in b a.

(** [a - b] on key views: the keys of [a] that [b] lacks. *)
Definition keys_sub (a b : list string) : list string :=
  filter (fun k => negb (existsb (String.eqb k) b)) a.

(** [schema_add( *schemas )] *)
Definition schema_add (schemas : list Schema) : result Schema :=
  let annots_list := map __annotations__ schemas in
  let annotations := Dict.of_chain annots_list in
  _ <- assert_ (Nat.eqb (List.length annotations)
                           (list_sum (map (@List.length _) annots_list)))
         None ;;
  let fields_list := map (fun s => _cls_fields (__dict__ s)) schemas in
  let fields := Dict.of_chain fields_list in
  _ <- assert_ (Nat.eqb (List.length fields)
                           (list_sum (map (@List.length _) fields_list)))
         None ;;
  _schema_builder (String.concat "_" (map __name__ schemas))
    annotations fields default_properties.

(** [SchemaMetaclass.update_types( **kwargs )] *)
Definition update_types (self : Schema) (kwargs : Dict.dict Hint)
    : result Schema :=
  let columns :=
    Dict.of_items
      (map (fun col => (name col, to_definition col))
           (Dict.values (__columns__ self))) in
  columns <-
    for_each
      (fun columns kv =>
         let '(name, dtype) := kv in
         if negb (Dict.contains name columns) then
           Raise (ValueError msg_has_to_be_existing_column)
         else
           c <- getitem columns name ;;
           Ok (Dict.set name (replace_dtype c (wrap dtype)) columns))
      kwargs columns ;;
  schema_builder columns None (__properties__ self).

(** Equality of the frozen dataclasses, field by field. *)
Definition SchemaProperties_eqb (p q : SchemaProperties) : bool :=
  Bool.eqb (append_only p) (append_only q).

Definition ColumnSchema_eqb (c d : ColumnSchema) : bool :=
  Bool.eqb (primary_key c) (primary_key d)
  && DefaultValue_eqb (default_value c) (default_value d)
  && (if DType_eq_dec (dtype c) (dtype d) then true else false)
  && String.eqb (name c) (name d)
  && Bool.eqb (col_append_only c) (col_append_only d).

(** Equality of tuples: same length and equal items. *)
Fixpoint tuple_eqb {A : Type} (eqb : A -> A -> bool) (a b : list A) : bool :=
  match a, b with
  | [], [] => true
  | x :: a', y :: b' => eqb x y && tuple_eqb eqb a' b'
  | _, _ => false
  end.

(** [SchemaMetaclass._as_tuple] *)
Definition _as_tuple (s : Schema)
    : SchemaProperties * list (string * ColumnSchema) :=
  (__properties__ s, __columns__ s).

(** [==] on two results of [_as_tuple]. *)
Definition as_tuple_eqb
    (a b : SchemaProperties * list (string * ColumnSchema)) : bool :=
  let '(p, cs) := a in
  let '(q, ds) := b in
  SchemaProperties_eqb p q
  && tuple_eqb (fun x y => String.eqb (fst x) (fst y)
                           && ColumnSchema_eqb (snd x) (snd y)) cs ds.

(** [SchemaMetaclass.__eq__] between two schemas. *)
Definition __eq__ (self other : Schema) : result bool :=
  a <- call_method self "_as_tuple" _as_tuple ;;
  b <- call_method other "_as_tuple" _as_tuple ;;
  Ok (as_tuple_eqb a b).

(** Hashes of the frozen dataclasses and of [_as_tuple]: the hash of the
    tuple of the hashes of the fields, taken in order; an unhashable
    default value makes [hash] raise. *)
Definition hash_properties (p : SchemaProperties) : Z :=
  hash_tuple [hash_bool (append_only p)].

Definition hash_column (c : ColumnSchema) : result Z :=
  d <- hash_default (default_value c) ;;
  Ok (hash_tuple [hash_bool (primary_key c); d;
                  hash_dtype (dtype c); hash_str (name c);
                  hash_bool (col_append_only c)]).

Definition hash_as_tuple
    (a : SchemaProperties * list (string * ColumnSchema)) : result Z :=
  let '(p, cs) := a in
  hs <- map_result (fun kv => h <- hash_column (snd kv) ;;
                              Ok (hash_tuple [hash_str (fst kv); h])) cs ;;
  Ok (hash_tuple [hash_properties p; hash_tuple hs]).

(** [SchemaMetaclass.__hash__] *)
Definition __hash__ (self : Schema) : result Z :=
  a <- call_method self "_as_tuple" _as_tuple ;;
  hash_as_tuple a.

(** [is_subschema(left, right)] *)
Definition is_subschema (left right : Schema) : result bool :=
  left_keys <- call_method left "keys" keys ;;
  right_keys <- call_method right "keys" keys ;;
  if negb (keys_eq left_keys right_keys) then Ok false
  else
    left_keys <- call_method left "keys" keys ;;
    (fix loop (ks : list string) : result bool :=
       match ks with
       | [] => Ok true
       | k :: ks' =>
           l <- getitem (__dtypes__ left) k ;;
           r <- getitem (__dtypes__ right) k ;;
           if negb (dtype_issubclass l r) then Ok false else loop ks'
       end) left_keys.

(** Equality of two results of [primary_key_columns]. *)
Definition primary_keys_eqb (a b : option (list string)) : bool :=
  match a, b with
  | None, None => true
  | Some x, Some y => tuple_eqb String.eqb x y
  | _, _ => false
  end.

(** [SchemaMetaclass.assert_equal_to(self, other, allow_superset=,
    ignore_primary_keys=)] *)
Definition assert_equal_to (self other : Schema)
    (allow_superset ignore_primary_keys : bool) : result unit :=
  self_dict <- call_method self "typehints" typehints ;;
  other_dict <- call_method other "typehints" typehints ;;
  (* Check if self has all columns of other *)
  _ <- (if keys_lt (Dict.keys self_dict) (Dict.keys other_dict) then
          let missing_columns :=
            keys_sub (Dict.keys other_dict) (Dict.keys self_dict) in
          Raise (AssertionError
                   (Some (msg_does_not_have_columns missing_columns)))
        else Ok tt) ;;
  (* Check if types of columns are the same *)
  _ <- for_each
         (fun _ col =>
            o <- getitem other_dict col ;;
            s <- getitem self_dict col ;;
            assert_ (if Hint_eq_dec o s then true else false)
              (Some (msg_type_does_not_match col s o
                       (__name__ self) (__name__ other))))
         (Dict.keys other_dict) tt ;;
  (* When allow_superset=False, check that self does not have extra columns *)
  _ <- (if negb allow_superset
           && keys_gt (Dict.keys self_dict) (Dict.keys other_dict) then
          let extra_columns :=
            keys_sub (Dict.keys self_dict) (Dict.keys other_dict) in
          Raise (AssertionError (Some (msg_extra_columns extra_columns)))
        else Ok tt) ;;
  (* Check whether primary keys are the same *)
  if negb ignore_primary_keys then
    self_keys <- call_method self "primary_key_columns" primary_key_columns ;;
    other_keys <- call_method other "primary_key_columns" primary_key_columns ;;
    assert_ (primary_keys_eqb self_keys other_keys)
      (Some (msg_primary_keys_do_not_match self_keys other_keys
               (__name__ self) (__name__ other)))
  else Ok tt.

End Operations.

(* ------------------------------------------------------------------ *)
(** ** Inference from a pandas sample *)
(* ------------------------------------------------------------------ *)

Section Pandas.
Context {E : External}.

(** What [_type_converter] observes of one value of a series. *)
Record cell := {
  is_sequence : bool;   (* [isinstance(x, (tuple, list))] *)
  is_na : bool;         (* [isna] and its alias [isnull] *)
  is_ndarray : bool     (* [isinstance(x, np.ndarray)] *)
}.

(** A series: its values, its storage dtype and, for a datetime dtype, the
    time zone [series.dt.tz]. *)
Record Series := {
  cells : list cell;
  series_dtype : PdDtype;
  series_tz : option string
}.

(** The [if]/[elif] chain of [_type_converter] on [series.dtype], which
    gives [ret_type]. *)
Definition storage_kind_type (series : Series) : DType :=
  if is_integer_dtype (series_dtype series) then INT
  else if is_float_dtype (series_dtype series) then FLOAT
  else if is_bool_dtype (series_dtype series) then BOOL
  else if is_string_dtype (series_dtype series) then STR
  else if is_datetime64_ns_dtype (series_dtype series) then
    match series_tz series with
    | None => DATE_TIME_NAIVE
    | Some _ => DATE_TIME_UTC
    end
  else if is_timedelta64_dtype (series_dtype series) then DURATION
  else if is_object_dtype (series_dtype series) then ANY
  else ANY.

(** [_type_converter] *)
Definition _type_converter (series : Series) : DType :=
  if forallb is_sequence (cells series) then ANY_TUPLE
  else if forallb (fun x => is_na x || is_na x) (cells series) then NONE
  else if forallb is_ndarray (cells series) then ARRAY
  else
    let ret_type := storage_kind_type series in
    if existsb is_na (cells series) || existsb is_na (cells series)
    then Optional ret_type
    else ret_type.

(** [schema_from_pandas(dframe, id_from=, name=)] *)
Definition schema_from_pandas (dframe : Dict.dict Series)
    (id_from : option (list string)) (name : option string) : result Schema :=
  let name := match name with
              | Some n => n
              | None => ("schema_from_pandas("
                          ++ str_of_index (Dict.keys dframe) ++ ")")%string
              end in
  let id_from := match id_from with
                 | Some l => l
                 | None => []
                 end in
  let columns :=
    map (fun kv =>
           (fst kv,
            column_definition false _no_default_value_marker
              (Some (hint_of_dtype (_type_converter (snd kv)))) None))
        dframe in
  columns <-
    for_each (fun columns name =>
                c <- getitem columns name ;;
                Ok (Dict.set name (replace_primary_key c true) columns))
             id_from columns ;;
  (* [for name in id_from] has rebound [name] *)
  let name := last id_from name in
  schema_builder columns (Some name) {| append_only := true |}.

End Pandas.

(* ------------------------------------------------------------------ *)
(** ** Inference from a CSV file *)
(* ------------------------------------------------------------------ *)

(** Lines are strings of characters with code points below 256.
    [str.isspace] on one such character: *)
Definition isspace (c : ascii) : bool :=
  let n := nat_of_ascii c in
  (Nat.leb 9 n && Nat.leb n 13) || (Nat.leb 28 n && Nat.leb n 32)
  || Nat.eqb n 133 || Nat.eqb n 160.

(** [str.lstrip()] *)
Fixpoint lstrip (s : string) : string :=
  match s with
  | EmptyString => EmptyString
  | String c s' => if isspace c then lstrip s' else s
  end.


Section Csv.
Context {E : External}.

(** A generator over a finite file, as the trace of what successive
    [next] calls give: a line and the rest, the end, or an exception.  A
    consumer that stops early never sees what comes later. *)
Inductive generator :=
| Yield (line : string) (rest : generator)
| StopIteration
| Raised (e : exn).

(** [remove_comments_from_file(f, comment_char)]; [line.lstrip()[0]] raises
    [IndexError] on an empty string. *)
Fixpoint remove_comments_from_file (f : list string)
    (comment_char : option string) : generator :=
  match f with
  | [] => StopIteration
  | line :: f' =>
      match lstrip line with
      | EmptyString => Raised IndexError
      | String c _ =>
          let differs :=
            match comment_char with
            | Some cc => negb (String.eqb (String c EmptyString) cc)
            | None => true
            end in
          if differs then Yield line (remove_comments_from_file f' comment_char)
          else remove_comments_from_file f' comment_char
      end
  end.

(** [next(reader)] on the reader of the [csv] module: lines are pulled
    until one completes a record; [unfinished] is what the lines pulled so
    far for this record have left.  The result is the record, [None] for
    [StopIteration], and the generator as the call leaves it. *)
Fixpoint reader_next (dialect : Dialect) (unfinished : option Unfinished)
    (g : generator) : result (option (list string) * generator) :=
  match g with
  | Yield line rest =>
      match csv_line dialect unfinished line with
      | inl e => Raise (CsvRaised e)
      | inr (inl u) => reader_next dialect (Some u) rest
      | inr (inr record) => Ok (Some record, rest)
      end
  | StopIteration =>
      Ok (match unfinished with
          | Some u => csv_end dialect u
          | None => None
          end, StopIteration)
  | Raised e => Raise e
  end.

(** [DictReader.fieldnames], first read: the first record of the
    underlying reader, [None] when there is none. *)
Definition fieldnames (dialect : Dialect) (g : generator)
    : result (option (list string) * generator) :=
  reader_next dialect None g.

(** The dictionary [DictReader.__next__] makes of a record: the fields
    under the field names, [None] (the [restval]) under the names that a
    short record leaves without a field.  The surplus of a long record goes
    under the key [None], which no column name reads. *)
Definition row_dict (fieldnames row : list string)
    : Dict.dict (option string) :=
  let d := Dict.of_items (combine fieldnames (map Some row)) in
  fold_left (fun d key => Dict.set key None d)
            (skipn (List.length row) fieldnames) d.

(** [list(csv_reader)] for [n = None] and [list(islice(csv_reader, n))] for
    [n = Some n]: [DictReader.__next__] takes records from the reader as
    [reader_next] does and skips the empty ones, and [islice] asks for
    nothing once it has [n] items. *)
Fixpoint read_rows (dialect : Dialect) (fieldnames : list string)
    (unfinished : option Unfinished) (g : generator) (n : option nat)
    : result (list (Dict.dict (option string))) :=
  match n with
  | Some 0 => Ok []
  | _ =>
      match g with
      | StopIteration =>
          match unfinished with
          | Some u =>
              match csv_end dialect u with
              | Some (field :: fields) =>
                  Ok [row_dict fieldnames (field :: fields)]
              | _ => Ok []
              end
          | None => Ok []
          end
      | Raised e => Raise e
      | Yield line rest =>
          match csv_line dialect unfinished line with
          | inl e => Raise (CsvRaised e)
          | inr (inl u) => read_rows dialect fieldnames (Some u) rest n
          | inr (inr []) => read_rows dialect fieldnames None rest n
          | inr (inr row) =>
              rows <- read_rows dialect fieldnames None rest
                        (option_map pred n) ;;
              Ok (row_dict fieldnames row :: rows)
          end
      end
  end.

(** [_is_parsable_to(s, parse_fun)] for [int] and [float]: a [ValueError]
    of the parser is caught; on [None] the parser raises [TypeError],
    which is not. *)
Definition _is_parsable_to (s : option string) (parse_fun : string -> bool)
    : result bool :=
  match s with
  | Some s => Ok (parse_fun s)
  | None => Raise (TypeError msg_not_a_string)
  end.

(** [all(f(x) for x in l)], which stops at the first false. *)
Fixpoint all_ {A : Type} (f : A -> result bool) (l : list A) : result bool :=
  match l with
  | [] => Ok true
  | x :: l' => b <- f x ;; if b then all_ f l' else Ok false
  end.

(** [schema_from_csv.choose_type] *)
Definition choose_type (entries : list (option string)) : result Hint :=
  if Nat.eqb (List.length entries) 0 then Ok Any
  else
    b <- all_ (fun s => _is_parsable_to s int_parses) entries ;;
    if b then Ok int
    else
      b <- all_ (fun s => _is_parsable_to s float_parses) entries ;;
      if b then Ok float
      else Ok str.

(** [schema_from_csv(path, name=, properties=, delimiter=,
    comment_character=, escape=, num_parsed_rows=)], on the lines of the
    file at [path], which [open] has opened and which reads as text. *)
Definition schema_from_csv (f : list string) (name : option string)
    (properties : SchemaProperties) (delimiter : string)
    (comment_character : option string) (escape : option string)
    (num_parsed_rows : option Z) : result Schema :=
  let g := remove_comments_from_file f comment_character in
  dialect <- match csv_dialect delimiter escape with
             | inl e => Raise (CsvRaised e)
             | inr dialect => Ok dialect
             end ;;
  '(names, g) <- fieldnames dialect g ;;
  match names with
  | None => Raise (ValueError msg_empty_csv)
  | Some column_names =>
      csv_data <-
        match num_parsed_rows with
        | None => read_rows dialect column_names None g None
        | Some n =>
            if (n <? 0)%Z then Raise (ValueError msg_islice_stop)
            else read_rows dialect column_names None g (Some (Z.to_nat n))
        end ;;
      column_types <-
        map_result
          (fun column_name =>
             entries <- map_result (fun row => getitem row column_name)
                          csv_data ;;
             t <- choose_type entries ;;
             Ok (column_name, t))
          column_names ;;
      let column_types := Dict.of_items column_types in
      columns <-
        map_result
          (fun column_name =>
             t <- getitem column_types column_name ;;
             Ok (column_name,
                 column_definition false _no_default_value_marker (Some t) None))
          column_names ;;
      schema_builder (Dict.of_items columns) name properties
  end.

End Csv.

(* ------------------------------------------------------------------ *)
(** ** An instance of the interface, for running the definitions *)
(* ------------------------------------------------------------------ *)

Module Example.

(** Modelled from the spec: the data-type algebra ([pathway.internals.dtype])
    is missing from the sources at hand.  This instance has what the spec
    says it exposes: the well-known base types, an [Optional] wrapper, an
    [Any] top type, [wrap] from native types and an is-subtype relation in
    which every type is below [ANY] and below its own [Optional]. *)
Inductive data_type :=
| D_ANY | D_ANY_TUPLE | D_NONE | D_ARRAY | D_INT | D_FLOAT | D_BOOL | D_STR
| D_DATE_TIME_NAIVE | D_DATE_TIME_UTC | D_DURATION
| D_Optional (t : data_type).

Inductive hint :=
| H_Any | H_int | H_float | H_str | H_bool
| H_dtype (d : data_type).

Inductive pd_dtype :=
| pd_int64 | pd_float64 | pd_bool | pd_string | pd_datetime64_ns
| pd_timedelta64 | pd_object.

Definition dtype_eq_dec (x y : data_type) : {x = y} + {x <> y}.
Proof. decide equality. Defined.

Definition hint_eq_dec (x y : hint) : {x = y} + {x <> y}.
Proof. decide equality. apply dtype_eq_dec. Defined.

Definition wrap_hint (h : hint) : data_type :=
  match h with
  | H_Any => D_ANY
  | H_int => D_INT
  | H_float => D_FLOAT
  | H_str => D_STR
  | H_bool => D_BOOL
  | H_dtype d => d
  end.

Definition typehint_of (d : data_type) : hint :=
  match d with
  | D_ANY => H_Any
  | D_INT => H_int
  | D_FLOAT => H_float
  | D_STR => H_str
  | D_BOOL => H_bool
  | _ => H_dtype d
  end.

Fixpoint issubclass (a b : data_type) : bool :=
  if dtype_eq_dec a b then true
  else match b with
       | D_ANY => true
       | D_Optional b' =>
           match a with
           | D_NONE => true
           | _ => issubclass a b'
           end
       | _ => false
       end.

(** Readers of ASCII numerals standing for [int(s)] and [float(s)]:
    surrounding white space, a sign, digits with single underscores between
    them; for [float] also a fraction, an exponent, [inf], [infinity] and
    [nan]. *)
Definition is_digit (c : ascii) : bool :=
  let n := nat_of_ascii c in Nat.leb 48 n && Nat.leb n 57.

Fixpoint digitpart_from (after_digit : bool) (l : list ascii) : bool :=
  match l with
  | [] => after_digit
  | c :: l' =>
      if is_digit c then digitpart_from true l'
      else if Ascii.eqb c "_" then after_digit && digitpart_from false l'
      else false
  end.

Definition digitpart (l : list ascii) : bool := digitpart_from false l.

Fixpoint lstrip_list (l : list ascii) : list ascii :=
  match l with
  | [] => []
  | c :: l' => if isspace c then lstrip_list l' else l
  end.

Definition strip_list (l : list ascii) : list ascii :=
  rev (lstrip_list (rev (lstrip_list l))).

Definition drop_sign (l : list ascii) : list ascii :=
  match l with
  | c :: l' => if Ascii.eqb c "+" || Ascii.eqb c "-" then l' else l
  | [] => []
  end.

Definition int_literal (s : string) : bool :=
  digitpart (drop_sign (strip_list (list_ascii_of_string s))).

(** The text before the first character satisfying [p], and the text after
    it when there is one. *)
Fixpoint split_at (p : ascii -> bool) (l : list ascii)
    : list ascii * option (list ascii) :=
  match l with
  | [] => ([], None)
  | c :: l' =>
      if p c then ([], Some l')
      else let '(a, b) := split_at p l' in (c :: a, b)
  end.

Definition lower (c : ascii) : ascii :=
  let n := nat_of_ascii c in
  if Nat.leb 65 n && Nat.leb n 90 then ascii_of_nat (n + 32) else c.

Definition mantissa (l : list ascii) : bool :=
  match split_at (fun c => Ascii.eqb c ".") l with
  | (i, None) => digitpart i
  | ([], Some f) => digitpart f
  | (i, Some []) => digitpart i
  | (i, Some f) => digitpart i && digitpart f
  end.

Definition float_literal (s : string) : bool :=
  let l := drop_sign (strip_list (list_ascii_of_string s)) in
  let word := string_of_list_ascii (map lower l) in
  if String.eqb word "inf" || String.eqb word "infinity" || String.eqb word "nan"
  then true
  else
    match split_at (fun c => Ascii.eqb (lower c) "e") l with
    | (m, None) => mantissa m
    | (m, Some e) => mantissa m && digitpart (drop_sign e)
    end.

(** A reader of records after the one of the [csv] module under
    [QUOTE_NONE]: a delimiter of one character, an escape character that is
    absent or one character, and the automaton that the module runs over
    the characters of a line and the end-of-line marker it adds.  Fields
    and the field in progress are kept in reverse. *)
Inductive csv_exception :=
| bad_delimiter         (* TypeError: "delimiter" must be a 1-character string *)
| bad_escapechar        (* TypeError: "escapechar" must be a 1-character string or None *)
| field_limit           (* _csv.Error: field larger than field limit (131072) *)
| stray_newline         (* _csv.Error: new-line character seen in unquoted field *).

Inductive parse_state :=
| START_RECORD | START_FIELD | ESCAPED_CHAR | IN_FIELD | AFTER_ESCAPED_CRNL
| EAT_CRNL.

Record parser := {
  state : parse_state;
  fields : list string;
  field : list ascii;
  field_len : N
}.

Definition is_eol (c : ascii) : bool :=
  Nat.eqb (nat_of_ascii c) 10 || Nat.eqb (nat_of_ascii c) 13.

Definition to (st : parse_state) (p : parser) : parser :=
  {| state := st; fields := fields p; field := field p;
     field_len := field_len p |}.

Definition save_field (p : parser) : parser :=
  {| state := state p;
     fields := string_of_list_ascii (rev (field p)) :: fields p;
     field := [];
     field_len := 0 |}.

Definition add_char (c : ascii) (p : parser) : csv_exception + parser :=
  if (131072 <=? field_len p)%N then inl field_limit
  else inr {| state := state p; fields := fields p; field := c :: field p;
              field_len := N.succ (field_len p) |}.

Definition then_to (st : parse_state) (r : csv_exception + parser)
    : csv_exception + parser :=
  match r with
  | inl e => inl e
  | inr p => inr (to st p)
  end.

(** One step of the automaton; [None] is the end-of-line marker. *)
Definition process_char (delimiter : ascii) (escapechar : option ascii)
    (p : parser) (c : option ascii) : csv_exception + parser :=
  let in_field (c : option ascii) :=
    match c with
    | None => inr (to START_RECORD (save_field p))
    | Some c =>
        if is_eol c then inr (to EAT_CRNL (save_field p))
        else if match escapechar with
                | Some e => Ascii.eqb c e
                | None => false
                end then inr (to ESCAPED_CHAR p)
        else if Ascii.eqb c delimiter then inr (to START_FIELD (save_field p))
        else then_to IN_FIELD (add_char c p)
    end in
  match state p with
  | START_RECORD =>
      match c with
      | None => inr p
      | Some c' => if is_eol c' then inr (to EAT_CRNL p) else in_field c
      end
  | START_FIELD | IN_FIELD => in_field c
  | ESCAPED_CHAR =>
      match c with
      | None => then_to IN_FIELD (add_char "010"%char p)
      | Some c' =>
          if is_eol c' then then_to AFTER_ESCAPED_CRNL (add_char c' p)
          else then_to IN_FIELD (add_char c' p)
      end
  | AFTER_ESCAPED_CRNL =>
      match c with
      | None => inr p
      | Some _ => in_field c
      end
  | EAT_CRNL =>
      match c with
      | None => inr (to START_RECORD p)
      | Some c' => if is_eol c' then inr p else inl stray_newline
      end
  end.

Fixpoint process_line (delimiter : ascii) (escapechar : option ascii)
    (p : parser) (line : list ascii) : csv_exception + parser :=
  match line with
  | [] => process_char delimiter escapechar p None
  | c :: line' =>
      match process_char delimiter escapechar p (Some c) with
      | inl e => inl e
      | inr p' => process_line delimiter escapechar p' line'
      end
  end.

Definition new_record : parser :=
  {| state := START_RECORD; fields := []; field := []; field_len := 0 |}.

Definition make_dialect (delimiter : string) (escape : option string)
    : csv_exception + (ascii * option ascii) :=
  match delimiter with
  | String d EmptyString =>
      match escape with
      | None => inr (d, None)
      | Some (String e EmptyString) => inr (d, Some e)
      | Some _ => inl bad_escapechar
      end
  | _ => inl bad_delimiter
  end.

Definition feed_line (dialect : ascii * option ascii)
    (unfinished : option parser) (line : string)
    : csv_exception + (parser + list string) :=
  let p := match unfinished with
           | Some p => p
           | None => new_record
           end in
  match process_line (fst dialect) (snd dialect) p
          (list_ascii_of_string line) with
  | inl e => inl e
  | inr p' =>
      match state p' with
      | START_RECORD => inr (inr (rev (fields p')))
      | _ => inr (inl p')
      end
  end.

Definition end_of_input (dialect : ascii * option ascii) (p : parser)
    : option (list string) :=
  if (field_len p =? 0)%N then None
  else Some (rev (fields (save_field p))).

(** Default values and other objects: integers, and lists of integers,
    which cannot be hashed. *)
Inductive value :=
| V_int (z : Z)
| V_list (l : list Z).

Definition value_eq_dec (x y : value) : {x = y} + {x <> y}.
Proof. decide equality; [apply Z.eq_dec | apply (list_eq_dec Z.eq_dec)]. Defined.

Definition repr_list (l : list string) : string :=
  ("[" ++ String.concat ", " (map (fun s => "'" ++ s ++ "'") l) ++ "]")%string.

Definition str_hash (s : string) : Z :=
  fold_left (fun h c => (31 * h + Z.of_nat (nat_of_ascii c)) mod 2 ^ 61)%Z
            (list_ascii_of_string s) 7%Z.

Fixpoint dtype_hash (d : data_type) : Z :=
  match d with
  | D_ANY => 1 | D_ANY_TUPLE => 2 | D_NONE => 3 | D_ARRAY => 4 | D_INT => 5
  | D_FLOAT => 6 | D_BOOL => 7 | D_STR => 8 | D_DATE_TIME_NAIVE => 9
  | D_DATE_TIME_UTC => 10 | D_DURATION => 11
  | D_Optional t => 100 + dtype_hash t
  end%Z.

Definition tuple_hash (l : list Z) : Z :=
  fold_left (fun h x => (1000003 * h + x) mod 2 ^ 61)%Z l 3430008%Z.

#[export] Instance external : External := {|
  DType := data_type;
  Hint := hint;
  Value := value;
  PdDtype := pd_dtype;
  DType_eq_dec := dtype_eq_dec;
  Hint_eq_dec := hint_eq_dec;
  Value_eq_dec := value_eq_dec;
  ANY := D_ANY;
  ANY_TUPLE := D_ANY_TUPLE;
  NONE := D_NONE;
  ARRAY := D_ARRAY;
  INT := D_INT;
  FLOAT := D_FLOAT;
  BOOL := D_BOOL;
  STR := D_STR;
  DATE_TIME_NAIVE := D_DATE_TIME_NAIVE;
  DATE_TIME_UTC := D_DATE_TIME_UTC;
  DURATION := D_DURATION;
  Optional := D_Optional;
  wrap := wrap_hint;
  typehint := typehint_of;
  dtype_issubclass := issubclass;
  Any := H_Any;
  int := H_int;
  float := H_float;
  str := H_str;
  hint_of_dtype := H_dtype;
  wrap_dtype := fun d => eq_refl;
  is_integer_dtype := fun d => match d with pd_int64 => true | _ => false end;
  is_float_dtype := fun d => match d with pd_float64 => true | _ => false end;
  is_bool_dtype := fun d => match d with pd_bool => true | _ => false end;
  is_string_dtype := fun d => match d with pd_string => true | _ => false end;
  is_datetime64_ns_dtype :=
    fun d => match d with pd_datetime64_ns => true | _ => false end;
  is_timedelta64_dtype :=
    fun d => match d with pd_timedelta64 => true | _ => false end;
  is_object_dtype := fun d => match d with pd_object => true | _ => false end;
  int_parses := int_literal;
  float_parses := float_literal;
  str_of_list := repr_list;
  str_of_index := repr_list;
  CsvException := csv_exception;
  Dialect := (ascii * option ascii)%type;
  Unfinished := parser;
  csv_dialect := make_dialect;
  csv_line := feed_line;
  csv_end := end_of_input;
  hash_str := str_hash;
  hash_bool := fun b => if b then 1%Z else 0%Z;
  hash_dtype := dtype_hash;
  hash_value := fun v => match v with V_int z => Some z | V_list _ => None end;
  hash_undefined := 314159%Z;
  hash_tuple := tuple_hash
|}.

End Example.

(* ------------------------------------------------------------------ *)
(** ** Concrete schemas *)
(* ------------------------------------------------------------------ *)

Module Cases.
Import Example.

(** [pw.column_definition(dtype=h, primary_key=pk, name=n)] *)
Definition col (pk : bool) (h : hint) (n : option string) : ColumnDefinition :=
  column_definition pk _no_default_value_marker (Some h) n.

(** The schema a builder returned, for a call that does return one. *)
Definition the (r : result Schema) : Schema :=
  match r with
  | Ok s => s
  | Raise _ => Build_Schema EmptyString [] [] default_properties [] [] []
  end.

(** [schema_builder({"x": column_definition(dtype=int)}, name="Sx")] and
    the like. *)
Definition Sx : Schema :=
  the (schema_builder [("x", col false H_int None)] (Some "Sx")
         default_properties).

Definition Sy : Schema :=
  the (schema_builder [("y", col false H_int None)] (Some "Sy")
         default_properties).

Definition Sx_str : Schema :=
  the (schema_builder [("x", col false H_str None)] (Some "Sx_str")
         default_properties).

Definition Sx_opt : Schema :=
  the (schema_builder [("x", col false (H_dtype (D_Optional D_INT)) None)]
         (Some "Sx_opt") default_properties).

Definition Sxy : Schema :=
  the (schema_builder [("x", col false H_int None); ("y", col false H_str None)]
         (Some "Sxy") default_properties).

Definition Syx : Schema :=
  the (schema_builder [("y", col false H_str None); ("x", col false H_int None)]
         (Some "Syx") default_properties).

(** The columns of [Sx] under another class name. *)
Definition Sx_bis : Schema :=
  the (schema_builder [("x", col false H_int None)] (Some "Sx_bis")
         default_properties).

(** Two schemas whose only attribute is [a], renamed to column [x] in one
    and to column [y] in the other. *)
Definition Sa_x : Schema :=
  the (schema_builder [("a", col false H_int (Some "x"))] (Some "Sa_x")
         default_properties).

Definition Sa_y : Schema :=
  the (schema_builder [("a", col false H_int (Some "y"))] (Some "Sa_y")
         default_properties).

(** A primary-key column whose name starts with two underscores. *)
Definition Sk : Schema :=
  the (schema_builder [("a", col true H_int (Some "__k"))] (Some "Sk")
         default_properties).

(** A column stored under the name of the method [keys]. *)
Definition S_keys : Schema :=
  the (schema_builder [("keys", col false H_int None)] (Some "S_keys")
         default_properties).

(** The same two columns, one of them stored under the name of the method
    [_as_tuple], in the two orders. *)
Definition S_tuple_x : Schema :=
  the (schema_builder [("_as_tuple", col false H_int None);
                       ("x", col false H_int None)]
         (Some "S_tuple_x") default_properties).

Definition S_x_tuple : Schema :=
  the (schema_builder [("x", col false H_int None);
                       ("_as_tuple", col false H_int None)]
         (Some "S_x_tuple") default_properties).

(** [schema_builder({"x": column_definition(dtype=int, default_value=[])})] *)
Definition S_list_default : Schema :=
  the (schema_builder
         [("x", column_definition false (Default (V_list [])) (Some H_int) None)]
         (Some "S_list_default") default_properties).

(** A pandas column of floats with one missing value. *)
Definition floats_with_na : Series :=
  {| cells := [ {| is_sequence := false; is_na := false; is_ndarray := false |};
                {| is_sequence := false; is_na := true; is_ndarray := false |} ];
     series_dtype := pd_float64;
     series_tz := None |}.

(** The end-of-line that closes each line read from a file. *)
Definition nl : string := String (ascii_of_nat 10) EmptyString.

(** A file with a header and an empty line. *)
Definition csv_blank_second : list string := [("a,b" ++ nl)%string; nl].


(** The files of the inference examples: header [a,b] and two rows. *)
Definition csv_int_str : list string :=
  [("a,b" ++ nl)%string; ("1,foo" ++ nl)%string; ("2,bar" ++ nl)%string].

Definition csv_float_int : list string :=
  [("a,b" ++ nl)%string; ("1.5,2" ++ nl)%string].

(** A class body [b: int = 5; a = column_definition()]: the annotated [b]
    is no column definition and [a] has no annotation. *)
Definition bad_annotations : Dict.dict hint := [("b", H_int)].

Definition bad_dict : Dict.dict attr :=
  [("b", AOther (V_int 5));
   ("a", ADef (column_definition false _no_default_value_marker None None))].

(** A class body [a = column_definition(); c = column_definition()] with
    the only annotation [b: int]. *)
Definition two_unannotated : Dict.dict attr :=
  [("a", ADef (column_definition false _no_default_value_marker None None));
   ("c", ADef (column_definition false _no_default_value_marker None None))].

End Cases.

(* ------------------------------------------------------------------ *)
(** ** The loop of [_create_column_definitions] in closed form *)
(* ------------------------------------------------------------------ *)

Section ClosedForm.
Context {E : External}.

(** The column that one annotation resolves to, given the fields of the
    class: the definition found under the annotated name, or the default
    one. *)
Definition resolve (append_only : bool) (fields : Dict.dict attr)
    (item : string * Hint) : result ColumnSchema :=
  let col_dtype := wrap (snd item) in
  let column :=
    match Dict.get (fst item) fields with
    | Some a => a
    | None => ADef (column_definition false _no_default_value_marker
                      (Some (hint_of_dtype col_dtype)) None)
    end in
  match column with
  | AOther _ => Raise (ValueError (msg_should_be_column_definition (fst item)))
  | ADef column =>
      let dtype := match def_dtype column with
                   | Some d => d
                   | None => col_dtype
                   end in
      if DType_eq_dec col_dtype dtype then
        Ok {| primary_key := def_primary_key column;
              default_value := def_default_value column;
              dtype := wrap (hint_of_dtype dtype);
              name := name_or (def_name column) (fst item);
              col_append_only := append_only |}
      else Raise (TypeError (msg_annotation_does_not_match (fst item)))
  end.

(** Columns stored one after the other under their names. *)
Definition store (columns : Dict.dict ColumnSchema) (cs : list ColumnSchema)
    : Dict.dict ColumnSchema :=
  fold_left (fun columns c => Dict.set (name c) c columns) cs columns.

(** The fields left once the annotated names are popped. *)
Definition leftover (fields : Dict.dict attr) (names : list string)
    : Dict.dict attr :=
  fold_left (fun fields n => Dict.remove n fields) names fields.

(** An annotated entry that the loop accepts: the field under the
    annotated name, when the class has one, is a column definition whose
    dtype, when it has one, is the wrapped annotation. *)
Definition accepted (fields : Dict.dict attr) (item : string * Hint) : Prop :=
  forall a, Dict.get (fst item) fields = Some a ->
    exists c, a = ADef c /\
              (def_dtype c = None \/ def_dtype c = Some (wrap (snd item))).

(** The declared fields that have no annotation, in the order of the class
    dictionary. *)
Definition unannotated (annotations : Dict.dict Hint)
    (cls_dict : Dict.dict attr) : list string :=
  filter (fun k => negb (Dict.contains k annotations))
         (Dict.keys (_cls_fields cls_dict)).

(** A column with its dtype replaced by the override given for its name,
    if there is one. *)
Definition retype (kwargs : Dict.dict Hint) (c : ColumnSchema) : ColumnSchema :=
  match Dict.get (name c) kwargs with
  | Some h => {| primary_key := primary_key c;
                 default_value := default_value c;
                 dtype := wrap h;
                 name := name c;
                 col_append_only := col_append_only c |}
  | None => c
  end.

(** The definition of a column after the overrides of [update_types]. *)
Definition redefine (kwargs : Dict.dict Hint) (kv : string * ColumnDefinition)
    : string * ColumnDefinition :=
  (fst kv, match Dict.get (fst kv) kwargs with
           | Some h => replace_dtype (snd kv) (wrap h)
           | None => snd kv
           end).

(** A default value that [hash] accepts. *)
Definition hashable (d : DefaultValue) : bool :=
  match d with
  | _no_default_value_marker => true
  | Default v => match hash_value v with
                 | Some _ => true
                 | None => false
                 end
  end.

(** The name sets of a list of dictionaries are pairwise disjoint, and no
    dictionary repeats a key. *)
Definition disjoint_keys {V : Type} (maps : list (Dict.dict V)) : Prop :=
  NoDup (List.concat (map (@Dict.keys V) maps)).

End ClosedForm.

(* ------------------------------------------------------------------ *)
(** ** The other builders and queries *)
(* ------------------------------------------------------------------ *)

Section MoreSchema.
Context {E : External}.

(** [schema_from_columns(columns, _name)]; of a column only its [dtype] is
    read, so the mapping holds the dtypes. *)
Definition schema_from_columns (columns : Dict.dict DType)
    (_name : option string) : result Schema :=
  let _name := match _name with
               | Some n => n
               | None => ("schema_from_columns("
                           ++ str_of_list (Dict.keys columns) ++ ")")%string
               end in
  _schema_builder _name
    (map (fun kv => (fst kv, hint_of_dtype (snd kv))) columns) []
    default_properties.

(** [schema_from_types(_name, **kwargs)]; [str_kwargs] is [str] on the
    dictionary of the keyword arguments.  The decorator
    [runtime_type_check] checks that [_name] is a string or [None], which
    its type says here. *)
Definition schema_from_types (str_kwargs : Dict.dict Hint -> string)
    (_name : option string) (kwargs : Dict.dict Hint) : result Schema :=
  let _name := match _name with
               | Some n => n
               | None => ("schema(" ++ str_kwargs kwargs ++ ")")%string
               end in
  _schema_builder _name kwargs [] default_properties.

(** [SchemaMetaclass.__or__] *)
Definition __or__ (self other : Schema) : result Schema :=
  schema_add [self; other].

(** [SchemaMetaclass.__getitem__] *)
Definition __getitem__ (self : Schema) (name : string) : result ColumnSchema :=
  getitem (__columns__ self) name.

(** [ColumnProperties(dtype=, append_only=)] *)
Record ColumnProperties := {
  cp_dtype : DType;
  cp_append_only : bool
}.

(** [SchemaMetaclass.column_properties] *)
Definition column_properties (self : Schema) (name : string)
    : result ColumnProperties :=
  column <- getitem (__columns__ self) name ;;
  Ok {| cp_dtype := dtype column; cp_append_only := col_append_only column |}.

(** The column that [schema_builder] makes of the definition given under a
    name that does not start with two underscores. *)
Definition declared_column (append_only : bool)
    (kv : string * ColumnDefinition) : ColumnSchema :=
  {| primary_key := def_primary_key (snd kv);
     default_value := def_default_value (snd kv);
     dtype := match def_dtype (snd kv) with
              | Some d => d
              | None => wrap Any
              end;
     name := name_or (def_name (snd kv)) (fst kv);
     col_append_only := append_only |}.

(** The column that [schema_builder] makes of a definition: under a name
    that starts with two underscores the definition is not among the class
    fields and the column is the default one for the annotation. *)
Definition builder_column (append_only : bool)
    (kv : string * ColumnDefinition) : ColumnSchema :=
  if String.prefix "__" (fst kv) then
    {| primary_key := false;
       default_value := _no_default_value_marker;
       dtype := match def_dtype (snd kv) with
                | Some d => d
                | None => wrap Any
                end;
       name := fst kv;
       col_append_only := append_only |}
  else declared_column append_only kv.

(** The column made of a bare annotation. *)
Definition annotated_column (append_only : bool) (kv : string * Hint)
    : ColumnSchema :=
  {| primary_key := false;
     default_value := _no_default_value_marker;
     dtype := wrap (snd kv);
     name := fst kv;
     col_append_only := append_only |}.

(** The column that [schema_from_pandas] makes of a series, with the
    columns named in [id_from] as primary key. *)
Definition sampled_column (id_from : list string) (kv : string * Series)
    : ColumnSchema :=
  {| primary_key := existsb (String.eqb (fst kv)) id_from;
     default_value := _no_default_value_marker;
     dtype := _type_converter (snd kv);
     name := fst kv;
     col_append_only := true |}.

(** A column with another [append_only] flag. *)
Definition with_append_only (b : bool) (c : ColumnSchema) : ColumnSchema :=
  {| primary_key := primary_key c;
     default_value := default_value c;
     dtype := dtype c;
     name := name c;
     col_append_only := b |}.

(** A definition after the loop of [schema_from_pandas] over [id_from]. *)
Definition mark (id_from : list string) (kv : string * ColumnDefinition)
    : string * ColumnDefinition :=
  (fst kv, if existsb (String.eqb (fst kv)) id_from
           then replace_primary_key (snd kv) true
           else snd kv).

(** A line that [remove_comments_from_file] drops: its first character
    after the leading white space is the comment character. *)
Definition comment_line (comment_char : option string) (line : string) : bool :=
  match lstrip line, comment_char with
  | String c _, Some cc => String.eqb (String c EmptyString) cc
  | _, _ => false
  end.




End MoreSchema.

(* ------------------------------------------------------------------ *)
(** ** Further concrete inputs *)
(* ------------------------------------------------------------------ *)

Module MoreCases.
Import Example Cases.

(** [{"x": column_definition(dtype=int),
      "y": column_definition(dtype=str, primary_key=True, name="why")}] *)
Definition defs_x_why : Dict.dict ColumnDefinition :=
  [("x", col false H_int None); ("y", col true H_str (Some "why"))].

(** [schema_builder({"key": column_definition(dtype=int, primary_key=True),
      "data": column_definition(dtype=int, default_value=0)})] *)
Definition Skey_data : Schema :=
  the (schema_builder
         [("key", col true H_int None);
          ("data", column_definition false (Default (V_int 0)) (Some H_int) None)]
         (Some "my_schema") default_properties).

(** A class body [a: int; b: int = 5]. *)
Definition annotations_a_b : Dict.dict hint := [("a", H_int); ("b", H_int)].

Definition dict_b_five : Dict.dict attr := [("b", AOther (V_int 5))].

(** A class body [a: int = column_definition(dtype=str)]. *)
Definition annotations_a : Dict.dict hint := [("a", H_int)].

Definition dict_a_str : Dict.dict attr :=
  [("a", ADef (col false H_str None))].

(** A data frame with an integer column [id] and a float column [v] that
    has a missing value. *)
Definition frame_id_v : Dict.dict Series :=
  [("id", {| cells := [ {| is_sequence := false; is_na := false;
                           is_ndarray := false |} ];
             series_dtype := pd_int64;
             series_tz := None |});
   ("v", floats_with_na)].

(** A file with one comment line only, and a file with a header and then an
    empty line. *)
Definition csv_comment_only : list string := [("# nothing" ++ nl)%string].

(** [str] of the keyword arguments, not rendered. *)
Definition no_rendering (kwargs : Dict.dict hint) : string := EmptyString.

End MoreCases.

(* ================================================================== *)
(** * Properties *)
(* ================================================================== *)

(** ** Dictionaries *)

Section DictFacts.
Variable V : Type.
Implicit Types (d : Dict.dict V) (k : string) (v : V).

Lemma existsb_eqb_In k (l : list string) :
  existsb (String.eqb k) l = true <-> In k l.
Proof.
  rewrite existsb_exists. split.
  - intros (x & Hx & Heq). apply String.eqb_eq in Heq. now subst.
  - intros H. exists k. split; [assumption | apply String.eqb_refl].
Qed.

Lemma existsb_eqb_not_In k (l : list string) :
  existsb (String.eqb k) l = false <-> ~ In k l.
Proof.
  rewrite <- existsb_eqb_In. destruct (existsb _ l); intuition congruence.
Qed.

Lemma get_None k d : Dict.get k d = None <-> ~ In k (Dict.keys d).
Proof.
  induction d as [|[k' v'] d IH]; simpl.
  - tauto.
  - destruct (String.eqb_spec k k') as [->|Hne].
    + split; [discriminate | intros H; exfalso; apply H; now left].
    + rewrite IH. split; intros H; [intros [Heq|Hin] | ]; try tauto.
      now subst.
Qed.

Lemma get_Some_In k v d : Dict.get k d = Some v -> In (k, v) d.
Proof.
  induction d as [|[k' v'] d IH]; simpl; [discriminate|].
  destruct (String.eqb_spec k k') as [->|Hne].
  - intros [= ->]. now left.
  - intros H. right. auto.
Qed.

Lemma In_keys_get k d : In k (Dict.keys d) -> exists v, Dict.get k d = Some v.
Proof.
  intros H. destruct (Dict.get k d) eqn:Hg; [eauto|].
  apply get_None in Hg. contradiction.
Qed.

Lemma In_get k v d : NoDup (Dict.keys d) -> In (k, v) d -> Dict.get k d = Some v.
Proof.
  induction d as [|[k' v'] d IH]; simpl; [tauto|].
  intros Hnd [Heq|Hin]; inversion Hnd; subst.
  - injection Heq as -> ->. now rewrite String.eqb_refl.
  - destruct (String.eqb_spec k k') as [->|Hne]; [|auto].
    exfalso. apply H1. unfold Dict.keys. now apply (in_map fst) in Hin.
Qed.

Lemma contains_In k d : Dict.contains k d = true <-> In k (Dict.keys d).
Proof. apply existsb_eqb_In. Qed.

Lemma keys_set k v d :
  Dict.keys (Dict.set k v d) =
  if Dict.contains k d then Dict.keys d else Dict.keys d ++ [k].
Proof.
  unfold Dict.contains.
  induction d as [|[k' v'] d IH]; simpl; [reflexivity|].
  destruct (String.eqb_spec k k') as [->|Hne]; simpl; [reflexivity|].
  rewrite IH. now destruct (existsb _ (Dict.keys d)).
Qed.

Lemma In_keys_set k v d x :
  In x (Dict.keys (Dict.set k v d)) <-> x = k \/ In x (Dict.keys d).
Proof.
  rewrite keys_set. destruct (Dict.contains k d) eqn:Hc.
  - apply contains_In in Hc. split; [tauto|]. intros [->|H]; assumption.
  - rewrite in_app_iff. simpl. intuition.
Qed.

Lemma NoDup_keys_set k v d :
  NoDup (Dict.keys d) -> NoDup (Dict.keys (Dict.set k v d)).
Proof.
  intros Hnd. rewrite keys_set. destruct (Dict.contains k d) eqn:Hc; [assumption|].
  apply existsb_eqb_not_In in Hc.
  apply NoDup_app; [assumption | repeat constructor; simpl; tauto |].
  intros x Hx [<-|[]]. contradiction.
Qed.

Lemma get_set_same k v d : Dict.get k (Dict.set k v d) = Some v.
Proof.
  induction d as [|[k' v'] d IH]; simpl.
  - now rewrite String.eqb_refl.
  - destruct (String.eqb_spec k k') as [->|Hne]; simpl.
    + now rewrite String.eqb_refl.
    + destruct (String.eqb_spec k k'); [contradiction | assumption].
Qed.

Lemma get_set_other k k' v d :
  k' <> k -> Dict.get k' (Dict.set k v d) = Dict.get k' d.
Proof.
  intros Hne. induction d as [|[k0 v0] d IH]; simpl.
  - destruct (String.eqb_spec k' k); [contradiction | reflexivity].
  - destruct (String.eqb_spec k k0) as [->|Hne0]; simpl.
    + destruct (String.eqb_spec k' k0); [contradiction | reflexivity].
    + now rewrite IH.
Qed.

Lemma get_remove_other k k' d :
  k' <> k -> Dict.get k' (Dict.remove k d) = Dict.get k' d.
Proof.
  intros Hne. induction d as [|[k0 v0] d IH]; simpl; [reflexivity|].
  destruct (String.eqb_spec k k0) as [->|Hne0]; simpl.
  - destruct (String.eqb_spec k' k0); [contradiction | reflexivity].
  - now rewrite IH.
Qed.

Lemma remove_absent k d : ~ In k (Dict.keys d) -> Dict.remove k d = d.
Proof.
  induction d as [|[k0 v0] d IH]; simpl; [reflexivity|].
  intros H. destruct (String.eqb_spec k k0) as [->|Hne]; [tauto|].
  f_equal. apply IH. tauto.
Qed.

Lemma remove_filter k d :
  NoDup (Dict.keys d) ->
  Dict.remove k d = filter (fun kv => negb (String.eqb k (fst kv))) d.
Proof.
  induction d as [|[k0 v0] d IH]; simpl; [reflexivity|].
  intros Hnd. inversion Hnd; subst.
  destruct (String.eqb_spec k k0) as [->|Hne]; simpl.
  - symmetry. apply forallb_filter_id. apply forallb_forall.
    intros [k1 v1] Hin. simpl. destruct (String.eqb_spec k0 k1) as [->|]; [|reflexivity].
    exfalso. apply H1. now apply (in_map fst) in Hin.
  - f_equal. auto.
Qed.
End DictFacts.

(** ** The result monad *)

Section ResultFacts.
Context {E : External}.

Lemma bind_Ok {A B : Type} (m : result A) (f : A -> result B) (b : B) :
  bind m f = Ok b -> exists a, m = Ok a /\ f a = Ok b.
Proof. destruct m; simpl; [eauto | discriminate]. Qed.

Lemma map_result_ext {A B : Type} (f g : A -> result B) (l : list A) :
  (forall x, In x l -> f x = g x) -> map_result f l = map_result g l.
Proof.
  induction l as [|x l IH]; simpl; [reflexivity|].
  intros H. rewrite (H x) by now left. rewrite IH; [reflexivity|].
  intros; apply H; now right.
Qed.

Lemma map_result_Ok_length {A B : Type} (f : A -> result B) l ys :
  map_result f l = Ok ys -> List.length ys = List.length l.
Proof.
  revert ys. induction l as [|x l IH]; simpl; intros ys.
  - intros [= <-]. reflexivity.
  - destruct (f x); simpl; [|discriminate].
    destruct (map_result f l); simpl; [|discriminate].
    intros [= <-]. simpl. f_equal. now apply IH.
Qed.

Lemma map_result_Ok_Forall2 {A B : Type} (f : A -> result B) l ys :
  map_result f l = Ok ys <-> Forall2 (fun x y => f x = Ok y) l ys.
Proof.
  revert ys. induction l as [|x l IH]; simpl; intros ys.
  - split.
    + intros [= <-]. constructor.
    + intros H. inversion H. reflexivity.
  - split.
    + destruct (f x) eqn:Hx; simpl; [|discriminate].
      destruct (map_result f l) eqn:Hl; simpl; [|discriminate].
      intros [= <-]. constructor; [assumption|]. now apply IH.
    + intros H. inversion H; subst. rewrite H2. simpl.
      apply IH in H4. rewrite H4. reflexivity.
Qed.
End ResultFacts.

(** ** The column loop *)

Section LoopFacts.
Context {E : External}.

Lemma create_column_resolve ao fields columns item :
  create_column ao (fields, columns) item =
  (c <- resolve ao fields item ;;
   Ok (Dict.remove (fst item) fields, Dict.set (name c) c columns)).
Proof.
  destruct item as [n h]. unfold create_column, resolve, Dict.pop. simpl.
  destruct (Dict.get n fields) as [a|] eqn:Hg.
  - destruct a as [c|v]; [|reflexivity].
    destruct (DType_eq_dec _ _); reflexivity.
  - apply get_None in Hg. rewrite (remove_absent _ _ Hg).
    simpl. destruct (DType_eq_dec _ _); reflexivity.
Qed.

Lemma resolve_remove ao fields k item :
  fst item <> k -> resolve ao (Dict.remove k fields) item = resolve ao fields item.
Proof.
  intros Hne. unfold resolve. now rewrite get_remove_other.
Qed.

Lemma loop_closed_form ao anns : forall fields columns,
  NoDup (Dict.keys anns) ->
  for_each (create_column ao) anns (fields, columns) =
  (cs <- map_result (resolve ao fields) anns ;;
   Ok (leftover fields (Dict.keys anns), store columns cs)).
Proof.
  induction anns as [|item anns IH]; intros fields columns Hnd.
  - reflexivity.
  - inversion Hnd as [|? ? Hnotin Hnd']; subst.
    cbn [for_each map_result Dict.keys map]. rewrite create_column_resolve.
    destruct (resolve ao fields item) as [c|e]; cbn [bind]; [|reflexivity].
    rewrite IH by assumption.
    rewrite (map_result_ext (resolve ao (Dict.remove (fst item) fields))
                            (resolve ao fields)).
    + destruct (map_result _ anns); reflexivity.
    + intros x Hx. apply resolve_remove. intros Heq. apply Hnotin.
      rewrite <- Heq. unfold Dict.keys. now apply in_map.
Qed.

Lemma In_keys_store cs : forall columns x,
  In x (Dict.keys (store columns cs)) <->
  In x (Dict.keys columns) \/ In x (map name cs).
Proof.
  induction cs as [|c cs IH]; intros columns x; simpl.
  - tauto.
  - unfold store in *. simpl. rewrite IH, In_keys_set. intuition.
Qed.

Lemma NoDup_keys_store cs : forall columns,
  NoDup (Dict.keys columns) -> NoDup (Dict.keys (store columns cs)).
Proof.
  induction cs as [|c cs IH]; intros columns H; simpl; [assumption|].
  apply IH. now apply NoDup_keys_set.
Qed.

Lemma In_set_inv {V : Type} k (v : V) d x w :
  In (x, w) (Dict.set k v d) -> (x = k /\ w = v) \/ In (x, w) d.
Proof.
  induction d as [|[k0 v0] d IH]; simpl.
  - intros [[= <- <-]|[]]. now left.
  - destruct (String.eqb_spec k k0) as [->|Hne]; simpl.
    + intros [[= <- <-]|H]; [now left | right; now right].
    + intros [H|H]; [right; now left|]. apply IH in H. tauto.
Qed.

Lemma store_entries (P : string -> ColumnSchema -> Prop) cs :
  forall columns,
  (forall k c, In (k, c) columns -> P k c) ->
  (forall c, In c cs -> P (name c) c) ->
  forall k c, In (k, c) (store columns cs) -> P k c.
Proof.
  induction cs as [|c0 cs IH]; intros columns Hcols Hcs k c; simpl.
  - apply Hcols.
  - apply IH.
    + intros k' c' Hin. apply In_set_inv in Hin.
      destruct Hin as [[-> ->]|Hin]; [apply Hcs; now left | now apply Hcols].
    + intros c' Hc'. apply Hcs. now right.
Qed.

(** What [SchemaMetaclass] returns, in closed form. *)
Lemma SchemaMetaclass_Ok _name annotations _dict ao s :
  NoDup (Dict.keys annotations) ->
  SchemaMetaclass _name annotations _dict ao = Ok s ->
  exists cs,
    map_result (resolve ao (_cls_fields _dict)) annotations = Ok cs /\
    leftover (_cls_fields _dict) (Dict.keys annotations) = [] /\
    s = {| __name__ := _name;
           __annotations__ := annotations;
           __dict__ := _dict;
           __properties__ := {| append_only := ao |};
           __columns__ := store [] cs;
           __dtypes__ := map (fun kv => (fst kv, dtype (snd kv))) (store [] cs);
           __types__ := map (fun kv => (fst kv, typehint (snd kv)))
                          (map (fun kv => (fst kv, dtype (snd kv)))
                               (store [] cs)) |}.
Proof.
  intros Hnd. unfold SchemaMetaclass, _create_column_definitions. simpl.
  rewrite loop_closed_form by assumption.
  destruct (map_result _ annotations) as [cs|e]; simpl; [|discriminate].
  destruct (leftover _ _) eqn:Hl; simpl; [|discriminate].
  intros [= <-]. exists cs. repeat split.
Qed.

Lemma built_NoDup s : built s -> NoDup (keys s).
Proof.
  intros (n & a & d & ao & Ha & Hd & H).
  apply SchemaMetaclass_Ok in H; [|assumption].
  destruct H as (cs & _ & _ & ->). unfold keys. simpl.
  apply NoDup_keys_store. constructor.
Qed.

Lemma built_dtypes s :
  built s -> __dtypes__ s = map (fun kv => (fst kv, dtype (snd kv))) (__columns__ s).
Proof.
  intros (n & a & d & ao & Ha & Hd & H).
  apply SchemaMetaclass_Ok in H; [|assumption].
  destruct H as (cs & _ & _ & ->). reflexivity.
Qed.

Lemma built_types s :
  built s ->
  __types__ s = map (fun kv => (fst kv, typehint (dtype (snd kv)))) (__columns__ s).
Proof.
  intros (n & a & d & ao & Ha & Hd & H).
  apply SchemaMetaclass_Ok in H; [|assumption].
  destruct H as (cs & _ & _ & ->). simpl. rewrite map_map. reflexivity.
Qed.

Lemma built_names s k c : built s -> In (k, c) (__columns__ s) -> name c = k.
Proof.
  intros (n & a & d & ao & Ha & Hd & H).
  apply SchemaMetaclass_Ok in H; [|assumption].
  destruct H as (cs & _ & _ & ->). simpl.
  apply (store_entries (fun k c => name c = k)); [intros ? ? [] | reflexivity].
Qed.

Lemma built_append_only s k c :
  built s -> In (k, c) (__columns__ s) ->
  col_append_only c = append_only (__properties__ s).
Proof.
  intros (n & a & d & ao & Ha & Hd & H).
  apply SchemaMetaclass_Ok in H; [|assumption].
  destruct H as (cs & Hcs & _ & ->). simpl.
  apply (store_entries (fun _ c => col_append_only c = ao)); [intros ? ? []|].
  intros c' Hc'. apply map_result_Ok_Forall2 in Hcs.
  clear -Hcs Hc'. induction Hcs as [|x y l l' Hxy _ IH]; [destruct Hc'|].
  destruct Hc' as [<-|Hc']; [|auto].
  unfold resolve in Hxy.
  destruct (match Dict.get (fst x) _ with Some a => a | None => _ end);
    [|discriminate].
  destruct (DType_eq_dec _ _); [|discriminate].
  injection Hxy as <-. reflexivity.
Qed.
Lemma contains_false {V : Type} k (d : Dict.dict V) :
  ~ In k (Dict.keys d) -> Dict.contains k d = false.
Proof.
  intros H. destruct (Dict.contains k d) eqn:Hc; [|reflexivity].
  apply contains_In in Hc. contradiction.
Qed.

Lemma plain_absent (ks : list string) k :
  Forall (fun k => String.prefix "__" k = false) ks ->
  String.prefix "__" k = true -> ~ In k ks.
Proof.
  intros H Hk Hin. rewrite Forall_forall in H. specialize (H _ Hin). congruence.
Qed.

(** With no column under a name that starts with two underscores, making
    the class goes through. *)
Lemma class_creation_plain (columns : Dict.dict ColumnDefinition)
    (annotations : Dict.dict Hint) :
  Forall (fun k => String.prefix "__" k = false) (Dict.keys columns) ->
  class_creation columns annotations = Ok annotations.
Proof.
  intros H. unfold class_creation.
  rewrite !contains_false by (apply (@plain_absent _ _ H); reflexivity).
  rewrite (proj2 (get_None "__module__" columns))
    by (apply (@plain_absent _ _ H); reflexivity).
  reflexivity.
Qed.

End LoopFacts.

(** ** Comparisons of key views *)

Section KeysFacts.

Lemma all_contained_in_incl a b : all_contained_in a b = true <-> incl a b.
Proof.
  unfold all_contained_in. rewrite forallb_forall. unfold incl.
  split; intros H x Hx; apply existsb_eqb_In; auto.
Qed.

Lemma keys_eq_spec a b :
  NoDup a -> NoDup b ->
  (keys_eq a b = true <-> forall n, In n a <-> In n b).
Proof.
  intros Ha Hb. unfold keys_eq.
  rewrite andb_true_iff, Nat.eqb_eq, all_contained_in_incl. split.
  - intros [Hlen Hincl] n. split; [apply Hincl|].
    apply (NoDup_length_incl Ha); [lia | assumption].
  - intros H. split.
    + apply Nat.le_antisymm; apply NoDup_incl_length; try assumption;
        intros x Hx; now apply H.
    + intros x Hx. now apply H.
Qed.

Lemma keys_lt_spec a b :
  NoDup a ->
  (keys_lt a b = true <-> incl a b /\ List.length a < List.length b).
Proof.
  intros Ha. unfold keys_lt.
  rewrite andb_true_iff, Nat.ltb_lt, all_contained_in_incl. tauto.
Qed.

Lemma In_keys_sub a b x : In x (keys_sub a b) <-> In x a /\ ~ In x b.
Proof.
  unfold keys_sub. rewrite filter_In, negb_true_iff, existsb_eqb_not_In.
  tauto.
Qed.

Lemma get_map {V W : Type} (f : V -> W) k (d : Dict.dict V) :
  Dict.get k (map (fun kv => (fst kv, f (snd kv))) d) =
  option_map f (Dict.get k d).
Proof.
  induction d as [|[k' v] d IH]; simpl; [reflexivity|].
  destruct (String.eqb k k'); [reflexivity | assumption].
Qed.

Lemma keys_map {V W : Type} (f : V -> W) (d : Dict.dict V) :
  Dict.keys (map (fun kv => (fst kv, f (snd kv))) d) = Dict.keys d.
Proof. unfold Dict.keys. rewrite map_map. reflexivity. Qed.

End KeysFacts.

(** ** Calls of methods through the class *)

Section LookupFacts.
Context {E : External}.

Lemma call_method_found {A : Type} cls method (body : Schema -> A) :
  shadowed method cls = false -> call_method cls method body = Ok (body cls).
Proof. unfold call_method. now intros ->. Qed.

Lemma call_method_shadowed {A : Type} cls method (body : Schema -> A) :
  shadowed method cls = true ->
  call_method cls method body = Raise (TypeError (msg_not_callable method)).
Proof. unfold call_method. now intros ->. Qed.

Lemma shadowed_keys cls method :
  ~ In method (Dict.keys (__dict__ cls)) -> shadowed method cls = false.
Proof. apply contains_false. Qed.

End LookupFacts.

(** ** Sub-schema test *)

Section SubschemaFacts.
Context {E : External}.

(** X28. For schemas [A] and [B] neither of which stores a column under
    the name [keys], [is_subschema A B] returns, and it returns true
    exactly when [A] and [B] have the same set of column names and, for
    every name they share, the dtype of [A]'s column is a subclass of the
    dtype of [B]'s column under [dt.dtype_issubclass]; a key set that
    differs on either side gives false.  When one of them stores a column
    under the name [keys], the call [keys()] reaches that column and
    [is_subschema] raises [TypeError]. *)
Theorem is_subschema_spec (A B : Schema) :
  built A -> built B ->
  (shadowed "keys" A = false -> shadowed "keys" B = false ->
   exists b, is_subschema A B = Ok b /\
     (b = true <->
        (forall n, In n (keys A) <-> In n (keys B)) /\
        (forall n ca cb,
            Dict.get n (__columns__ A) = Some ca ->
            Dict.get n (__columns__ B) = Some cb ->
            dtype_issubclass (dtype ca) (dtype cb) = true))) /\
  (shadowed "keys" A = true \/ shadowed "keys" B = true ->
   is_subschema A B = Raise (TypeError (msg_not_callable "keys"))).
Proof.
  intros HA HB. split.
  2:{ unfold is_subschema. intros [H|H].
      - now rewrite (call_method_shadowed _ _ _ H).
      - destruct (shadowed "keys" A) eqn:HsA.
        + now rewrite (call_method_shadowed _ _ _ HsA).
        + rewrite (call_method_found _ _ _ HsA), (call_method_shadowed _ _ _ H).
          reflexivity. }
  intros HsA HsB.
  pose proof (built_NoDup HA) as NA. pose proof (built_NoDup HB) as NB.
  unfold is_subschema.
  rewrite (call_method_found _ _ _ HsA), (call_method_found _ _ _ HsB).
  cbn [bind].
  destruct (keys_eq (keys A) (keys B)) eqn:Hk; cbn [negb].
  - pose proof (proj1 (keys_eq_spec NA NB) Hk) as Hset. clear Hk.
    rename Hset into Hk.
    rewrite (built_dtypes HA), (built_dtypes HB).
    assert (Hloop : forall ks, incl ks (keys A) ->
      exists b,
        (fix loop (ks : list string) : result bool :=
           match ks with
           | [] => Ok true
           | k :: ks' =>
               l <- getitem (map (fun kv => (fst kv, dtype (snd kv)))
                               (__columns__ A)) k ;;
               r <- getitem (map (fun kv => (fst kv, dtype (snd kv)))
                               (__columns__ B)) k ;;
               if negb (dtype_issubclass l r) then Ok false else loop ks'
           end) ks = Ok b /\
        (b = true <->
           forall n ca cb, In n ks ->
             Dict.get n (__columns__ A) = Some ca ->
             Dict.get n (__columns__ B) = Some cb ->
             dtype_issubclass (dtype ca) (dtype cb) = true)).
    { induction ks as [|k ks IH]; intros Hincl.
      - exists true. split; [reflexivity|]. split; [intros _ ? ? ? []|reflexivity].
      - assert (HkA : In k (keys A)) by (apply Hincl; now left).
        assert (HkB : In k (keys B)) by now apply Hk.
        destruct (In_keys_get _ _ HkA) as [ca Hca].
        destruct (In_keys_get _ _ HkB) as [cb Hcb].
        unfold getitem at 1 2. rewrite !get_map, Hca, Hcb. simpl.
        destruct (dtype_issubclass (dtype ca) (dtype cb)) eqn:Hsub; simpl.
        + destruct IH as (b & Hb & Hiff).
          { intros x Hx. apply Hincl. now right. }
          exists b. split; [exact Hb|]. rewrite Hiff. split.
          * intros H n ca' cb' [<-|Hin] H1 H2; [congruence | eauto].
          * intros H n ca' cb' Hin. apply H. now right.
        + exists false. split; [reflexivity|]. split; [discriminate|].
          intros H. rewrite (H k ca cb) in Hsub; [discriminate| now left | assumption..].
    }
    destruct (Hloop (keys A) (incl_refl _)) as (b & Hb & Hiff).
    exists b. split; [exact Hb|]. rewrite Hiff. split.
    + intros H. split; [exact Hk|]. intros n ca cb H1 H2. apply (H n ca cb); auto.
      apply get_Some_In in H1. unfold keys, Dict.keys.
      now apply (in_map fst) in H1.
    + intros [_ H] n ca cb _. apply H.
  - exists false. split; [reflexivity|]. split; [discriminate|].
    intros [H _]. pose proof (proj2 (keys_eq_spec NA NB) H). congruence.
Qed.

End SubschemaFacts.

(** ** Structural equality and hashing *)

Section EqualityFacts.
Context {E : External}.

Lemma tuple_eqb_eq {A : Type} (eqb : A -> A -> bool) :
  (forall x y, eqb x y = true <-> x = y) ->
  forall a b, tuple_eqb eqb a b = true <-> a = b.
Proof.
  intros Heqb. induction a as [|x a IH]; destruct b as [|y b]; simpl;
    try (split; [discriminate | congruence]); [tauto|].
  rewrite andb_true_iff, Heqb, IH. split.
  - intros [-> ->]. reflexivity.
  - intros [= -> ->]. auto.
Qed.

Lemma DefaultValue_eqb_eq x y : DefaultValue_eqb x y = true <-> x = y.
Proof.
  destruct x as [|v], y as [|w]; simpl; try (split; [discriminate|congruence]);
    [tauto|].
  destruct (Value_eq_dec v w); split; congruence.
Qed.

Lemma SchemaProperties_eqb_eq p q : SchemaProperties_eqb p q = true <-> p = q.
Proof.
  destruct p as [x], q as [y]. unfold SchemaProperties_eqb. simpl.
  rewrite Bool.eqb_true_iff. split; congruence.
Qed.

Lemma ColumnSchema_eqb_eq c d : ColumnSchema_eqb c d = true <-> c = d.
Proof.
  destruct c as [p1 v1 t1 n1 a1], d as [p2 v2 t2 n2 a2].
  unfold ColumnSchema_eqb. simpl.
  rewrite !andb_true_iff, !Bool.eqb_true_iff, DefaultValue_eqb_eq, String.eqb_eq.
  destruct (DType_eq_dec t1 t2); split; intros H.
  - destruct H as ((((-> & ->) & _) & ->) & ->). congruence.
  - injection H as -> -> _ -> ->. auto.
  - destruct H as ((((_ & _) & Hf) & _) & _). discriminate.
  - congruence.
Qed.

Lemma item_eqb_eq (x y : string * ColumnSchema) :
  String.eqb (fst x) (fst y) && ColumnSchema_eqb (snd x) (snd y) = true
  <-> x = y.
Proof.
  destruct x as [k c], y as [k' c']. simpl.
  rewrite andb_true_iff, String.eqb_eq, ColumnSchema_eqb_eq.
  split; [intros [-> ->]; reflexivity | intros [= -> ->]; auto].
Qed.

Lemma as_tuple_eqb_eq x y : as_tuple_eqb x y = true <-> x = y.
Proof.
  destruct x as [p cs], y as [q ds]. unfold as_tuple_eqb.
  rewrite andb_true_iff, SchemaProperties_eqb_eq, (tuple_eqb_eq _ item_eqb_eq).
  split; [intros [-> ->]; reflexivity | intros [= -> ->]; auto].
Qed.

Lemma eq_found a b :
  shadowed "_as_tuple" a = false -> shadowed "_as_tuple" b = false ->
  __eq__ a b = Ok (as_tuple_eqb (_as_tuple a) (_as_tuple b)).
Proof.
  intros Ha Hb. unfold __eq__.
  now rewrite (call_method_found _ _ _ Ha), (call_method_found _ _ _ Hb).
Qed.

Lemma eq_shadowed a b :
  shadowed "_as_tuple" a = true \/ shadowed "_as_tuple" b = true ->
  __eq__ a b = Raise (TypeError (msg_not_callable "_as_tuple")).
Proof.
  unfold __eq__. intros [H|H].
  - now rewrite (call_method_shadowed _ _ _ H).
  - destruct (shadowed "_as_tuple" a) eqn:Ha.
    + now rewrite (call_method_shadowed _ _ _ Ha).
    + now rewrite (call_method_found _ _ _ Ha), (call_method_shadowed _ _ _ H).
Qed.

Lemma eq_as_tuple a b :
  shadowed "_as_tuple" a = false -> shadowed "_as_tuple" b = false ->
  (__eq__ a b = Ok true <-> _as_tuple a = _as_tuple b).
Proof.
  intros Ha Hb. rewrite (@eq_found a b Ha Hb). split; intros H.
  - injection H as H. now apply as_tuple_eqb_eq.
  - apply as_tuple_eqb_eq in H. now rewrite H.
Qed.

Lemma hash_found a :
  shadowed "_as_tuple" a = false -> __hash__ a = hash_as_tuple (_as_tuple a).
Proof. intros Ha. unfold __hash__. now rewrite (call_method_found _ _ _ Ha). Qed.

Lemma hash_column_hashable c :
  hashable (default_value c) = true -> exists h, hash_column c = Ok h.
Proof.
  unfold hash_column, hash_default, hashable.
  destruct (default_value c) as [|v]; [cbn; eauto|].
  destruct (hash_value v); [cbn; eauto | discriminate].
Qed.

Lemma hash_column_unhashable c :
  hashable (default_value c) = false ->
  hash_column c = Raise (TypeError msg_unhashable).
Proof.
  unfold hash_column, hash_default, hashable.
  destruct (default_value c) as [|v]; [discriminate|].
  destruct (hash_value v); [discriminate | reflexivity].
Qed.

Lemma hash_columns_Ok (cs : list (string * ColumnSchema)) :
  Forall (fun kv => hashable (default_value (snd kv)) = true) cs ->
  exists hs,
    map_result (fun kv => h <- hash_column (snd kv) ;;
                          Ok (hash_tuple [hash_str (fst kv); h])) cs = Ok hs.
Proof.
  induction 1 as [|kv cs Hkv _ [hs IH]]; [now exists []|].
  cbn [map_result]. rewrite IH.
  destruct (hash_column_hashable _ Hkv) as [h ->]. cbn. eauto.
Qed.

Lemma hash_columns_Raise (cs : list (string * ColumnSchema)) :
  Exists (fun kv => hashable (default_value (snd kv)) = false) cs ->
  map_result (fun kv => h <- hash_column (snd kv) ;;
                        Ok (hash_tuple [hash_str (fst kv); h])) cs
  = Raise (TypeError msg_unhashable).
Proof.
  induction cs as [|kv cs IH]; intros H; [inversion H|].
  cbn [map_result].
  destruct (hashable (default_value (snd kv))) eqn:Hkv.
  - destruct (hash_column_hashable _ Hkv) as [h ->]. cbn [bind].
    rewrite IH; [reflexivity|].
    inversion H as [? ? H1|]; subst; [congruence | assumption].
  - now rewrite (hash_column_unhashable _ Hkv).
Qed.

(** C4 (amended). For two schemas that store no column under the name
    [_as_tuple], [__eq__] returns, and it returns true exactly when their
    properties are equal and their ordered sequences of (name,
    ColumnSchema) pairs are equal.  Hashing agrees with this equality in
    its outcome: two equal schemas give the same result of [__hash__],
    which is a number when every default value is hashable and the
    [TypeError] of [hash] as soon as one is not. *)
Theorem eq_iff_and_hash_consistent (a b : Schema) :
  shadowed "_as_tuple" a = false -> shadowed "_as_tuple" b = false ->
  (exists r, __eq__ a b = Ok r /\
     (r = true <->
        __properties__ a = __properties__ b /\ __columns__ a = __columns__ b))
  /\ (__eq__ a b = Ok true -> __hash__ a = __hash__ b)
  /\ (Forall (fun kv => hashable (default_value (snd kv)) = true)
        (__columns__ a) -> exists h, __hash__ a = Ok h)
  /\ (Exists (fun kv => hashable (default_value (snd kv)) = false)
        (__columns__ a) -> __hash__ a = Raise (TypeError msg_unhashable)).
Proof.
  intros Ha Hb. repeat split.
  - exists (as_tuple_eqb (_as_tuple a) (_as_tuple b)).
    split; [exact (@eq_found a b Ha Hb)|].
    rewrite as_tuple_eqb_eq. unfold _as_tuple.
    split; [intros [= -> ->]; auto | intros [-> ->]; reflexivity].
  - intros H. apply (@eq_as_tuple a b Ha Hb) in H.
    rewrite (@hash_found a Ha), (@hash_found b Hb). now rewrite H.
  - intros H. rewrite (@hash_found a Ha). unfold hash_as_tuple, _as_tuple.
    destruct (hash_columns_Ok H) as [hs Hhs]. rewrite Hhs. cbn. eauto.
  - intros H. rewrite (@hash_found a Ha). unfold hash_as_tuple, _as_tuple.
    now rewrite (hash_columns_Raise H).
Qed.

(** X29. Equality is sensitive to the order of the columns: for two
    schemas that store no column under the name [_as_tuple], with equal
    properties and the same (name, ColumnSchema) pairs inserted in
    different orders, [__eq__] returns false. *)
Theorem eq_order_sensitive (a b : Schema) :
  shadowed "_as_tuple" a = false -> shadowed "_as_tuple" b = false ->
  __properties__ a = __properties__ b ->
  Permutation (__columns__ a) (__columns__ b) ->
  __columns__ a <> __columns__ b ->
  __eq__ a b = Ok false.
Proof.
  intros Ha Hb _ _ Hne. rewrite (@eq_found a b Ha Hb).
  destruct (as_tuple_eqb (_as_tuple a) (_as_tuple b)) eqn:H; [|reflexivity].
  apply as_tuple_eqb_eq in H. unfold _as_tuple in H. congruence.
Qed.

End EqualityFacts.

(** ** Inference front ends *)

Section InferenceFacts.
Context {E : External}.

Lemma forallb_Forall_true {A : Type} (p : A -> bool) l :
  Forall (fun x => p x = true) l -> forallb p l = true.
Proof.
  induction 1 as [|x l Hx _ IH]; simpl; [reflexivity|]. now rewrite Hx.
Qed.

Lemma forallb_false_iff {A : Type} (p : A -> bool) l :
  forallb p l = false <-> ~ Forall (fun x => p x = true) l.
Proof.
  destruct (forallb p l) eqn:H.
  - split; [discriminate|]. intros Hn. exfalso. apply Hn.
    apply Forall_forall. apply (proj1 (forallb_forall p l) H).
  - split; [|reflexivity]. intros _ HF.
    pose proof (proj2 (forallb_forall p l) (proj1 (Forall_forall _ l) HF)).
    congruence.
Qed.

Lemma existsb_Exists {A : Type} (p : A -> bool) l :
  existsb p l = true <-> Exists (fun x => p x = true) l.
Proof. rewrite existsb_exists, Exists_exists. reflexivity. Qed.

(** C8. For a pandas column with at least one null value that is not all
    sequences, not all null and not all arrays, the inferred dtype is
    [dt.Optional] of the type that the dispatch on the storage dtype gives. *)
Theorem type_converter_wraps_optional (series : Series) :
  Exists (fun x => is_na x = true) (cells series) ->
  ~ Forall (fun x => is_sequence x = true) (cells series) ->
  ~ Forall (fun x => is_na x = true) (cells series) ->
  ~ Forall (fun x => is_ndarray x = true) (cells series) ->
  _type_converter series = Optional (storage_kind_type series).
Proof.
  intros Hna Hseq Hnull Harr. unfold _type_converter.
  apply forallb_false_iff in Hseq. apply forallb_false_iff in Harr.
  apply existsb_Exists in Hna.
  assert (Hnull' : forallb (fun x => is_na x || is_na x) (cells series) = false).
  { apply forallb_false_iff. intros H. apply Hnull.
    eapply Forall_impl; [|exact H]. intros x Hx. simpl in Hx.
    now rewrite orb_diag in Hx. }
  now rewrite Hseq, Hnull', Harr, Hna.
Qed.

Lemma all_parsable (p : string -> bool) (ss : list string) :
  all_ (fun s => _is_parsable_to s p) (map Some ss) = Ok (forallb p ss).
Proof.
  induction ss as [|s ss IH]; simpl; [reflexivity|].
  destruct (p s); simpl; [exact IH | reflexivity].
Qed.

(** C7. For a CSV column whose sampled values are the strings [ss]: with no
    value the inferred type is [Any]; otherwise it is [int] if every value
    parses as an integer, else [float] if every value parses as a float,
    else [str]. *)
Theorem choose_type_precedence (ss : list string) :
  (ss = [] -> choose_type (map Some ss) = Ok Any) /\
  (ss <> [] -> Forall (fun s => int_parses s = true) ss ->
     choose_type (map Some ss) = Ok int) /\
  (ss <> [] -> ~ Forall (fun s => int_parses s = true) ss ->
     Forall (fun s => float_parses s = true) ss ->
     choose_type (map Some ss) = Ok float) /\
  (ss <> [] -> ~ Forall (fun s => int_parses s = true) ss ->
     ~ Forall (fun s => float_parses s = true) ss ->
     choose_type (map Some ss) = Ok str).
Proof.
  unfold choose_type. rewrite !all_parsable, length_map.
  repeat split.
  - intros ->. reflexivity.
  - intros Hne Hint. destruct ss; [contradiction|]. simpl Nat.eqb. cbn [bind].
    apply forallb_Forall_true in Hint. now rewrite Hint.
  - intros Hne Hint Hfl. destruct ss; [contradiction|]. simpl Nat.eqb. cbn [bind].
    apply forallb_false_iff in Hint. rewrite Hint.
    apply forallb_Forall_true in Hfl. now rewrite Hfl.
  - intros Hne Hint Hfl. destruct ss; [contradiction|]. simpl Nat.eqb. cbn [bind].
    apply forallb_false_iff in Hint. apply forallb_false_iff in Hfl.
    now rewrite Hint, Hfl.
Qed.

End InferenceFacts.

(** ** Reading a CSV file with empty lines *)

Section CsvFacts.
Context {E : External}.




Lemma read_rows_zero d names u g : read_rows d names u g (Some 0) = Ok [].
Proof. destruct g; reflexivity. Qed.




End CsvFacts.

(** ** Fields without annotation *)

Section AnnotationFacts.
Context {E : External}.

Lemma keys_filter {V : Type} (p : string -> bool) (d : Dict.dict V) :
  Dict.keys (filter (fun kv => p (fst kv)) d) = filter p (Dict.keys d).
Proof.
  induction d as [|[k v] d IH]; simpl; [reflexivity|].
  destruct (p k); simpl; now rewrite IH.
Qed.

Lemma NoDup_filter_keys {V : Type} (p : string -> bool) (d : Dict.dict V) :
  NoDup (Dict.keys d) -> NoDup (Dict.keys (filter (fun kv => p (fst kv)) d)).
Proof. intros H. rewrite keys_filter. now apply NoDup_filter. Qed.

Lemma filter_filter {A : Type} (p q : A -> bool) l :
  filter q (filter p l) = filter (fun x => p x && q x) l.
Proof.
  induction l as [|x l IH]; simpl; [reflexivity|].
  destruct (p x); simpl; [destruct (q x); now rewrite IH | assumption].
Qed.

Lemma leftover_filter names : forall fields : Dict.dict attr,
  NoDup (Dict.keys fields) ->
  leftover fields names =
  filter (fun kv => negb (existsb (String.eqb (fst kv)) names)) fields.
Proof.
  induction names as [|n names IH]; intros fields Hnd; simpl.
  - symmetry. apply forallb_filter_id. now apply forallb_forall.
  - unfold leftover in *. simpl. rewrite IH.
    + rewrite remove_filter by assumption. rewrite filter_filter.
      apply filter_ext. intros [k v]. simpl.
      rewrite (String.eqb_sym n k).
      destruct (String.eqb k n); reflexivity.
    + rewrite remove_filter by assumption.
      apply (NoDup_filter_keys (fun k => negb (String.eqb n k))). assumption.
Qed.

Lemma _cls_fields_NoDup (d : Dict.dict attr) :
  NoDup (Dict.keys d) -> NoDup (Dict.keys (_cls_fields d)).
Proof.
  intros H. unfold _cls_fields.
  apply (NoDup_filter_keys (fun k => negb (String.prefix "__" k))). assumption.
Qed.

Lemma accepted_resolve ao fields item :
  accepted fields item -> exists c, resolve ao fields item = Ok c.
Proof.
  intros H. unfold resolve.
  destruct (Dict.get (fst item) fields) as [a|] eqn:Hg.
  - destruct (H a Hg) as (c & -> & [Hd|Hd]); rewrite Hd;
      destruct (DType_eq_dec _ _); try contradiction; eauto.
  - simpl. rewrite wrap_dtype.
    destruct (DType_eq_dec _ _); try contradiction; eauto.
Qed.

Lemma accepted_map_result ao fields anns :
  Forall (accepted fields) anns ->
  exists cs, map_result (resolve ao fields) anns = Ok cs.
Proof.
  induction 1 as [|item anns Hitem _ [cs IH]]; simpl; [eauto|].
  destruct (accepted_resolve ao Hitem) as [c ->]. rewrite IH. simpl. eauto.
Qed.

Lemma leftover_unannotated annotations cls_dict :
  NoDup (Dict.keys cls_dict) ->
  Dict.keys (leftover (_cls_fields cls_dict) (Dict.keys annotations))
  = unannotated annotations cls_dict.
Proof.
  intros Hd. rewrite leftover_filter by now apply _cls_fields_NoDup.
  unfold unannotated.
  apply (keys_filter (fun k => negb (existsb (String.eqb k)
                                       (Dict.keys annotations)))).
Qed.

(** C6 (amended). When every annotated entry is accepted by the loop (the
    field under it, if any, is a column definition agreeing with the
    annotation) and one or more declared fields, that is entries of the
    class dictionary whose name does not start with two underscores, have no
    annotation, construction fails with the [ValueError] on missing
    annotations, whose text has all those names, in the order of the class
    dictionary, joined by commas. *)
Theorem lack_annotation_reports_all _name annotations cls_dict ao :
  NoDup (Dict.keys annotations) ->
  NoDup (Dict.keys cls_dict) ->
  Forall (accepted (_cls_fields cls_dict)) annotations ->
  unannotated annotations cls_dict <> [] ->
  SchemaMetaclass _name annotations cls_dict ao =
  Raise (ValueError (msg_lack_type_annotation
                       (String.concat ", " (unannotated annotations cls_dict)))).
Proof.
  intros Ha Hd Hacc Hne.
  unfold SchemaMetaclass, _create_column_definitions. cbv zeta.
  cbn [append_only].
  pose proof (@loop_closed_form E ao annotations (_cls_fields cls_dict) [] Ha)
    as Hloop.
  destruct (accepted_map_result ao Hacc) as [cs Hcs].
  rewrite Hcs in Hloop. cbn [bind] in Hloop.
  unfold Dict.dict in *. rewrite Hloop. cbn [bind].
  rewrite <- (@leftover_unannotated annotations cls_dict Hd) in Hne |- *.
  destruct (leftover _ _); [contradiction | reflexivity].
Qed.

End AnnotationFacts.

(** ** Chained dictionaries *)

Section ChainFacts.
Variable V : Type.
Implicit Types (maps : list (Dict.dict V)) (acc l : list string).

Lemma NoDup_app_disjoint {A : Type} (l1 l2 : list A) :
  NoDup (l1 ++ l2) -> forall x, In x l1 -> ~ In x l2.
Proof.
  induction l1 as [|a l1 IH]; simpl; intros H x; [tauto|].
  inversion H as [|? ? Hnotin Hnd]; subst.
  intros [<-|Hx] Hx2.
  - apply Hnotin. apply in_or_app. now right.
  - now apply (IH Hnd x).
Qed.

Lemma add_key_absent acc k : ~ In k acc -> Dict.add_key acc k = acc ++ [k].
Proof.
  intros H. unfold Dict.add_key.
  now rewrite (proj2 (existsb_eqb_not_In k acc) H).
Qed.

Lemma add_keys_disjoint l : forall acc,
  NoDup (acc ++ l) -> fold_left Dict.add_key l acc = acc ++ l.
Proof.
  induction l as [|k l IH]; intros acc H; simpl.
  - now rewrite app_nil_r.
  - rewrite add_key_absent.
    + rewrite IH; rewrite <- app_assoc; [reflexivity | exact H].
    + apply NoDup_remove_2 in H. intros Hin. apply H.
      apply in_or_app. now left.
Qed.

Lemma add_keys_NoDup l : forall acc,
  NoDup acc -> NoDup (fold_left Dict.add_key l acc).
Proof.
  induction l as [|k l IH]; intros acc H; simpl; [assumption|].
  apply IH. unfold Dict.add_key.
  destruct (existsb (String.eqb k) acc) eqn:Hk; [assumption|].
  apply existsb_eqb_not_In in Hk.
  apply NoDup_app; [assumption | repeat constructor; simpl; tauto|].
  intros x Hx [<-|[]]. contradiction.
Qed.

Lemma add_keys_In l : forall acc x,
  In x (fold_left Dict.add_key l acc) <-> In x acc \/ In x l.
Proof.
  induction l as [|k l IH]; intros acc x; simpl; [tauto|].
  rewrite IH. unfold Dict.add_key.
  destruct (existsb (String.eqb k) acc) eqn:Hk.
  - apply existsb_eqb_In in Hk. split; [tauto|].
    intros [H|[<-|H]]; auto.
  - rewrite in_app_iff. simpl. tauto.
Qed.

Lemma add_keys_full_length l acc :
  NoDup acc ->
  List.length (fold_left Dict.add_key l acc) = List.length (acc ++ l) ->
  NoDup (acc ++ l).
Proof.
  intros Hacc Hlen.
  apply (NoDup_incl_NoDup (add_keys_NoDup l Hacc)); [lia|].
  intros x Hx. apply in_app_iff. now apply add_keys_In.
Qed.

Lemma fold_add_keys_concat (ls : list (list string)) : forall acc,
  fold_left (fun ks l => fold_left Dict.add_key l ks) ls acc
  = fold_left Dict.add_key (List.concat ls) acc.
Proof.
  induction ls as [|l ls IH]; intros acc; simpl; [reflexivity|].
  now rewrite fold_left_app, IH.
Qed.

Lemma chain_keys_concat maps :
  Dict.chain_keys maps
  = fold_left Dict.add_key (List.concat (map (@Dict.keys V) (rev maps))) [].
Proof.
  unfold Dict.chain_keys.
  rewrite <- fold_add_keys_concat.
  generalize (@nil string). induction (rev maps) as [|m ms IH]; intros acc;
    simpl; [reflexivity | apply IH].
Qed.

Lemma concat_rev_perm {A : Type} (ls : list (list A)) :
  Permutation (List.concat (rev ls)) (List.concat ls).
Proof.
  induction ls as [|l ls IH]; simpl; [constructor|].
  rewrite concat_app. simpl. rewrite app_nil_r.
  etransitivity; [apply Permutation_app_comm|].
  now apply Permutation_app_head.
Qed.

Lemma length_concat_keys maps :
  List.length (List.concat (map (@Dict.keys V) maps))
  = list_sum (map (@List.length _) maps).
Proof.
  induction maps as [|m maps IH]; simpl; [reflexivity|].
  rewrite length_app, IH. unfold Dict.keys. now rewrite length_map.
Qed.

Lemma chain_get_In k maps :
  In k (List.concat (map (@Dict.keys V) maps)) ->
  exists v, Dict.chain_get k maps = Some v.
Proof.
  induction maps as [|m maps IH]; simpl; [tauto|].
  rewrite in_app_iff. destruct (Dict.get k m) eqn:Hg; [eauto|].
  apply get_None in Hg. intros [H|H]; [contradiction | auto].
Qed.

Lemma chain_get_disjoint k v m maps :
  disjoint_keys maps -> In m maps -> In (k, v) m ->
  Dict.chain_get k maps = Some v.
Proof.
  unfold disjoint_keys.
  induction maps as [|m0 maps IH]; simpl; [tauto|].
  intros Hnd [->|Hm] Hin.
  - apply NoDup_app_remove_r in Hnd. now rewrite (In_get _ _ _ Hnd Hin).
  - assert (Hk : In k (List.concat (map (@Dict.keys V) maps))).
    { apply in_concat. exists (Dict.keys m). split.
      - now apply in_map.
      - unfold Dict.keys. now apply (in_map fst) in Hin. }
    destruct (Dict.get k m0) eqn:Hg.
    + exfalso. apply get_Some_In in Hg. apply (in_map fst) in Hg. simpl in Hg.
      apply (NoDup_app_disjoint _ _ Hnd k); assumption.
    + apply IH; [|assumption..]. now apply NoDup_app_remove_l in Hnd.
Qed.

Lemma keys_of_chain maps : Dict.keys (Dict.of_chain maps) = Dict.chain_keys maps.
Proof.
  unfold Dict.of_chain.
  assert (H : forall k, In k (Dict.chain_keys maps) ->
                        exists v, Dict.chain_get k maps = Some v).
  { intros k Hk. rewrite chain_keys_concat in Hk. apply add_keys_In in Hk.
    destruct Hk as [[]|Hk]. apply chain_get_In.
    apply (Permutation_in _ (concat_rev_perm _)).
    now rewrite <- map_rev. }
  induction (Dict.chain_keys maps) as [|k ks IH]; simpl; [reflexivity|].
  destruct (H k (or_introl eq_refl)) as [v ->]. simpl. f_equal.
  apply IH. intros k' Hk'. apply H. now right.
Qed.

Lemma of_chain_disjoint maps :
  disjoint_keys maps -> Dict.of_chain maps = List.concat (rev maps).
Proof.
  intros Hd. unfold Dict.of_chain. rewrite chain_keys_concat.
  assert (Hnd : NoDup (List.concat (map (@Dict.keys V) (rev maps)))).
  { rewrite map_rev.
    apply (Permutation_NoDup (Permutation_sym (concat_rev_perm _))). exact Hd. }
  rewrite (add_keys_disjoint _ [] Hnd). simpl.
  assert (H : forall m k v, In m (rev maps) -> In (k, v) m ->
                            Dict.chain_get k maps = Some v).
  { intros m k v Hm. apply chain_get_disjoint; [assumption|].
    now apply in_rev. }
  clear Hnd. induction (rev maps) as [|m ms IH]; simpl; [reflexivity|].
  rewrite flat_map_app. f_equal.
  - assert (Hm : forall k v, In (k, v) m -> Dict.chain_get k maps = Some v).
    { intros k v. apply H. now left. }
    clear -Hm. induction m as [|[k v] m IHm]; simpl; [reflexivity|].
    rewrite (Hm k v) by now left. simpl. f_equal. apply IHm.
    intros; apply Hm; now right.
  - apply IH. intros m' k v Hm'. apply H. now right.
Qed.

Lemma of_chain_length maps :
  List.length (Dict.of_chain maps) = list_sum (map (@List.length _) maps)
  <-> disjoint_keys maps.
Proof.
  split.
  - intros Hlen. unfold disjoint_keys.
    apply (Permutation_NoDup (concat_rev_perm _)). rewrite <- map_rev.
    change (NoDup ([] ++ List.concat (map (@Dict.keys V) (rev maps)))).
    apply add_keys_full_length; [constructor|].
    rewrite <- chain_keys_concat, <- keys_of_chain. simpl.
    unfold Dict.keys at 1. rewrite length_map, Hlen.
    rewrite <- length_concat_keys, map_rev.
    apply Permutation_length. symmetry. apply concat_rev_perm.
  - intros Hd. rewrite (of_chain_disjoint Hd).
    transitivity (List.length (List.concat maps)).
    + apply Permutation_length, concat_rev_perm.
    + apply length_concat.
Qed.
End ChainFacts.

(** ** Disjoint union *)

Section UnionFacts.
Context {E : External}.

Lemma built_facts s :
  built s ->
  NoDup (Dict.keys (__annotations__ s)) /\
  NoDup (Dict.keys (__dict__ s)) /\
  exists cs,
    map_result (resolve (append_only (__properties__ s))
                        (_cls_fields (__dict__ s))) (__annotations__ s)
      = Ok cs /\
    leftover (_cls_fields (__dict__ s)) (Dict.keys (__annotations__ s)) = [] /\
    __columns__ s = store [] cs.
Proof.
  intros (n & a & d & ao & Ha & Hd & H).
  apply SchemaMetaclass_Ok in H; [|assumption].
  destruct H as (cs & Hcs & Hl & ->). simpl. eauto 6.
Qed.

Lemma filter_nil {A : Type} (p : A -> bool) l :
  filter p l = [] <-> forall x, In x l -> p x = false.
Proof.
  induction l as [|x l IH]; simpl; [tauto|].
  destruct (p x) eqn:Hp.
  - split; [discriminate|]. intros H. rewrite (H x) in Hp by now left.
    discriminate.
  - rewrite IH. split.
    + intros H y [<-|Hy]; auto.
    + intros H y Hy. apply H. now right.
Qed.

Lemma leftover_nil (fields : Dict.dict attr) names :
  NoDup (Dict.keys fields) ->
  (leftover fields names = [] <-> incl (Dict.keys fields) names).
Proof.
  intros Hnd. rewrite leftover_filter by assumption.
  split; [intros H0; pose proof (proj1 (filter_nil _ _) H0) as H; clear H0
         | intros H; apply filter_nil].
  - intros k Hk. apply in_map_iff in Hk. destruct Hk as ([k' v] & <- & Hin).
    specialize (H _ Hin). simpl in H. apply negb_false_iff in H.
    now apply existsb_eqb_In in H.
  - intros [k v] Hin. simpl. apply negb_false_iff, existsb_eqb_In, H.
    now apply (in_map fst) in Hin.
Qed.

Lemma built_fields_incl s :
  built s ->
  incl (Dict.keys (_cls_fields (__dict__ s))) (Dict.keys (__annotations__ s)).
Proof.
  intros H. destruct (built_facts H) as (_ & Hd & cs & _ & Hl & _).
  apply leftover_nil in Hl; [assumption | now apply _cls_fields_NoDup].
Qed.

Lemma concat_NoDup_unique {A B : Type} (g : A -> list B) (l : list A) x y k :
  NoDup (List.concat (map g l)) ->
  In x l -> In y l -> In k (g x) -> In k (g y) -> x = y.
Proof.
  induction l as [|a l IH]; simpl; [tauto|].
  intros Hnd Hx Hy Hkx Hky.
  assert (Hout : forall z, In z l -> In k (g z) -> ~ In k (g a)).
  { intros z Hz Hkz Hka. apply (NoDup_app_disjoint _ _ Hnd k Hka).
    apply in_concat. exists (g z). split; [now apply in_map | assumption]. }
  destruct Hx as [<-|Hx], Hy as [<-|Hy]; [reflexivity | | |].
  - exfalso. now apply (Hout y).
  - exfalso. now apply (Hout x).
  - apply IH; try assumption. now apply NoDup_app_remove_l in Hnd.
Qed.

Lemma get_app {V : Type} k (a b : Dict.dict V) :
  Dict.get k (a ++ b) = match Dict.get k a with
                        | Some v => Some v
                        | None => Dict.get k b
                        end.
Proof.
  induction a as [|[k' v'] a IH]; simpl; [reflexivity|].
  destruct (String.eqb k k'); [reflexivity | assumption].
Qed.

Lemma get_concat {V : Type} k (ds : list (Dict.dict V)) :
  match Dict.get k (List.concat ds) with
  | Some v => exists d, In d ds /\ Dict.get k d = Some v
  | None => forall d, In d ds -> Dict.get k d = None
  end.
Proof.
  induction ds as [|d ds IH]; simpl; [tauto|].
  rewrite get_app. destruct (Dict.get k d) eqn:Hd.
  - exists d. auto.
  - destruct (Dict.get k (List.concat ds)).
    + destruct IH as (d' & Hin & Hg). exists d'. auto.
    + intros d' [<-|Hin]; auto.
Qed.

Lemma keys_concat {V : Type} (ds : list (Dict.dict V)) :
  Dict.keys (List.concat ds) = List.concat (map (@Dict.keys V) ds).
Proof. unfold Dict.keys. apply concat_map. Qed.

Lemma resolve_get_ext ao f f' item :
  Dict.get (fst item) f = Dict.get (fst item) f' ->
  resolve ao f item = resolve ao f' item.
Proof. intros H. unfold resolve. now rewrite H. Qed.

Lemma resolve_change_ao ao ao' f item [c] :
  resolve ao f item = Ok c ->
  exists c', resolve ao' f item = Ok c' /\ name c' = name c.
Proof.
  unfold resolve.
  destruct (match Dict.get (fst item) f with Some a => a | None => _ end);
    [|discriminate].
  destruct (DType_eq_dec _ _); [|discriminate].
  intros [= <-]. eexists. split; reflexivity.
Qed.

Lemma map_result_app {A B : Type} (f : A -> result B) l1 l2 xs ys :
  map_result f l1 = Ok xs -> map_result f l2 = Ok ys ->
  map_result f (l1 ++ l2) = Ok (xs ++ ys).
Proof.
  revert xs. induction l1 as [|x l1 IH]; simpl; intros xs.
  - intros [= <-] H. exact H.
  - destruct (f x); simpl; [|discriminate].
    destruct (map_result f l1) eqn:H1; simpl; [|discriminate].
    intros [= <-] H2. now rewrite (IH _ eq_refl H2).
Qed.

Lemma map_result_change_ao ao ao' MF f l : forall cs,
  map_result (resolve ao f) l = Ok cs ->
  (forall item, In item l ->
     Dict.get (fst item) MF = Dict.get (fst item) f) ->
  exists cs1,
    map_result (resolve ao' MF) l = Ok cs1 /\ map name cs1 = map name cs.
Proof.
  induction l as [|item l IH]; simpl; intros cs Hcs Hg.
  - injection Hcs as <-. exists []. auto.
  - destruct (resolve ao f item) as [c|] eqn:Hc; simpl in Hcs; [|discriminate].
    destruct (map_result (resolve ao f) l) as [cs0|] eqn:Hl; simpl in Hcs;
      [|discriminate].
    injection Hcs as <-.
    destruct (resolve_change_ao ao ao' f item Hc) as (c' & Hc' & Hname).
    rewrite (resolve_get_ext ao' MF f item (Hg item (or_introl eq_refl))).
    rewrite Hc'. simpl.
    destruct (IH cs0 eq_refl (fun i Hi => Hg i (or_intror Hi)))
      as (cs1 & -> & Hn1).
    simpl. exists (c' :: cs1). split; [reflexivity|]. simpl. congruence.
Qed.

(** The annotations of several schemas resolved against fields that
    agree, on every annotated name, with the fields of the schema the
    name comes from. *)
Lemma merged_resolve (MF : Dict.dict attr) (ss : list Schema) :
  Forall built ss ->
  (forall s item, In s ss -> In item (__annotations__ s) ->
     Dict.get (fst item) MF
     = Dict.get (fst item) (_cls_fields (__dict__ s))) ->
  exists cs,
    map_result (resolve false MF) (List.concat (map __annotations__ ss))
      = Ok cs /\
    forall n, In n (map name cs) <-> exists s, In s ss /\ In n (keys s).
Proof.
  induction ss as [|s ss IH]; intros Hb Hget.
  - exists []. split; [reflexivity|]. intros n. split; [intros [] | ].
    intros (s & [] & _).
  - inversion Hb as [|? ? Hs Hss]; subst.
    destruct IH as (cs2 & Hcs2 & Hn2); [assumption | |].
    { intros s' item Hin. apply Hget. now right. }
    destruct (built_facts Hs) as (_ & _ & cs & Hcs & _ & Hcols).
    assert (H1 : exists cs1,
               map_result (resolve false MF) (__annotations__ s) = Ok cs1 /\
               map name cs1 = map name cs).
    { apply (map_result_change_ao _ false MF _ _ Hcs).
      intros item. apply Hget. now left. }
    destruct H1 as (cs1 & Hcs1 & Hn1).
    exists (cs1 ++ cs2). split.
    + simpl. now apply map_result_app.
    + intros n. rewrite map_app, in_app_iff, Hn1, Hn2.
      assert (Hk : In n (map name cs) <-> In n (keys s)).
      { unfold keys. rewrite Hcols, In_keys_store. simpl. tauto. }
      rewrite Hk. split.
      * intros [H|(s' & Hin & H)]; [exists s | exists s']; auto.
        split; [now left | assumption]. split; [now right | assumption].
      * intros (s' & [<-|Hin] & H); [now left | right; eauto].
Qed.

Lemma In_concat_fields x (schemas : list Schema) :
  In x (List.concat (map (fun s => Dict.keys (_cls_fields (__dict__ s)))
                         schemas)) ->
  exists s, In s schemas /\ In x (Dict.keys (_cls_fields (__dict__ s))).
Proof.
  intros H. apply in_concat in H. destruct H as (l & Hl & Hx).
  apply in_map_iff in Hl. destruct Hl as (s & <- & Hs). eauto.
Qed.

Lemma fields_disjoint (schemas : list Schema) :
  Forall built schemas ->
  disjoint_keys (map __annotations__ schemas) ->
  disjoint_keys (map (fun s => _cls_fields (__dict__ s)) schemas).
Proof.
  unfold disjoint_keys. rewrite !map_map.
  induction schemas as [|s schemas IH]; simpl; intros Hb Hd; [constructor|].
  inversion Hb as [|? ? Hs Hss]; subst.
  destruct (built_facts Hs) as (_ & Hnd & _).
  apply NoDup_app.
  - now apply _cls_fields_NoDup.
  - apply IH; [assumption|]. now apply NoDup_app_remove_l in Hd.
  - intros x Hx Hx'. apply (NoDup_app_disjoint _ _ Hd x).
    + now apply (built_fields_incl Hs).
    + apply In_concat_fields in Hx'. destruct Hx' as (s' & Hs' & Hin).
      apply in_concat. exists (Dict.keys (__annotations__ s')). split.
      * apply in_map_iff. eauto.
      * apply built_fields_incl; [|assumption].
        rewrite Forall_forall in Hss. now apply Hss.
Qed.

Lemma merged_fields_get (schemas : list Schema) s item :
  Forall built schemas ->
  disjoint_keys (map __annotations__ schemas) ->
  In s schemas -> In item (__annotations__ s) ->
  Dict.get (fst item)
    (List.concat (rev (map (fun s => _cls_fields (__dict__ s)) schemas)))
  = Dict.get (fst item) (_cls_fields (__dict__ s)).
Proof.
  intros Hb Hd Hs Hitem.
  pose proof (get_concat (fst item)
    (rev (map (fun s => _cls_fields (__dict__ s)) schemas))) as Hg.
  destruct (Dict.get (fst item) (List.concat _)) as [v|].
  - destruct Hg as (d & Hin & Hget). apply in_rev in Hin.
    apply in_map_iff in Hin. destruct Hin as (s' & <- & Hs').
    assert (s = s') as <-; [|now rewrite Hget].
    unfold disjoint_keys in Hd. rewrite map_map in Hd.
    apply (concat_NoDup_unique
             (fun s => Dict.keys (__annotations__ s)) schemas s s'
             (fst item) Hd Hs Hs').
    + now apply in_map.
    + apply built_fields_incl.
      * rewrite Forall_forall in Hb. now apply Hb.
      * apply get_Some_In in Hget. unfold Dict.keys.
        now apply (in_map fst) in Hget.
  - symmetry. apply Hg. rewrite <- in_rev. apply in_map_iff. eauto.
Qed.

(** C2 (amended). For schemas whose column names are pairwise disjoint and
    whose annotation (attribute) names are pairwise disjoint as well,
    [schema_add] returns a schema with the default properties whose set of
    column names is exactly the union of the sets of column names of the
    inputs; when two inputs share an annotation name, as two inputs that
    declare the same column under the same attribute do, it fails with a
    bare [AssertionError] that carries no message and names no column. *)
Theorem schema_add_disjoint_or_assert (schemas : list Schema) :
  Forall built schemas ->
  (disjoint_keys (map __columns__ schemas) ->
   disjoint_keys (map __annotations__ schemas) ->
     exists s, schema_add schemas = Ok s /\
       __properties__ s = default_properties /\
       forall n, In n (keys s) <->
                 exists si, In si schemas /\ In n (keys si))
  /\ (~ disjoint_keys (map __annotations__ schemas) ->
      schema_add schemas = Raise (AssertionError None)).
Proof.
  intros Hb. split.
  - intros _ Hd. pose proof (fields_disjoint Hb Hd) as Hf.
    unfold schema_add.
    rewrite (proj2 (Nat.eqb_eq _ _) (proj2 (of_chain_length _) Hd)).
    rewrite (proj2 (Nat.eqb_eq _ _) (proj2 (of_chain_length _) Hf)).
    cbn [assert_ bind].
    rewrite (of_chain_disjoint Hd), (of_chain_disjoint Hf).
    set (MA := List.concat (rev (map __annotations__ schemas))).
    set (MF := List.concat (rev (map (fun s => _cls_fields (__dict__ s))
                                     schemas))).
    assert (HMA : NoDup (Dict.keys MA)).
    { unfold MA. rewrite keys_concat, map_rev.
      apply (Permutation_NoDup (Permutation_sym (concat_rev_perm _))).
      exact Hd. }
    assert (HMF : NoDup (Dict.keys MF)).
    { unfold MF. rewrite keys_concat, map_rev.
      apply (Permutation_NoDup (Permutation_sym (concat_rev_perm _))).
      exact Hf. }
    assert (Hcls : _cls_fields MF = MF).
    { unfold _cls_fields. apply forallb_filter_id. apply forallb_forall.
      intros kv Hkv. unfold MF in Hkv. apply in_concat in Hkv.
      destruct Hkv as (d & Hin & Hkv). apply in_rev in Hin.
      apply in_map_iff in Hin. destruct Hin as (s' & <- & _).
      unfold _cls_fields in Hkv. now apply filter_In in Hkv. }
    destruct (@merged_resolve MF (rev schemas)) as (cs & Hcs & Hnames).
    { apply Forall_rev. exact Hb. }
    { intros s item Hs. apply in_rev in Hs. now apply merged_fields_get. }
    rewrite map_rev in Hcs. fold MA in Hcs.
    assert (Hleft : leftover MF (Dict.keys MA) = []).
    { apply leftover_nil; [assumption|]. intros x Hx.
      unfold MF in Hx. rewrite keys_concat, map_rev, map_map in Hx.
      apply (Permutation_in _ (concat_rev_perm _)) in Hx.
      apply In_concat_fields in Hx. destruct Hx as (s' & Hs' & Hin).
      unfold MA. rewrite keys_concat, map_rev, map_map.
      apply (Permutation_in _ (Permutation_sym (concat_rev_perm _))).
      apply in_concat. exists (Dict.keys (__annotations__ s')). split.
      - apply in_map_iff. eauto.
      - apply built_fields_incl; [|assumption].
        rewrite Forall_forall in Hb. now apply Hb. }
    pose proof (@loop_closed_form E false MA MF [] HMA) as Hloop.
    rewrite Hcs, Hleft in Hloop. cbn [bind] in Hloop.
    unfold _schema_builder, SchemaMetaclass, _create_column_definitions.
    cbv zeta. cbn [append_only default_properties]. rewrite Hcls.
    unfold Dict.dict in *. rewrite Hloop. cbn [bind].
    eexists. split; [reflexivity|]. split; [reflexivity|].
    intros n. unfold keys at 1. cbn [__columns__].
    rewrite In_keys_store, Hnames. simpl. split.
    + intros [[]|(s & Hs & Hn)]. exists s. split; [now apply in_rev | assumption].
    + intros (s & Hs & Hn). right. exists s. split; [now apply in_rev in Hs | assumption].
  - intros Hd. unfold schema_add.
    destruct (Nat.eqb_spec
                (List.length (Dict.of_chain (map __annotations__ schemas)))
                (list_sum (map (@List.length _) (map __annotations__ schemas))))
      as [Hlen|Hlen].
    + exfalso. apply Hd. now apply of_chain_length.
    + reflexivity.
Qed.

End UnionFacts.

(* ================================================================== *)
(** * The properties on concrete schemas *)
(* ================================================================== *)


(** ** Compatibility assertion: missing columns *)

Section AssertFacts.
Context {E : External}.

Lemma built_typehints_keys s : built s -> Dict.keys (typehints s) = keys s.
Proof.
  intros H. unfold typehints, keys. rewrite (built_types H).
  apply (keys_map (fun c => typehint (dtype c))).
Qed.

(** When the columns of [self] are a proper subset of the columns of
    [other], [assert_equal_to] raises the error on missing columns, and the
    error lists the columns of [other] that [self] lacks. *)
Lemma assert_equal_to_missing_columns self other allow_superset ignore_pk :
  built self -> built other ->
  shadowed "typehints" self = false -> shadowed "typehints" other = false ->
  incl (keys self) (keys other) ->
  (exists n, In n (keys other) /\ ~ In n (keys self)) ->
  assert_equal_to self other allow_superset ignore_pk =
  Raise (AssertionError
           (Some (msg_does_not_have_columns
                    (keys_sub (keys other) (keys self))))).
Proof.
  intros Hs Ho Hss Hso Hincl (n & Hn & Hnot).
  unfold assert_equal_to.
  rewrite (call_method_found _ _ _ Hss), (call_method_found _ _ _ Hso).
  cbn [bind].
  rewrite (built_typehints_keys Hs), (built_typehints_keys Ho).
  assert (Hlt : keys_lt (keys self) (keys other) = true).
  { apply keys_lt_spec; [now apply built_NoDup|]. split; [assumption|].
    pose proof (NoDup_incl_length (built_NoDup Hs) Hincl) as Hle.
    destruct (Nat.eq_dec (List.length (keys self)) (List.length (keys other)))
      as [Heq|Hne]; [|lia].
    exfalso. apply Hnot.
    apply (@NoDup_length_incl _ (keys self) (keys other) (built_NoDup Hs));
      [lia | assumption | assumption]. }
  rewrite Hlt. reflexivity.
Qed.

End AssertFacts.

(** ** Replacing the types of columns *)

Section UpdateFacts.
Context {E : External}.

Lemma set_absent {V : Type} k (v : V) d :
  ~ In k (Dict.keys d) -> Dict.set k v d = d ++ [(k, v)].
Proof.
  induction d as [|[k' v'] d IH]; simpl; [reflexivity|].
  intros H. destruct (String.eqb_spec k k') as [->|Hne]; [tauto|].
  f_equal. apply IH. tauto.
Qed.

Lemma fold_set_fresh {V : Type} (items : list (string * V)) : forall acc,
  NoDup (Dict.keys acc ++ map fst items) ->
  fold_left (fun d kv => Dict.set (fst kv) (snd kv) d) items acc = acc ++ items.
Proof.
  induction items as [|[k v] items IH]; intros acc H; simpl.
  - now rewrite app_nil_r.
  - rewrite set_absent.
    + rewrite IH.
      * rewrite <- app_assoc. reflexivity.
      * unfold Dict.keys. rewrite map_app, <- app_assoc. exact H.
    + simpl in H. apply NoDup_remove_2 in H. intros Hin. apply H.
      apply in_or_app. now left.
Qed.

Lemma of_items_NoDup {V : Type} (items : list (string * V)) :
  NoDup (map fst items) -> Dict.of_items items = items.
Proof. intros H. unfold Dict.of_items. now rewrite fold_set_fresh. Qed.

Lemma store_NoDup (cs : list ColumnSchema) :
  NoDup (map name cs) -> store [] cs = map (fun c => (name c, c)) cs.
Proof.
  intros H. unfold store.
  transitivity (fold_left (fun d kv => Dict.set (fst kv) (snd kv) d)
                          (map (fun c => (name c, c)) cs) []).
  - generalize (@nil (string * ColumnSchema)).
    induction cs as [|c cs IH]; intros acc; simpl; [reflexivity|].
    inversion H; subst. now apply IH.
  - apply fold_set_fresh. simpl. now rewrite map_map.
Qed.

Lemma map_result_map {A B : Type} (f : A -> result B) (g : A -> B) l :
  (forall x, In x l -> f x = Ok (g x)) -> map_result f l = Ok (map g l).
Proof.
  induction l as [|x l IH]; simpl; intros H; [reflexivity|].
  rewrite (H x) by now left. simpl. rewrite IH; [reflexivity|].
  intros y Hy. apply H. now right.
Qed.

Lemma set_redefine k h (c : ColumnDefinition) (d : Dict.dict ColumnDefinition) :
  NoDup (Dict.keys d) -> Dict.get k d = Some c ->
  Dict.set k (replace_dtype c (wrap h)) d = map (redefine [(k, h)]) d.
Proof.
  induction d as [|[k' c'] d IH]; simpl; [discriminate|].
  intros Hnd Hget. inversion Hnd as [|? ? Hnotin Hnd']; subst.
  unfold redefine at 1. simpl.
  destruct (String.eqb_spec k k') as [->|Hne].
  - injection Hget as ->. rewrite String.eqb_refl. f_equal.
    symmetry. transitivity (map (fun x => x) d); [|apply map_id].
    apply map_ext_in.
    intros [k1 c1] Hin. unfold redefine. simpl.
    destruct (String.eqb_spec k1 k') as [->|]; [|reflexivity].
    exfalso. apply Hnotin. now apply (in_map fst) in Hin.
  - destruct (String.eqb_spec k' k) as [->|_]; [contradiction|].
    f_equal. now apply IH.
Qed.

Lemma keys_redefine kwargs (d : Dict.dict ColumnDefinition) :
  Dict.keys (map (redefine kwargs) d) = Dict.keys d.
Proof. unfold Dict.keys. rewrite map_map. reflexivity. Qed.

(** The loop of [update_types] over overrides that all name a column. *)
Lemma update_loop_ok kwargs : forall columns : Dict.dict ColumnDefinition,
  NoDup (Dict.keys kwargs) -> NoDup (Dict.keys columns) ->
  incl (Dict.keys kwargs) (Dict.keys columns) ->
  for_each
    (fun columns kv =>
       let '(name, dtype) := kv in
       if negb (Dict.contains name columns) then
         Raise (ValueError msg_has_to_be_existing_column)
       else
         c <- getitem columns name ;;
         Ok (Dict.set name (replace_dtype c (wrap dtype)) columns))
    kwargs columns
  = Ok (map (redefine kwargs) columns).
Proof.
  induction kwargs as [|[k h] kwargs IH]; intros columns Hk Hc Hincl.
  - simpl. f_equal. symmetry.
    transitivity (map (fun x => x) columns); [|apply map_id].
    apply map_ext. intros [k c]. reflexivity.
  - cbn [for_each]. inversion Hk as [|? ? Hnotin Hk']; subst.
    assert (Hin : In k (Dict.keys columns)) by (apply Hincl; now left).
    rewrite (proj2 (contains_In k columns) Hin). cbn [negb].
    destruct (In_keys_get _ _ Hin) as [c Hget].
    unfold getitem. rewrite Hget. cbn [bind].
    rewrite (@set_redefine k h c columns Hc Hget).
    rewrite IH.
    + f_equal. rewrite map_map. apply map_ext. intros [k1 c1].
      unfold redefine. simpl.
      destruct (String.eqb_spec k1 k) as [->|Hne]; [|reflexivity].
      destruct (Dict.get k kwargs) eqn:Hg; [|reflexivity].
      exfalso. apply Hnotin. apply get_Some_In in Hg.
      now apply (in_map fst) in Hg.
    + assumption.
    + now rewrite keys_redefine.
    + rewrite keys_redefine. intros x Hx. apply Hincl. now right.
Qed.

(** The loop of [update_types] with an override that names no column. *)
Lemma update_loop_unknown (K : list string) kwargs :
  forall columns : Dict.dict ColumnDefinition,
  (forall x, In x (Dict.keys columns) <-> In x K) ->
  ~ incl (Dict.keys kwargs) K ->
  for_each
    (fun columns kv =>
       let '(name, dtype) := kv in
       if negb (Dict.contains name columns) then
         Raise (ValueError msg_has_to_be_existing_column)
       else
         c <- getitem columns name ;;
         Ok (Dict.set name (replace_dtype c (wrap dtype)) columns))
    kwargs columns
  = Raise (ValueError msg_has_to_be_existing_column).
Proof.
  induction kwargs as [|[k h] kwargs IH]; intros columns HK Hnot.
  - exfalso. apply Hnot. intros x [].
  - cbn [for_each].
    destruct (Dict.contains k columns) eqn:Hc; cbn [negb]; [|reflexivity].
    apply contains_In in Hc.
    destruct (In_keys_get _ _ Hc) as [c Hget].
    unfold getitem. rewrite Hget. cbn [bind].
    apply IH.
    + intros x. rewrite In_keys_set, <- HK. split; [|tauto].
      intros [->|H]; assumption.
    + intros Hincl. apply Hnot. intros x [<-|Hx]; [now apply HK | now apply Hincl].
Qed.

Lemma update_types_columns self :
  built self ->
  Dict.of_items (map (fun col => (name col, to_definition col))
                     (Dict.values (__columns__ self)))
  = map (fun kv => (fst kv, to_definition (snd kv))) (__columns__ self).
Proof.
  intros Hb.
  assert (Heq : map (fun col => (name col, to_definition col))
                    (Dict.values (__columns__ self))
                = map (fun kv => (fst kv, to_definition (snd kv)))
                      (__columns__ self)).
  { unfold Dict.values. rewrite map_map. apply map_ext_in.
    intros [k c] Hin. simpl. now rewrite (built_names _ _ Hb Hin). }
  rewrite Heq. apply of_items_NoDup. rewrite map_map. simpl.
  apply (built_NoDup Hb).
Qed.

(** [update_types] fails as soon as an override names no column. *)
Lemma update_types_unknown_column self kwargs :
  built self ->
  ~ incl (Dict.keys kwargs) (keys self) ->
  update_types self kwargs = Raise (ValueError msg_has_to_be_existing_column).
Proof.
  intros Hb Hnot. unfold update_types.
  rewrite (update_types_columns Hb).
  rewrite (@update_loop_unknown (keys self) kwargs); [reflexivity | | assumption].
  intros x. unfold keys, Dict.keys. rewrite map_map. reflexivity.
Qed.

Lemma map_result_compose {A B C : Type} (f : B -> result C) (a : A -> B) l :
  map_result f (map a l) = map_result (fun x => f (a x)) l.
Proof.
  induction l as [|x l IH]; simpl; [reflexivity|]. now rewrite IH.
Qed.

Lemma name_or_same k : name_or (Some k) k = k.
Proof. unfold name_or. now destruct (String.eqb k EmptyString). Qed.

Lemma name_retype kwargs c : name (retype kwargs c) = name c.
Proof. unfold retype. now destruct (Dict.get (name c) kwargs). Qed.

(** The column that the rebuilt schema resolves for a column of [self]. *)
Lemma resolve_redefined ao kwargs (D : Dict.dict attr) k c :
  name c = k -> col_append_only c = ao ->
  Dict.get k D = Some (ADef (snd (redefine kwargs (k, to_definition c)))) ->
  resolve ao D
    (k, match def_dtype (snd (redefine kwargs (k, to_definition c))) with
        | Some d => hint_of_dtype d
        | None => Any
        end)
  = Ok (retype kwargs c).
Proof.
  intros Hname Hao Hget. subst k ao. unfold resolve. cbn [fst snd].
  rewrite Hget. unfold redefine, retype. cbn [fst snd].
  destruct (Dict.get (name c) kwargs) as [h|]; cbn [replace_dtype to_definition
    def_dtype def_primary_key def_default_value def_name];
    rewrite !wrap_dtype;
    (destruct (DType_eq_dec _ _) as [_|Hne]; [|contradiction]);
    rewrite name_or_same; [reflexivity|].
  destruct c; reflexivity.
Qed.

(** For a schema none of whose column names starts with two underscores,
    [update_types] with overrides that all name a column returns a schema
    with the same properties and the same columns in the same order, in
    which the overridden columns have the wrapped override as dtype and
    every column keeps its name, primary-key flag and default value. *)
Lemma update_types_preserves self kwargs :
  built self ->
  NoDup (Dict.keys kwargs) ->
  Forall (fun k => String.prefix "__" k = false) (keys self) ->
  incl (Dict.keys kwargs) (keys self) ->
  exists s,
    update_types self kwargs = Ok s /\
    __properties__ s = __properties__ self /\
    __columns__ s
    = map (fun kv => (fst kv, retype kwargs (snd kv))) (__columns__ self) /\
    Dict.keys (__dict__ s) = keys self.
Proof.
  intros Hb Hk Hdunder Hincl.
  pose proof (built_NoDup Hb) as Hnd. unfold keys in Hnd, Hdunder, Hincl.
  unfold update_types. rewrite (update_types_columns Hb).
  set (cols := __columns__ self) in *.
  set (C0 := map (fun kv => (fst kv, to_definition (snd kv))) cols).
  assert (HC0 : Dict.keys C0 = Dict.keys cols).
  { unfold C0, Dict.keys. now rewrite map_map. }
  rewrite update_loop_ok; [|assumption | now rewrite HC0 | now rewrite HC0].
  cbn [bind].
  set (C1 := map (redefine kwargs) C0).
  assert (HC1 : C1 = map (fun kv => redefine kwargs (fst kv, to_definition (snd kv)))
                         cols).
  { unfold C1, C0. now rewrite map_map. }
  assert (HCC : forall A, class_creation C1 A = Ok A).
  { intros A. apply class_creation_plain.
    replace (Dict.keys C1) with (Dict.keys cols); [assumption|].
    unfold Dict.keys. now rewrite HC1, map_map. }
  unfold schema_builder. cbv zeta. rewrite HCC. cbn [bind].
  unfold _schema_builder, SchemaMetaclass, _create_column_definitions.
  cbv zeta.
  set (ao := append_only (__properties__ self)).
  set (A := map (fun kv => (fst kv, match def_dtype (snd kv) with
                                    | Some d => hint_of_dtype d
                                    | None => Any
                                    end)) C1).
  set (D := map (fun kv => (fst kv, ADef (snd kv))) C1).
  assert (HA : Dict.keys A = Dict.keys cols).
  { unfold A, Dict.keys. rewrite map_map, HC1, map_map. reflexivity. }
  assert (HD : Dict.keys D = Dict.keys cols).
  { unfold D, Dict.keys. rewrite map_map, HC1, map_map. reflexivity. }
  assert (Hcls : _cls_fields D = D).
  { unfold _cls_fields. apply forallb_filter_id. apply forallb_forall.
    intros kv Hkv. apply negb_true_iff.
    rewrite Forall_forall in Hdunder. apply Hdunder. rewrite <- HD.
    unfold Dict.keys. now apply in_map. }
  assert (Hres : map_result (resolve ao D) A
                 = Ok (map (fun kv => retype kwargs (snd kv)) cols)).
  { unfold A. rewrite HC1, map_map, map_result_compose.
    apply map_result_map. intros [k c] Hin. cbn [fst snd].
    apply resolve_redefined.
    - apply (built_names _ _ Hb Hin).
    - apply (built_append_only _ _ Hb Hin).
    - apply In_get; [now rewrite HD|].
      unfold D. rewrite HC1, map_map. apply in_map_iff.
      exists (k, c). split; [reflexivity | assumption]. }
  assert (Hleft : leftover D (Dict.keys A) = []).
  { apply leftover_nil; [now rewrite HD|]. rewrite HA, HD. apply incl_refl. }
  assert (HndA : NoDup (Dict.keys A)) by now rewrite HA.
  pose proof (@loop_closed_form E ao A D [] HndA) as Hloop.
  rewrite Hres, Hleft in Hloop. cbn [bind] in Hloop.
  cbn [append_only]. fold ao. rewrite Hcls.
  unfold Dict.dict in *. rewrite Hloop. cbn [bind].
  eexists. split; [reflexivity|]. split; [|split; [|exact HD]].
  - cbn [__properties__]. unfold ao. now destruct (__properties__ self).
  - cbn [__columns__]. rewrite store_NoDup.
    + rewrite map_map. apply map_ext_in. intros [k c] Hin. cbn [fst snd].
      now rewrite name_retype, (built_names _ _ Hb Hin).
    + rewrite map_map.
      replace (map (fun kv => name (retype kwargs (snd kv))) cols)
        with (Dict.keys cols); [assumption|].
      unfold Dict.keys. apply map_ext_in. intros [k c] Hin. cbn [fst snd].
      now rewrite name_retype, (built_names _ _ Hb Hin).
Qed.

End UpdateFacts.
Module CaseFacts.
Import Example Cases.

Ltac nodup :=
  vm_compute;
  repeat (apply NoDup_cons; [simpl; intuition congruence|]);
  apply NoDup_nil.

Ltac built_by_computation s :=
  exists (__name__ s), (__annotations__ s), (__dict__ s),
         (append_only (__properties__ s));
  split; [nodup | split; [nodup | reflexivity]].

Lemma built_Sx : built Sx.
Proof. built_by_computation Sx. Defined.

Lemma built_Sy : built Sy.
Proof. built_by_computation Sy. Defined.

Lemma built_Sx_str : built Sx_str.
Proof. built_by_computation Sx_str. Defined.

Lemma built_Sx_opt : built Sx_opt.
Proof. built_by_computation Sx_opt. Defined.

Lemma built_Sx_bis : built Sx_bis.
Proof. built_by_computation Sx_bis. Defined.

Lemma built_Sxy : built Sxy.
Proof. built_by_computation Sxy. Defined.

Lemma built_Syx : built Syx.
Proof. built_by_computation Syx. Defined.

Lemma built_Sa_x : built Sa_x.
Proof. built_by_computation Sa_x. Defined.

Lemma built_Sa_y : built Sa_y.
Proof. built_by_computation Sa_y. Defined.

Lemma built_Sk : built Sk.
Proof. built_by_computation Sk. Defined.

Lemma built_S_keys : built S_keys.
Proof. built_by_computation S_keys. Defined.

Lemma built_S_tuple_x : built S_tuple_x.
Proof. built_by_computation S_tuple_x. Defined.

Lemma built_S_x_tuple : built S_x_tuple.
Proof. built_by_computation S_x_tuple. Defined.

Lemma built_S_list_default : built S_list_default.
Proof. built_by_computation S_list_default. Defined.

(** C1 (the code at a failing input). [Sx] has the only column [x] and
    [Sy] the only column [y], so [Sy] has a column absent from [Sx] while
    [Sx] has one absent from [Sy]: [assert_equal_to] raises [KeyError] on
    [y] from the comparison of the types, not the [AssertionError] that
    lists the missing columns. *)
Theorem assert_equal_to_incomparable_keys :
  built Sx /\ built Sy /\
  keys_sub (keys Sy) (keys Sx) = ["y"] /\
  keys_sub (keys Sx) (keys Sy) = ["x"] /\
  assert_equal_to Sx Sy false true = Raise (KeyError "y").
Proof.
  split; [exact built_Sx|]. split; [exact built_Sy|].
  repeat split; reflexivity.
Qed.

(** C5 (the code at a failing input). [Sk] has the primary-key column
    [__k]; [update_types] with no override returns a schema in which [__k]
    is no longer a primary key. *)
Theorem update_types_drops_primary_key :
  built Sk /\
  primary_key_columns Sk = Some ["__k"] /\
  exists s, update_types Sk [] = Ok s /\
            keys s = ["__k"] /\
            primary_key_columns s = None.
Proof.
  split; [exact built_Sk|]. split; [reflexivity|].
  eexists. split; [reflexivity|]. split; reflexivity.
Qed.

(** C3 (the code at a failing input). [S_keys] has the only column [keys],
    stored under that name in the class, and [Sx] the only column [x].
    The column sets differ, and [is_subschema] does not return false: the
    call [left.keys()] reaches the column definition and raises
    [TypeError].  It raises as well with [S_keys] on the right, and on
    [S_keys] against itself. *)
Theorem is_subschema_column_named_keys :
  built S_keys /\ built Sx /\
  keys S_keys = ["keys"] /\ keys Sx = ["x"] /\
  is_subschema S_keys Sx = Raise (TypeError (msg_not_callable "keys")) /\
  is_subschema Sx S_keys = Raise (TypeError (msg_not_callable "keys")) /\
  is_subschema S_keys S_keys = Raise (TypeError (msg_not_callable "keys")).
Proof.
  split; [exact built_S_keys|]. split; [exact built_Sx|].
  repeat split; reflexivity.
Qed.

(** C9 (the code at a failing input). [S_tuple_x] and [S_x_tuple] have
    equal properties and the same two columns, [_as_tuple] and [x], in
    different orders.  [__eq__] does not return false on them: the call
    [self._as_tuple()] reaches the column definition stored under that name
    and raises [TypeError]. *)
Theorem eq_column_named_as_tuple :
  built S_tuple_x /\ built S_x_tuple /\
  __properties__ S_tuple_x = __properties__ S_x_tuple /\
  Permutation (__columns__ S_tuple_x) (__columns__ S_x_tuple) /\
  __columns__ S_tuple_x <> __columns__ S_x_tuple /\
  __eq__ S_tuple_x S_x_tuple = Raise (TypeError (msg_not_callable "_as_tuple")).
Proof.
  split; [exact built_S_tuple_x|]. split; [exact built_S_x_tuple|].
  split; [reflexivity|]. split; [apply perm_swap|]. split; [|reflexivity].
  intros H. apply (f_equal (@Dict.keys _)) in H. vm_compute in H.
  discriminate H.
Qed.

(** C4 (counterexample). [S_list_default] has a column whose default value
    is a list.  It is equal to itself, and it has no hash: [__hash__]
    raises the [TypeError] of [hash] on the list. *)
Lemma hash_unhashable_default :
  built S_list_default /\
  shadowed "_as_tuple" S_list_default = false /\
  __eq__ S_list_default S_list_default = Ok true /\
  __hash__ S_list_default = Raise (TypeError msg_unhashable).
Proof.
  split; [exact built_S_list_default|]. repeat split; reflexivity.
Qed.

(** C2 (counterexample). [Sa_x] and [Sa_y] have the disjoint column sets
    [x] and [y], both declared under the attribute [a]: [schema_add] fails
    on them.  [Sx] and [Sx_str] share the column [x]: the failure is a bare
    [AssertionError], with no message and so without the name [x]. *)
Lemma schema_add_counterexample :
  (built Sa_x /\ built Sa_y /\
   keys Sa_x = ["x"] /\ keys Sa_y = ["y"] /\
   schema_add [Sa_x; Sa_y] = Raise (AssertionError None))
  /\ (built Sx /\ built Sx_str /\
      keys Sx = ["x"] /\ keys Sx_str = ["x"] /\
      schema_add [Sx; Sx_str] = Raise (AssertionError None)).
Proof.
  split.
  - split; [exact built_Sa_x|]. split; [exact built_Sa_y|].
    repeat split; reflexivity.
  - split; [exact built_Sx|]. split; [exact built_Sx_str|].
    repeat split; reflexivity.
Qed.

(** C6 (counterexample). In the class body [b: int = 5;
    a = column_definition()] the field [a] has no annotation, and
    construction fails with the error on [b] not being a column definition,
    not with the one on missing annotations. *)
Lemma lack_annotation_counterexample :
  NoDup (Dict.keys bad_annotations) /\ NoDup (Dict.keys bad_dict) /\
  unannotated bad_annotations bad_dict = ["a"] /\
  SchemaMetaclass "C" bad_annotations bad_dict false
  = Raise (ValueError (msg_should_be_column_definition "b")).
Proof.
  split; [nodup|]. split; [nodup|]. split; reflexivity.
Qed.


(** The worked cases of the documentation. *)

Example is_subschema_optional_right : is_subschema Sx Sx_opt = Ok true.
Proof. reflexivity. Qed.

Example is_subschema_optional_left : is_subschema Sx_opt Sx = Ok false.
Proof. reflexivity. Qed.

Example is_subschema_other_keys : is_subschema Sx Sxy = Ok false.
Proof. reflexivity. Qed.

Example schema_add_x_y :
  exists s, schema_add [Sx; Sy] = Ok s /\
            __types__ s = [("y", H_int); ("x", H_int)].
Proof. eexists. split; reflexivity. Qed.

Example update_types_x_float :
  exists s, update_types Sxy [("x", H_float)] = Ok s /\
            __types__ s = [("x", H_float); ("y", H_str)].
Proof. eexists. split; reflexivity. Qed.

Example update_types_z :
  update_types Sxy [("z", H_float)]
  = Raise (ValueError msg_has_to_be_existing_column).
Proof. reflexivity. Qed.

Example assert_equal_to_extra_columns :
  assert_equal_to Sxy Sx false true
  = Raise (AssertionError (Some (msg_extra_columns ["y"]))).
Proof. reflexivity. Qed.

Example assert_equal_to_same : assert_equal_to Sxy Sxy false true = Ok tt.
Proof. reflexivity. Qed.

Example assert_equal_to_superset : assert_equal_to Sxy Sx true true = Ok tt.
Proof. reflexivity. Qed.

Example assert_equal_to_subset :
  assert_equal_to Sx Sxy false true
  = Raise (AssertionError (Some (msg_does_not_have_columns ["y"]))).
Proof. reflexivity. Qed.

Example primary_key_columns_none : primary_key_columns Sxy = None.
Proof. reflexivity. Qed.

Example schema_from_csv_int_str :
  exists s,
    schema_from_csv csv_int_str (Some "S") default_properties "," None None
      None = Ok s /\
    __types__ s = [("a", H_int); ("b", H_str)].
Proof. eexists. split; reflexivity. Qed.

Example schema_from_csv_float_int :
  exists s,
    schema_from_csv csv_float_int (Some "S") default_properties "," None None
      None = Ok s /\
    __types__ s = [("a", H_float); ("b", H_int)].
Proof. eexists. split; reflexivity. Qed.

Example schema_from_csv_no_rows :
  exists s,
    schema_from_csv csv_int_str (Some "S") default_properties "," None None
      (Some 0%Z) = Ok s /\
    __types__ s = [("a", H_Any); ("b", H_Any)].
Proof. eexists. split; reflexivity. Qed.

(** Witnesses: the theorems above at concrete inputs. *)

Lemma is_subschema_spec_witness :
  built Sx /\ built Sx_opt /\
  shadowed "keys" Sx = false /\ shadowed "keys" Sx_opt = false /\
  exists b, is_subschema Sx Sx_opt = Ok b /\
    (b = true <->
       (forall n, In n (keys Sx) <-> In n (keys Sx_opt)) /\
       (forall n ca cb,
           Dict.get n (__columns__ Sx) = Some ca ->
           Dict.get n (__columns__ Sx_opt) = Some cb ->
           dtype_issubclass (dtype ca) (dtype cb) = true)).
Proof.
  split; [exact built_Sx|]. split; [exact built_Sx_opt|].
  split; [reflexivity|]. split; [reflexivity|].
  exact (proj1 (is_subschema_spec built_Sx built_Sx_opt) eq_refl eq_refl).
Defined.

Lemma eq_iff_and_hash_consistent_witness :
  shadowed "_as_tuple" Sx = false /\ shadowed "_as_tuple" Sx_bis = false /\
  __eq__ Sx Sx_bis = Ok true /\ __hash__ Sx = __hash__ Sx_bis.
Proof.
  split; [reflexivity|]. split; [reflexivity|]. split; [reflexivity|].
  apply (proj1 (proj2 (@eq_iff_and_hash_consistent external Sx Sx_bis
                         eq_refl eq_refl))).
  reflexivity.
Defined.

Lemma eq_order_sensitive_witness :
  shadowed "_as_tuple" Sxy = false /\ shadowed "_as_tuple" Syx = false /\
  __properties__ Sxy = __properties__ Syx /\
  Permutation (__columns__ Sxy) (__columns__ Syx) /\
  __columns__ Sxy <> __columns__ Syx /\
  __eq__ Sxy Syx = Ok false.
Proof.
  assert (Hp : Permutation (__columns__ Sxy) (__columns__ Syx))
    by apply perm_swap.
  assert (Hn : __columns__ Sxy <> __columns__ Syx).
  { intros H. apply (f_equal (@Dict.keys _)) in H. vm_compute in H.
    discriminate H. }
  split; [reflexivity|]. split; [reflexivity|].
  split; [reflexivity|]. split; [exact Hp|]. split; [exact Hn|].
  exact (@eq_order_sensitive external Sxy Syx eq_refl eq_refl eq_refl Hp Hn).
Defined.

Lemma type_converter_wraps_optional_witness :
  _type_converter floats_with_na = Optional FLOAT.
Proof.
  apply (type_converter_wraps_optional floats_with_na).
  - apply Exists_cons_tl, Exists_cons_hd. reflexivity.
  - intros H. inversion H. discriminate.
  - intros H. inversion H. discriminate.
  - intros H. inversion H. discriminate.
Defined.

Lemma choose_type_precedence_witness :
  choose_type (map Some ["1"; "2"]) = Ok int /\
  choose_type (map Some ["1.5"; "2"]) = Ok float /\
  choose_type (map Some ["foo"; "2"]) = Ok str.
Proof.
  split; [|split].
  - apply (proj1 (proj2 (choose_type_precedence ["1"; "2"]))).
    + discriminate.
    + repeat constructor.
  - apply (proj1 (proj2 (proj2 (choose_type_precedence ["1.5"; "2"])))).
    + discriminate.
    + intros H. inversion H. discriminate.
    + repeat constructor.
  - apply (proj2 (proj2 (proj2 (choose_type_precedence ["foo"; "2"])))).
    + discriminate.
    + intros H. inversion H. discriminate.
    + intros H. inversion H. discriminate.
Defined.

Lemma schema_add_disjoint_or_assert_witness :
  Forall built [Sx; Sy] /\
  (exists s, schema_add [Sx; Sy] = Ok s /\
     __properties__ s = default_properties /\
     forall n, In n (keys s) <-> exists si, In si [Sx; Sy] /\ In n (keys si))
  /\ Forall built [Sx; Sx_str]
  /\ schema_add [Sx; Sx_str] = Raise (AssertionError None).
Proof.
  assert (Hb : Forall built [Sx; Sy]).
  { constructor; [exact built_Sx|]. constructor; [exact built_Sy|]. constructor. }
  assert (Hc : Forall built [Sx; Sx_str]).
  { constructor; [exact built_Sx|]. constructor; [exact built_Sx_str|].
    constructor. }
  split; [exact Hb|]. split; [|split; [exact Hc|]].
  - apply (proj1 (schema_add_disjoint_or_assert Hb)); unfold disjoint_keys; nodup.
  - apply (proj2 (schema_add_disjoint_or_assert Hc)). unfold disjoint_keys.
    intros H. vm_compute in H. inversion H as [|? ? Hnotin _]. apply Hnotin.
    left. reflexivity.
Defined.

Lemma lack_annotation_reports_all_witness :
  SchemaMetaclass "C" bad_annotations two_unannotated false
  = Raise (ValueError (msg_lack_type_annotation "a, c")).
Proof.
  apply (@lack_annotation_reports_all external "C" bad_annotations
           two_unannotated false).
  - nodup.
  - nodup.
  - constructor; [|constructor]. intros a H. discriminate H.
  - vm_compute. discriminate.
Defined.


End CaseFacts.

(* ================================================================== *)
(** * Further properties of the module *)
(* ================================================================== *)

(** ** Invariants of a schema *)

Section InvariantFacts.
Context {E : External}.

(** X1. In a schema returned by the metaclass the column names are
    pairwise distinct, every column is stored under its own name, and every
    column has the [append_only] flag of the properties of the schema. *)
Theorem schema_invariants (s : Schema) :
  built s ->
  NoDup (keys s) /\
  (forall k c, In (k, c) (__columns__ s) -> name c = k) /\
  (forall k c, In (k, c) (__columns__ s) ->
     col_append_only c = append_only (__properties__ s)).
Proof.
  intros Hb. split; [now apply built_NoDup|]. split.
  - intros k c. now apply built_names.
  - intros k c. now apply built_append_only.
Qed.

(** X2. [_dtypes()] and [typehints()] list the columns of a schema in the
    order of [columns()]: the three have the same keys, position by
    position, and hold the dtype of the column and the type hint of that
    dtype. *)
Theorem dtypes_and_typehints_follow_columns (s : Schema) :
  built s ->
  Dict.keys (__dtypes__ s) = keys s /\
  Dict.keys (typehints s) = keys s /\
  (forall k c, Dict.get k (__columns__ s) = Some c ->
     Dict.get k (__dtypes__ s) = Some (dtype c) /\
     Dict.get k (typehints s) = Some (typehint (dtype c))) /\
  (forall k, Dict.get k (__columns__ s) = None ->
     Dict.get k (__dtypes__ s) = None /\ Dict.get k (typehints s) = None).
Proof.
  intros Hb. unfold typehints, keys.
  rewrite (built_dtypes Hb), (built_types Hb).
  split; [apply (keys_map dtype)|].
  split; [apply (keys_map (fun c => typehint (dtype c)))|].
  split; intros k; [intros c|]; intros H;
    rewrite (get_map dtype), (get_map (fun c => typehint (dtype c))), H;
    split; reflexivity.
Qed.

End InvariantFacts.

(** ** What the builders return *)

Section BuilderFacts.
Context {E : External}.

Lemma SchemaMetaclass_closed _name annotations _dict ao cs :
  NoDup (Dict.keys annotations) ->
  map_result (resolve ao (_cls_fields _dict)) annotations = Ok cs ->
  leftover (_cls_fields _dict) (Dict.keys annotations) = [] ->
  SchemaMetaclass _name annotations _dict ao =
  Ok {| __name__ := _name;
        __annotations__ := annotations;
        __dict__ := _dict;
        __properties__ := {| append_only := ao |};
        __columns__ := store [] cs;
        __dtypes__ := map (fun kv => (fst kv, dtype (snd kv))) (store [] cs);
        __types__ := map (fun kv => (fst kv, typehint (snd kv)))
                       (map (fun kv => (fst kv, dtype (snd kv)))
                            (store [] cs)) |}.
Proof.
  intros Hnd Hcs Hleft.
  pose proof (@loop_closed_form E ao annotations (_cls_fields _dict) [] Hnd)
    as Hloop.
  rewrite Hcs, Hleft in Hloop. cbn [bind] in Hloop.
  unfold SchemaMetaclass, _create_column_definitions. cbv zeta.
  cbn [append_only]. unfold Dict.dict in *. rewrite Hloop. reflexivity.
Qed.

Lemma get_cls_fields_dunder k (d : Dict.dict attr) :
  String.prefix "__" k = true -> Dict.get k (_cls_fields d) = None.
Proof.
  intros Hp. apply get_None. unfold _cls_fields.
  rewrite (keys_filter (fun k => negb (String.prefix "__" k))).
  intros Hin. apply filter_In in Hin. destruct Hin as [_ Hin].
  rewrite Hp in Hin. discriminate.
Qed.

Lemma get_cls_fields_plain k a (d : Dict.dict attr) :
  NoDup (Dict.keys d) -> String.prefix "__" k = false -> In (k, a) d ->
  Dict.get k (_cls_fields d) = Some a.
Proof.
  intros Hnd Hp Hin. apply In_get; [now apply _cls_fields_NoDup|].
  unfold _cls_fields. apply filter_In. split; [assumption|].
  simpl. now rewrite Hp.
Qed.

Lemma cls_fields_incl (d : Dict.dict attr) :
  incl (Dict.keys (_cls_fields d)) (Dict.keys d).
Proof.
  unfold _cls_fields.
  rewrite (keys_filter (fun k => negb (String.prefix "__" k))).
  apply incl_filter.
Qed.

(** The columns of [schema_builder] in closed form, when making the class
    goes through. *)
Lemma schema_builder_closed columns name properties :
  NoDup (Dict.keys columns) ->
  (forall annotations, class_creation columns annotations = Ok annotations) ->
  exists s,
    schema_builder columns name properties = Ok s /\
    built s /\
    __properties__ s = properties /\
    __columns__ s
    = store [] (map (builder_column (append_only properties)) columns) /\
    Dict.keys (__dict__ s) = Dict.keys columns.
Proof.
  intros Hnd Hcc. unfold schema_builder, _schema_builder. cbv zeta.
  rewrite Hcc. cbn [bind].
  set (n := match name with Some n => n | None => _ end).
  set (A := map (fun kv => (fst kv, match def_dtype (snd kv) with
                                    | Some d => hint_of_dtype d
                                    | None => Any
                                    end)) columns).
  set (D := map (fun kv => (fst kv, ADef (snd kv))) columns).
  set (ao := append_only properties).
  assert (HA : Dict.keys A = Dict.keys columns).
  { unfold A, Dict.keys. now rewrite map_map. }
  assert (HD : Dict.keys D = Dict.keys columns).
  { unfold D, Dict.keys. now rewrite map_map. }
  assert (HndA : NoDup (Dict.keys A)) by now rewrite HA.
  assert (HndD : NoDup (Dict.keys D)) by now rewrite HD.
  assert (Hres : map_result (resolve ao (_cls_fields D)) A
                 = Ok (map (builder_column ao) columns)).
  { unfold A. rewrite map_result_compose. apply map_result_map.
    intros [k c] Hin. unfold resolve, builder_column. cbn [fst snd].
    destruct (String.prefix "__" k) eqn:Hp.
    - rewrite (get_cls_fields_dunder k D Hp).
      cbn [column_definition option_map def_dtype def_primary_key
           def_default_value def_name].
      rewrite !wrap_dtype.
      destruct (DType_eq_dec _ _) as [_|Hne]; [|contradiction].
      unfold name_or. destruct (def_dtype c); now rewrite ?wrap_dtype.
    - rewrite (@get_cls_fields_plain k (ADef c) D HndD Hp).
      + unfold declared_column. cbn [fst snd].
        destruct (def_dtype c) as [d|]; rewrite ?wrap_dtype;
          (destruct (DType_eq_dec _ _) as [_|Hne]; [|contradiction]);
          reflexivity.
      + unfold D. apply in_map_iff. exists (k, c). split; [reflexivity|assumption]. }
  assert (Hleft : leftover (_cls_fields D) (Dict.keys A) = []).
  { apply leftover_nil; [now apply _cls_fields_NoDup|].
    rewrite HA, <- HD. apply cls_fields_incl. }
  rewrite (@SchemaMetaclass_closed n A D ao _ HndA Hres Hleft).
  eexists. split; [reflexivity|]. split.
  - exists n, A, D, ao. split; [assumption|]. split; [assumption|].
    apply (@SchemaMetaclass_closed n A D ao _ HndA Hres Hleft).
  - split; [|split; [reflexivity | exact HD]]. cbn [__properties__]. unfold ao.
    now destruct properties.
Qed.

(** When making the class fails, so does [schema_builder]. *)
Lemma schema_builder_class_creation columns name properties e :
  (forall annotations, class_creation columns annotations = Raise e) ->
  schema_builder columns name properties = Raise e.
Proof. intros H. unfold schema_builder. cbv zeta. now rewrite H. Qed.

(** With the attribute [__no_type_check__] no annotation is seen, and
    [schema_builder] returns a schema or reports the columns as lacking
    their annotation. *)
Lemma schema_builder_no_type_check columns name properties :
  (forall annotations, class_creation columns annotations = Ok []) ->
  (exists s, schema_builder columns name properties = Ok s) \/
  exists names,
    schema_builder columns name properties
    = Raise (ValueError (msg_lack_type_annotation names)).
Proof.
  intros H. unfold schema_builder. cbv zeta. rewrite H. cbn [bind].
  unfold _schema_builder, SchemaMetaclass, _create_column_definitions.
  cbv zeta. cbn [for_each bind].
  destruct (_cls_fields _); cbn [bind]; eauto.
Qed.

(** X3. [schema_builder] never fails on definitions given under names that
    do not start with two underscores: it returns a schema with the given
    properties. *)
Theorem schema_builder_total columns name properties :
  NoDup (Dict.keys columns) ->
  Forall (fun k => String.prefix "__" k = false) (Dict.keys columns) ->
  exists s,
    schema_builder columns name properties = Ok s /\
    built s /\ __properties__ s = properties.
Proof.
  intros Hnd Hplain.
  destruct (@schema_builder_closed columns name properties Hnd
              (fun A => @class_creation_plain E columns A Hplain))
    as (s & H1 & H2 & H3 & _).
  eauto.
Qed.

(** The columns of [schema_builder] for plain names. *)
Lemma schema_builder_declared columns name properties :
  NoDup (Dict.keys columns) ->
  Forall (fun k => String.prefix "__" k = false) (Dict.keys columns) ->
  NoDup (map (fun kv => name_or (def_name (snd kv)) (fst kv)) columns) ->
  exists s,
    schema_builder columns name properties = Ok s /\
    __columns__ s
    = map (fun kv => (name_or (def_name (snd kv)) (fst kv),
                      declared_column (append_only properties) kv)) columns.
Proof.
  intros Hnd Hplain Hnames.
  destruct (@schema_builder_closed columns name properties Hnd
              (fun A => @class_creation_plain E columns A Hplain)) as (s & H1 & _ & _ & H4 & _).
  exists s. split; [assumption|]. rewrite H4.
  assert (Heq : map (builder_column (append_only properties)) columns
                = map (declared_column (append_only properties)) columns).
  { apply map_ext_in. intros [k c] Hin. unfold builder_column. cbn [fst].
    rewrite Forall_forall in Hplain. rewrite (Hplain k); [reflexivity|].
    unfold Dict.keys. now apply (in_map fst) in Hin. }
  rewrite Heq, store_NoDup.
  - rewrite map_map. reflexivity.
  - rewrite map_map. exact Hnames.
Qed.

(** X4. When no given name starts with two underscores and the names the
    definitions resolve to ([name=] if given and not empty, else the key)
    are pairwise distinct, the columns of the schema that [schema_builder]
    returns are the given definitions in the given order, each under its
    resolved name with its primary-key flag and default value, its dtype
    (the wrapped [Any] when none is given) and the [append_only] flag of
    the properties. *)
Theorem schema_builder_columns columns name properties :
  NoDup (Dict.keys columns) ->
  Forall (fun k => String.prefix "__" k = false) (Dict.keys columns) ->
  NoDup (map (fun kv => name_or (def_name (snd kv)) (fst kv)) columns) ->
  exists s,
    schema_builder columns name properties = Ok s /\
    __columns__ s
    = map (fun kv => (name_or (def_name (snd kv)) (fst kv),
                      declared_column (append_only properties) kv)) columns.
Proof. apply schema_builder_declared. Qed.

End BuilderFacts.

(** ** Errors of the construction *)

Section ConstructionErrors.
Context {E : External}.

Lemma map_result_first_error {A B : Type} (f : A -> result B) pre x post e :
  Forall (fun y => exists z, f y = Ok z) pre ->
  f x = Raise e ->
  map_result f (pre ++ x :: post) = Raise e.
Proof.
  intros Hpre Hx. induction Hpre as [|y pre [z Hy] _ IH]; simpl.
  - now rewrite Hx.
  - rewrite Hy. simpl. now rewrite IH.
Qed.

Lemma construction_error _name pre item post _dict ao e :
  NoDup (Dict.keys (pre ++ item :: post)) ->
  Forall (accepted (_cls_fields _dict)) pre ->
  resolve ao (_cls_fields _dict) item = Raise e ->
  SchemaMetaclass _name (pre ++ item :: post) _dict ao = Raise e.
Proof.
  intros Hnd Hpre Hitem.
  pose proof (@loop_closed_form E ao (pre ++ item :: post)
                (_cls_fields _dict) [] Hnd) as Hloop.
  rewrite (@map_result_first_error _ _ (resolve ao (_cls_fields _dict))
             pre item post e) in Hloop; [|
    eapply Forall_impl; [|exact Hpre]; intros y Hy;
      now apply accepted_resolve | assumption].
  cbn [bind] in Hloop.
  unfold SchemaMetaclass, _create_column_definitions. cbv zeta.
  cbn [append_only]. unfold Dict.dict in *. rewrite Hloop. reflexivity.
Qed.

(** X5. When the annotations before [n] are accepted and the class has
    under the annotated name [n] an attribute that is not a column
    definition, construction fails with the [ValueError] that names [n],
    whatever comes after. *)
Theorem not_a_column_definition _name pre n h post _dict ao v :
  NoDup (Dict.keys (pre ++ (n, h) :: post)) ->
  Forall (accepted (_cls_fields _dict)) pre ->
  Dict.get n (_cls_fields _dict) = Some (AOther v) ->
  SchemaMetaclass _name (pre ++ (n, h) :: post) _dict ao
  = Raise (ValueError (msg_should_be_column_definition n)).
Proof.
  intros Hnd Hpre Hget. apply construction_error; [assumption..|].
  unfold resolve. cbn [fst snd]. now rewrite Hget.
Qed.

(** X6. When the annotations before [n] are accepted and the column
    definition under the annotated name [n] has a dtype other than the
    wrapped annotation, construction fails with the [TypeError] that names
    [n]. *)
Theorem annotation_mismatch _name pre n h post _dict ao c d :
  NoDup (Dict.keys (pre ++ (n, h) :: post)) ->
  Forall (accepted (_cls_fields _dict)) pre ->
  Dict.get n (_cls_fields _dict) = Some (ADef c) ->
  def_dtype c = Some d ->
  d <> wrap h ->
  SchemaMetaclass _name (pre ++ (n, h) :: post) _dict ao
  = Raise (TypeError (msg_annotation_does_not_match n)).
Proof.
  intros Hnd Hpre Hget Hd Hne. apply construction_error; [assumption..|].
  unfold resolve. cbn [fst snd]. rewrite Hget, Hd.
  destruct (DType_eq_dec (wrap h) d) as [Heq|_]; [|reflexivity].
  exfalso. apply Hne. now symmetry.
Qed.

End ConstructionErrors.

(** ** Replacing types, continued *)

Section UpdateTypesFacts.
Context {E : External}.

Lemma primary_key_retype kwargs c : primary_key (retype kwargs c) = primary_key c.
Proof. unfold retype. now destruct (Dict.get (name c) kwargs). Qed.

Lemma default_value_retype kwargs c :
  default_value (retype kwargs c) = default_value c.
Proof. unfold retype. now destruct (Dict.get (name c) kwargs). Qed.

Lemma primary_keys_retype kwargs (l : Dict.dict ColumnSchema) :
  map fst (filter (fun kv => primary_key (snd kv))
             (map (fun kv => (fst kv, retype kwargs (snd kv))) l))
  = map fst (filter (fun kv => primary_key (snd kv)) l).
Proof.
  induction l as [|[k c] l IH]; [reflexivity|].
  cbn [map filter fst snd]. rewrite primary_key_retype.
  destruct (primary_key c); cbn [map fst]; now rewrite IH.
Qed.

Lemma defaults_retype kwargs (l : Dict.dict ColumnSchema) :
  map (fun kv => (fst kv, default_value (snd kv)))
      (filter (fun kv => has_default_value (snd kv))
         (map (fun kv => (fst kv, retype kwargs (snd kv))) l))
  = map (fun kv => (fst kv, default_value (snd kv)))
        (filter (fun kv => has_default_value (snd kv)) l).
Proof.
  induction l as [|[k c] l IH]; [reflexivity|].
  assert (Hh : has_default_value (retype kwargs c) = has_default_value c).
  { unfold has_default_value. now rewrite default_value_retype. }
  cbn [map filter fst snd]. rewrite Hh.
  destruct (has_default_value c); [|exact IH].
  cbn [map fst snd]. rewrite default_value_retype. f_equal. exact IH.
Qed.

(** X7. For a schema none of whose column names starts with two
    underscores, [update_types] with overrides that all name a column
    returns a schema with the same properties, the same column names in the
    same order, the same primary-key columns and the same default values,
    in which a column has the wrapped override as dtype if it is overridden
    and is unchanged otherwise. *)
Theorem update_types_keeps_attributes self kwargs :
  built self ->
  NoDup (Dict.keys kwargs) ->
  Forall (fun k => String.prefix "__" k = false) (keys self) ->
  incl (Dict.keys kwargs) (keys self) ->
  exists s,
    update_types self kwargs = Ok s /\
    __properties__ s = __properties__ self /\
    keys s = keys self /\
    primary_key_columns s = primary_key_columns self /\
    default_values s = default_values self /\
    (forall k c, Dict.get k (__columns__ self) = Some c ->
       Dict.get k (__columns__ s) = Some (retype kwargs c)).
Proof.
  intros Hb Hk Hplain Hincl.
  destruct (@update_types_preserves E self kwargs Hb Hk Hplain Hincl)
    as (s & Hs & Hp & Hc & _).
  exists s. split; [assumption|]. split; [assumption|].
  unfold keys, primary_key_columns, default_values. rewrite Hc.
  split; [apply (keys_map (retype kwargs))|].
  split; [now rewrite primary_keys_retype|].
  split; [apply defaults_retype|].
  intros k c Hget. rewrite (get_map (retype kwargs)), Hget. reflexivity.
Qed.

(** X8. [update_types] fails with its [ValueError] whenever an override
    names no column of the schema. *)
Theorem update_types_rejects_unknown self kwargs :
  built self ->
  ~ incl (Dict.keys kwargs) (keys self) ->
  update_types self kwargs = Raise (ValueError msg_has_to_be_existing_column).
Proof. intros Hb Hnot. now apply update_types_unknown_column. Qed.

(** X9. For a schema none of whose column names starts with two
    underscores, with no column named [_as_tuple] and none stored under
    that name in the class, [update_types] without override returns a
    schema that is equal to the schema under [__eq__], and hashing the two
    has the same outcome: the same hash, or the same [TypeError] when a
    default value is unhashable. *)
Theorem update_types_nothing self :
  built self ->
  Forall (fun k => String.prefix "__" k = false) (keys self) ->
  shadowed "_as_tuple" self = false ->
  ~ In "_as_tuple" (keys self) ->
  exists s,
    update_types self [] = Ok s /\
    __eq__ self s = Ok true /\ __hash__ self = __hash__ s.
Proof.
  intros Hb Hplain Hself Hcol.
  destruct (@update_types_preserves E self [] Hb) as (s & Hs & Hp & Hc & Hd);
    [constructor | assumption | intros x [] |].
  exists s. split; [assumption|].
  assert (Hres : shadowed "_as_tuple" s = false).
  { apply shadowed_keys. now rewrite Hd. }
  assert (Heq : _as_tuple self = _as_tuple s).
  { unfold _as_tuple. rewrite Hp, Hc. f_equal.
    transitivity (map (fun x => x) (__columns__ self));
      [symmetry; apply map_id|].
    apply map_ext. intros [k c]. reflexivity. }
  split; [now apply eq_as_tuple|].
  rewrite (@hash_found E self Hself), (@hash_found E s Hres). now rewrite Heq.
Qed.

End UpdateTypesFacts.

(** ** Compatibility assertion, continued *)

Section AssertEqualFacts.
Context {E : External}.

Lemma primary_keys_eqb_eq a b : primary_keys_eqb a b = true <-> a = b.
Proof.
  destruct a as [x|], b as [y|]; simpl; try (split; [discriminate|congruence]);
    [|tauto].
  rewrite (tuple_eqb_eq String.eqb String.eqb_eq). split; congruence.
Qed.

Lemma types_loop (sd od : Dict.dict Hint) sname oname l :
  for_each
    (fun (_ : unit) col =>
       o <- getitem od col ;;
       s <- getitem sd col ;;
       assert_ (if Hint_eq_dec o s then true else false)
         (Some (msg_type_does_not_match col s o sname oname)))
    l tt = Ok tt
  <-> Forall (fun col => exists t, Dict.get col od = Some t /\
                                   Dict.get col sd = Some t) l.
Proof.
  induction l as [|col l IH]; cbn [for_each].
  - split; [constructor | reflexivity].
  - unfold getitem at 1 2.
    destruct (Dict.get col od) as [o|] eqn:Ho; cbn [bind].
    + destruct (Dict.get col sd) as [s|] eqn:Hs; cbn [bind].
      * destruct (Hint_eq_dec o s) as [->|Hne]; cbn [assert_ bind].
        -- rewrite IH. split.
           ++ intros H. constructor; [eauto | assumption].
           ++ intros H. now inversion H.
        -- split; [discriminate|]. intros H. inversion H as [|? ? (t & H1 & H2) _].
           congruence.
      * split; [discriminate|]. intros H. inversion H as [|? ? (t & H1 & H2) _].
        congruence.
    + split; [discriminate|]. intros H. inversion H as [|? ? (t & H1 & H2) _].
      congruence.
Qed.

Lemma types_agree_incl (sd od : Dict.dict Hint) :
  Forall (fun col => exists t, Dict.get col od = Some t /\
                               Dict.get col sd = Some t) (Dict.keys od)
  <-> (forall col t, Dict.get col od = Some t -> Dict.get col sd = Some t).
Proof.
  rewrite Forall_forall. split.
  - intros H col t Ho.
    destruct (H col) as (t' & H1 & H2); [|congruence].
    apply get_Some_In in Ho. unfold Dict.keys. now apply (in_map fst) in Ho.
  - intros H col Hin. destruct (In_keys_get _ _ Hin) as [t Ht]. eauto.
Qed.

(** X10. For two schemas that store no column under the name [typehints]
    nor, when the primary keys are compared, under the name
    [primary_key_columns], [assert_equal_to] returns without error exactly
    when every column of [other] is a column of [self] with the same type
    hint, [self] has no other column unless [allow_superset] is set, and
    the primary-key columns of both are the same unless
    [ignore_primary_keys] is set. *)
Theorem assert_equal_to_succeeds_iff self other allow_superset ignore_pk :
  built self -> built other ->
  shadowed "typehints" self = false -> shadowed "typehints" other = false ->
  (ignore_pk = false ->
   shadowed "primary_key_columns" self = false /\
   shadowed "primary_key_columns" other = false) ->
  (assert_equal_to self other allow_superset ignore_pk = Ok tt <->
     (forall col t, Dict.get col (typehints other) = Some t ->
                    Dict.get col (typehints self) = Some t) /\
     (allow_superset = false -> incl (keys self) (keys other)) /\
     (ignore_pk = false ->
        primary_key_columns self = primary_key_columns other)).
Proof.
  intros Hs Ho Hts Hto Hpks.
  pose proof (built_NoDup Hs) as Ns. pose proof (built_NoDup Ho) as No.
  pose proof (built_typehints_keys Hs) as Ks.
  pose proof (built_typehints_keys Ho) as Ko.
  rewrite <- types_agree_incl.
  assert (Hsub : Forall (fun col => exists t,
                           Dict.get col (typehints other) = Some t /\
                           Dict.get col (typehints self) = Some t)
                        (Dict.keys (typehints other)) ->
                 incl (keys other) (keys self)).
  { rewrite Forall_forall. intros H col Hin. rewrite <- Ko in Hin.
    destruct (H col Hin) as (t & _ & Ht). rewrite <- Ks.
    apply get_Some_In in Ht. unfold Dict.keys. now apply (in_map fst) in Ht. }
  unfold assert_equal_to.
  rewrite (call_method_found _ _ _ Hts), (call_method_found _ _ _ Hto).
  cbn [bind]. rewrite Ks.
  destruct (keys_lt (keys self) (Dict.keys (typehints other))) eqn:Hlt;
    cbn [bind].
  { split; [discriminate|]. intros (H & _). exfalso.
    rewrite Ko in Hlt. apply (keys_lt_spec _ Ns) in Hlt.
    destruct Hlt as [_ Hlt]. pose proof (NoDup_incl_length No (Hsub H)). lia. }
  destruct (for_each _ (Dict.keys (typehints other)) tt) as [[]|e] eqn:Hloop;
    cbn [bind].
  2:{ split; [discriminate|]. intros (H & _).
      pose proof (proj2 (types_loop (typehints self) (typehints other)
                           (__name__ self) (__name__ other) _) H) as H'.
      unfold Dict.dict in *. rewrite H' in Hloop. discriminate. }
  pose proof (proj1 (types_loop (typehints self) (typehints other)
                       (__name__ self) (__name__ other) _) Hloop) as Hagree.
  clear Hloop. rename Hagree into Hloop.
  pose proof (Hsub Hloop) as Hincl.
  rewrite Ko in Hloop |- *.
  assert (Hgt : keys_gt (keys self) (keys other) = true <->
                ~ incl (keys self) (keys other)).
  { unfold keys_gt. rewrite andb_true_iff, Nat.ltb_lt, all_contained_in_incl.
    split.
    - intros [Hlen _] H. pose proof (NoDup_incl_length Ns H). lia.
    - intros H. split; [|assumption].
      destruct (Nat.lt_ge_cases (List.length (keys other))
                                (List.length (keys self))) as [|Hle];
        [assumption|].
      exfalso. apply H.
      apply (@NoDup_length_incl _ (keys other) (keys self) No Hle Hincl). }
  destruct allow_superset; cbn [negb andb bind].
  - destruct ignore_pk; cbn [negb].
    + split; [intros _|reflexivity].
      split; [assumption|]. split; discriminate.
    + destruct (Hpks eq_refl) as [P1 P2].
      rewrite (call_method_found _ _ _ P1), (call_method_found _ _ _ P2).
      cbn [bind]. unfold assert_.
      destruct (primary_keys_eqb _ _) eqn:Hpk.
      * apply primary_keys_eqb_eq in Hpk. split; [intros _|reflexivity].
        split; [assumption|]. split; [discriminate | intros _; assumption].
      * split; [discriminate|]. intros (_ & _ & H).
        rewrite (proj2 (primary_keys_eqb_eq _ _) (H eq_refl)) in Hpk.
        discriminate.
  - destruct Hgt as [Hgt1 Hgt2].
    destruct (keys_gt (keys self) (keys other)) eqn:Hg; cbn [bind].
    + split; [discriminate|]. intros (_ & H & _).
      exfalso. apply (Hgt1 eq_refl), H. reflexivity.
    + assert (Hin : incl (keys self) (keys other)).
      { destruct (all_contained_in (keys self) (keys other)) eqn:Ha.
        - now apply all_contained_in_incl.
        - assert (H : ~ incl (keys self) (keys other)).
          { intros H. apply all_contained_in_incl in H. congruence. }
          discriminate (Hgt2 H). }
      destruct ignore_pk; cbn [negb].
      * split; [intros _|reflexivity].
        split; [assumption|]. split; [intros _; assumption | discriminate].
      * destruct (Hpks eq_refl) as [P1 P2].
        rewrite (call_method_found _ _ _ P1), (call_method_found _ _ _ P2).
        cbn [bind]. unfold assert_.
        destruct (primary_keys_eqb _ _) eqn:Hpk.
        -- apply primary_keys_eqb_eq in Hpk. split; [intros _|reflexivity].
           split; [assumption|]. split; intros _; assumption.
        -- split; [discriminate|]. intros (_ & _ & H).
           rewrite (proj2 (primary_keys_eqb_eq _ _) (H eq_refl)) in Hpk.
           discriminate.
Qed.

(** X11. For two schemas that store no column under the name
    [typehints]: when the columns of [self] are a proper subset of the
    columns of [other], [assert_equal_to] fails, whatever the flags, with
    the [AssertionError] on missing columns, which lists exactly the
    columns of [other] that [self] lacks. *)
Theorem assert_equal_to_reports_missing self other allow_superset ignore_pk :
  built self -> built other ->
  shadowed "typehints" self = false -> shadowed "typehints" other = false ->
  incl (keys self) (keys other) ->
  (exists n, In n (keys other) /\ ~ In n (keys self)) ->
  exists missing,
    assert_equal_to self other allow_superset ignore_pk
    = Raise (AssertionError (Some (msg_does_not_have_columns missing))) /\
    forall n, In n missing <-> In n (keys other) /\ ~ In n (keys self).
Proof.
  intros Hs Ho Hts Hto Hincl Hex.
  exists (keys_sub (keys other) (keys self)). split.
  - now apply assert_equal_to_missing_columns.
  - intros n. apply In_keys_sub.
Qed.

(** X12. For two schemas that store no column under the name
    [typehints]: when every column of [other] is a column of [self] with
    the same type hint, [self] has further columns and [allow_superset] is
    not set, [assert_equal_to] fails with the [AssertionError] on extra
    columns, which lists exactly the columns of [self] that [other]
    lacks. *)
Theorem assert_equal_to_reports_extra self other ignore_pk :
  built self -> built other ->
  shadowed "typehints" self = false -> shadowed "typehints" other = false ->
  (forall col t, Dict.get col (typehints other) = Some t ->
                 Dict.get col (typehints self) = Some t) ->
  (exists n, In n (keys self) /\ ~ In n (keys other)) ->
  exists extra,
    assert_equal_to self other false ignore_pk
    = Raise (AssertionError (Some (msg_extra_columns extra))) /\
    forall n, In n extra <-> In n (keys self) /\ ~ In n (keys other).
Proof.
  intros Hs Ho Hts Hto Hagree (n & Hn & Hnot).
  pose proof (built_NoDup Hs) as Ns. pose proof (built_NoDup Ho) as No.
  pose proof (built_typehints_keys Hs) as Ks.
  pose proof (built_typehints_keys Ho) as Ko.
  exists (keys_sub (keys self) (keys other)). split; [|intros; apply In_keys_sub].
  assert (Hincl : incl (keys other) (keys self)).
  { intros col Hin. rewrite <- Ko in Hin.
    destruct (In_keys_get _ _ Hin) as [t Ht]. apply Hagree in Ht.
    rewrite <- Ks. apply get_Some_In in Ht. unfold Dict.keys.
    now apply (in_map fst) in Ht. }
  assert (Hlen : List.length (keys other) < List.length (keys self)).
  { pose proof (NoDup_incl_length No Hincl) as Hle.
    destruct (Nat.eq_dec (List.length (keys other)) (List.length (keys self)))
      as [Heq|]; [|lia].
    exfalso. apply Hnot.
    apply (@NoDup_length_incl _ (keys other) (keys self) No); [lia|assumption..]. }
  unfold assert_equal_to.
  rewrite (call_method_found _ _ _ Hts), (call_method_found _ _ _ Hto).
  cbn [bind]. rewrite Ks, Ko.
  assert (Hlt : keys_lt (keys self) (keys other) = false).
  { unfold keys_lt. apply andb_false_iff. left. apply Nat.ltb_ge. lia. }
  rewrite Hlt. cbn [bind].
  pose proof (proj2 (types_loop (typehints self) (typehints other)
                       (__name__ self) (__name__ other) _)
                    (proj2 (types_agree_incl _ _) Hagree)) as Hloop.
  rewrite Ko in Hloop. unfold Dict.dict in *. rewrite Hloop. cbn [bind negb andb].
  assert (Hgt : keys_gt (keys self) (keys other) = true).
  { unfold keys_gt. apply andb_true_iff. split; [now apply Nat.ltb_lt|].
    now apply all_contained_in_incl. }
  rewrite Hgt. reflexivity.
Qed.

End AssertEqualFacts.

(** ** Inference from a pandas sample, continued *)

Section PandasFacts.
Context {E : External}.

Lemma for_each_app {A S : Type} (body : S -> A -> result S) l1 l2 s :
  for_each body (l1 ++ l2) s = (s' <- for_each body l1 s ;; for_each body l2 s').
Proof.
  revert s. induction l1 as [|x l1 IH]; intros s; cbn [for_each app bind].
  - reflexivity.
  - destruct (body s x); cbn [bind]; [apply IH | reflexivity].
Qed.

Lemma set_mark k (c : ColumnDefinition) (d : Dict.dict ColumnDefinition) :
  NoDup (Dict.keys d) -> Dict.get k d = Some c ->
  Dict.set k (replace_primary_key c true) d = map (mark [k]) d.
Proof.
  induction d as [|[k' c'] d IH]; simpl; [discriminate|].
  intros Hnd Hget. inversion Hnd as [|? ? Hnotin Hnd']; subst.
  unfold mark at 1. cbn [fst snd existsb].
  destruct (String.eqb_spec k k') as [->|Hne].
  - injection Hget as ->. rewrite String.eqb_refl. cbn [orb]. f_equal.
    symmetry. transitivity (map (fun x => x) d); [|apply map_id].
    apply map_ext_in. intros [k1 c1] Hin. unfold mark. cbn [fst snd existsb].
    destruct (String.eqb_spec k1 k') as [->|]; [|reflexivity].
    exfalso. apply Hnotin. now apply (in_map fst) in Hin.
  - destruct (String.eqb_spec k' k) as [->|_]; [contradiction|].
    cbn [orb]. f_equal. now apply IH.
Qed.

Lemma keys_mark ids (d : Dict.dict ColumnDefinition) :
  Dict.keys (map (mark ids) d) = Dict.keys d.
Proof. unfold Dict.keys. rewrite map_map. reflexivity. Qed.

(** The loop of [schema_from_pandas] over names that are all columns. *)
Lemma id_from_loop ids : forall columns : Dict.dict ColumnDefinition,
  NoDup (Dict.keys columns) ->
  incl ids (Dict.keys columns) ->
  for_each (fun columns name =>
              c <- getitem columns name ;;
              Ok (Dict.set name (replace_primary_key c true) columns))
           ids columns
  = Ok (map (mark ids) columns).
Proof.
  induction ids as [|k ids IH]; intros columns Hnd Hincl.
  - cbn [for_each]. f_equal. symmetry.
    transitivity (map (fun x => x) columns); [|apply map_id].
    apply map_ext. intros [k c]. reflexivity.
  - cbn [for_each].
    assert (Hin : In k (Dict.keys columns)) by (apply Hincl; now left).
    destruct (In_keys_get _ _ Hin) as [c Hget].
    unfold getitem. rewrite Hget. cbn [bind].
    rewrite (@set_mark k c columns Hnd Hget).
    rewrite IH.
    + f_equal. rewrite map_map. apply map_ext. intros [k1 c1].
      unfold mark. cbn [fst snd existsb].
      destruct (String.eqb k1 k); cbn [orb]; [|reflexivity].
      destruct (existsb (String.eqb k1) ids); reflexivity.
    + now rewrite keys_mark.
    + rewrite keys_mark. intros x Hx. apply Hincl. now right.
Qed.

(** X13. For a data frame none of whose column names starts with two
    underscores and an [id_from] that names only columns of the frame,
    [schema_from_pandas] returns an append-only schema with one column per
    column of the frame, in the order of the frame, under the same name:
    its dtype is the one [_type_converter] infers from the series, it has
    no default value, and it is a primary-key column exactly when
    [id_from] names it. *)
Theorem schema_from_pandas_columns dframe id_from name :
  NoDup (Dict.keys dframe) ->
  Forall (fun k => String.prefix "__" k = false) (Dict.keys dframe) ->
  incl (match id_from with Some l => l | None => [] end) (Dict.keys dframe) ->
  exists s,
    schema_from_pandas dframe id_from name = Ok s /\
    __properties__ s = {| append_only := true |} /\
    __columns__ s
    = map (fun kv => (fst kv,
                      sampled_column
                        (match id_from with Some l => l | None => [] end) kv))
          dframe.
Proof.
  intros Hnd Hplain Hincl. unfold schema_from_pandas.
  set (ids := match id_from with Some l => l | None => [] end) in *.
  set (n := match name with Some n => n | None => _ end).
  set (C0 := map (fun kv => (fst kv,
                   column_definition false _no_default_value_marker
                     (Some (hint_of_dtype (_type_converter (snd kv)))) None))
                 dframe).
  assert (HC0 : Dict.keys C0 = Dict.keys dframe).
  { unfold C0, Dict.keys. now rewrite map_map. }
  rewrite id_from_loop; [|now rewrite HC0 | now rewrite HC0].
  cbn [bind].
  assert (HC1 : Dict.keys (map (mark ids) C0) = Dict.keys dframe).
  { now rewrite keys_mark. }
  destruct (@schema_builder_closed E (map (mark ids) C0) (Some (last ids n))
              {| append_only := true |}) as (s & Hs & _ & Hp & Hc & _).
  { now rewrite HC1. }
  { intros A. apply class_creation_plain. now rewrite HC1. }
  exists s. split; [assumption|]. split; [assumption|].
  rewrite Hc. cbn [append_only].
  assert (Heq : map (builder_column true) (map (mark ids) C0)
                = map (sampled_column ids) dframe).
  { unfold C0. rewrite !map_map. apply map_ext_in. intros [k series] Hin.
    unfold builder_column, mark. cbn [fst snd].
    rewrite Forall_forall in Hplain. rewrite (Hplain k);
      [|unfold Dict.keys; now apply (in_map fst) in Hin].
    unfold declared_column, sampled_column. cbn [fst snd].
    destruct (existsb (String.eqb k) ids);
      cbn [replace_primary_key column_definition option_map def_dtype
           def_primary_key def_default_value def_name name_or];
      now rewrite wrap_dtype. }
  rewrite Heq, store_NoDup.
  - rewrite map_map. reflexivity.
  - rewrite map_map. exact Hnd.
Qed.

(** X14. When [id_from] names something that is no column of the data
    frame, [schema_from_pandas] fails with [KeyError] on the first such
    name. *)
Theorem schema_from_pandas_unknown_id dframe pre k post name :
  NoDup (Dict.keys dframe) ->
  incl pre (Dict.keys dframe) ->
  ~ In k (Dict.keys dframe) ->
  schema_from_pandas dframe (Some (pre ++ k :: post)) name = Raise (KeyError k).
Proof.
  intros Hnd Hpre Hk. unfold schema_from_pandas.
  set (C0 := map (fun kv => (fst kv,
                   column_definition false _no_default_value_marker
                     (Some (hint_of_dtype (_type_converter (snd kv)))) None))
                 dframe).
  assert (HC0 : Dict.keys C0 = Dict.keys dframe).
  { unfold C0, Dict.keys. now rewrite map_map. }
  rewrite for_each_app, id_from_loop; [|now rewrite HC0 | now rewrite HC0].
  cbn [bind for_each]. unfold getitem.
  rewrite (proj2 (get_None k (map (mark pre) C0)));
    [reflexivity | now rewrite keys_mark, HC0].
Qed.

End PandasFacts.

(** ** Inference from a CSV file, continued *)

Section CsvMoreFacts.
Context {E : External}.

Lemma only_comments f cc :
  Forall (fun line => comment_line cc line = true) f ->
  remove_comments_from_file f cc = StopIteration.
Proof.
  induction 1 as [|line f Hline _ IH]; [reflexivity|].
  cbn [remove_comments_from_file]. unfold comment_line in Hline.
  destruct (lstrip line) as [|c rest]; [discriminate|].
  destruct cc as [cc|]; [|discriminate].
  rewrite Hline. exact IH.
Qed.

(** X15. With a delimiter and an escape character that the [csv] module
    accepts, on a file that is empty or has only comment lines,
    [schema_from_csv] fails with the [ValueError] on an empty CSV file.
    With arguments that the module rejects, it fails with the exception of
    the module, whatever the file. *)
Theorem schema_from_csv_empty f name properties delimiter cc escape n :
  (forall d, csv_dialect delimiter escape = inr d ->
     Forall (fun line => comment_line cc line = true) f ->
     schema_from_csv f name properties delimiter cc escape n
     = Raise (ValueError msg_empty_csv)) /\
  (forall e, csv_dialect delimiter escape = inl e ->
     schema_from_csv f name properties delimiter cc escape n
     = Raise (CsvRaised e)).
Proof.
  unfold schema_from_csv. split.
  - intros d Hd H. rewrite Hd. cbn [bind].
    now rewrite (@only_comments f cc H).
  - intros e He. now rewrite He.
Qed.

Lemma comments_filtered f cc :
  remove_comments_from_file
    (filter (fun line => negb (comment_line cc line)) f) cc
  = remove_comments_from_file f cc.
Proof.
  induction f as [|line f IH]; [reflexivity|].
  cbn [filter remove_comments_from_file]. unfold comment_line at 1.
  destruct (lstrip line) as [|c rest] eqn:Hl.
  - cbn [negb remove_comments_from_file]. now rewrite Hl.
  - destruct cc as [cc|].
    + destruct (String.eqb (String c EmptyString) cc) eqn:Hc; cbn [negb].
      * exact IH.
      * cbn [remove_comments_from_file]. rewrite Hl, Hc. cbn [negb].
        now rewrite IH.
    + cbn [negb remove_comments_from_file]. rewrite Hl. now rewrite IH.
Qed.

(** X16. Comment lines play no part: [schema_from_csv] gives the same
    result on a file and on the file without its comment lines. *)
Theorem schema_from_csv_ignores_comments f name properties delimiter cc
    escape n :
  schema_from_csv (filter (fun line => negb (comment_line cc line)) f)
    name properties delimiter cc escape n
  = schema_from_csv f name properties delimiter cc escape n.
Proof. unfold schema_from_csv. now rewrite comments_filtered. Qed.

Lemma In_keys_fold_set {V : Type} (items : list (string * V)) :
  forall (acc : Dict.dict V) x,
  In x (Dict.keys (fold_left (fun d kv => Dict.set (fst kv) (snd kv) d)
                             items acc))
  <-> In x (Dict.keys acc) \/ In x (map fst items).
Proof.
  induction items as [|[k v] items IH]; intros acc x; simpl; [tauto|].
  rewrite IH, In_keys_set. intuition congruence.
Qed.

Lemma NoDup_keys_fold_set {V : Type} (items : list (string * V)) :
  forall acc : Dict.dict V,
  NoDup (Dict.keys acc) ->
  NoDup (Dict.keys (fold_left (fun d kv => Dict.set (fst kv) (snd kv) d)
                              items acc)).
Proof.
  induction items as [|[k v] items IH]; intros acc H; simpl; [assumption|].
  apply IH. now apply NoDup_keys_set.
Qed.

Lemma In_keys_of_items {V : Type} (items : list (string * V)) x :
  In x (Dict.keys (Dict.of_items items)) <-> In x (map fst items).
Proof. unfold Dict.of_items. rewrite In_keys_fold_set. simpl. tauto. Qed.

Lemma NoDup_keys_of_items {V : Type} (items : list (string * V)) :
  NoDup (Dict.keys (Dict.of_items items)).
Proof. apply NoDup_keys_fold_set. constructor. Qed.

(** X17. With [num_parsed_rows = 0] nothing is read after the header.
    With a delimiter and an escape character that the [csv] module accepts,
    on a file whose first line is neither blank nor a comment and is a
    whole record of pairwise distinct column names, none starting with two
    underscores, [schema_from_csv] returns a schema with these columns, in
    this order, all of the wrapped [Any] type, whatever the rest of the
    file. *)
Theorem schema_from_csv_no_sample header rest name properties delimiter cc
    escape d names :
  csv_dialect delimiter escape = inr d ->
  lstrip header <> EmptyString ->
  comment_line cc header = false ->
  csv_line d None header = inr (inr names) ->
  NoDup names ->
  Forall (fun k => String.prefix "__" k = false) names ->
  exists s,
    schema_from_csv (header :: rest) name properties delimiter cc escape
      (Some 0%Z) = Ok s /\
    __dtypes__ s = map (fun n => (n, wrap Any)) names.
Proof.
  intros Hd Hblank Hcomment Hline Hnd Hplain.
  unfold schema_from_csv. rewrite Hd. cbn [bind remove_comments_from_file].
  unfold comment_line in Hcomment.
  destruct (lstrip header) as [|c tail]; [contradiction|].
  assert (Hdiff : match cc with
                  | Some cc0 => negb (String.eqb (String c EmptyString) cc0)
                  | None => true
                  end = true).
  { destruct cc; [now rewrite Hcomment | reflexivity]. }
  rewrite Hdiff. unfold fieldnames. cbn [reader_next]. rewrite Hline.
  cbn [bind Z.ltb Z.compare Z.to_nat].
  rewrite read_rows_zero. cbn [bind].
  assert (Htypes : map_result
            (fun column_name : string =>
               entries <- map_result
                            (fun row : Dict.dict (option string) =>
                               getitem row column_name) [] ;;
               t <- choose_type entries ;; Ok (column_name, t)) names
            = Ok (map (fun n => (n, Any)) names)).
  { apply map_result_map. intros n _. reflexivity. }
  rewrite Htypes. cbn [bind].
  assert (Hitems : Dict.of_items (map (fun n => (n, Any)) names)
                   = map (fun n => (n, Any)) names).
  { apply of_items_NoDup. rewrite map_map. simpl. now rewrite map_id. }
  rewrite Hitems.
  assert (Hcols : map_result
            (fun column_name : string =>
               t <- getitem (map (fun n => (n, Any)) names) column_name ;;
               Ok (column_name,
                   column_definition false _no_default_value_marker
                     (Some t) None)) names
            = Ok (map (fun n => (n, column_definition false
                                      _no_default_value_marker (Some Any) None))
                      names)).
  { apply map_result_map. intros n Hn. unfold getitem.
    rewrite (In_get n Any (map (fun n => (n, Any)) names)); [reflexivity | |].
    - unfold Dict.keys. rewrite map_map. simpl. now rewrite map_id.
    - apply in_map_iff. eauto. }
  rewrite Hcols. cbn [bind].
  set (C := map (fun n => (n, column_definition false _no_default_value_marker
                                (Some Any) None)) names).
  assert (HC : Dict.keys C = names).
  { unfold C, Dict.keys. rewrite map_map. simpl. apply map_id. }
  rewrite (of_items_NoDup C) by (fold (Dict.keys C); now rewrite HC).
  destruct (@schema_builder_closed E C name properties)
    as (s & Hs & Hb & _ & Hc & _).
  { now rewrite HC. }
  { intros A. apply class_creation_plain. now rewrite HC. }
  exists s. split; [assumption|].
  rewrite (built_dtypes Hb), Hc.
  rewrite store_NoDup.
  - unfold C. rewrite !map_map. apply map_ext. intros n.
    unfold builder_column, declared_column. cbn [fst snd].
    destruct (String.prefix "__" n); reflexivity.
  - unfold C. rewrite !map_map.
    replace (map _ names) with names; [assumption|].
    transitivity (map (fun x : string => x) names); [symmetry; apply map_id|].
    apply map_ext. intros n. unfold builder_column, declared_column.
    cbn [fst snd]. destruct (String.prefix "__" n); reflexivity.
Qed.

Lemma all_parsable_none (p : string -> bool) ss rest :
  all_ (fun s => _is_parsable_to s p) (map Some ss ++ None :: rest)
  = if forallb p ss then Raise (TypeError msg_not_a_string) else Ok false.
Proof.
  induction ss as [|s ss IH]; [reflexivity|].
  cbn [map app all_ _is_parsable_to bind forallb].
  destruct (p s); [exact IH | reflexivity].
Qed.

(** X18. A sampled value that is [None], as a row shorter than the header
    gives, makes [choose_type] fail with the [TypeError] of the parser
    when all the values before it parse as integers or all parse as
    floats; when one of them parses as neither, the result is [str] and
    the [None] is never looked at. *)
Theorem choose_type_none ss rest :
  (Forall (fun s => int_parses s = true) ss \/
   Forall (fun s => float_parses s = true) ss ->
   choose_type (map Some ss ++ None :: rest) = Raise (TypeError msg_not_a_string))
  /\ (~ Forall (fun s => int_parses s = true) ss ->
      ~ Forall (fun s => float_parses s = true) ss ->
      choose_type (map Some ss ++ None :: rest) = Ok str).
Proof.
  unfold choose_type. rewrite !all_parsable_none.
  assert (Hlen : Nat.eqb (List.length (map Some ss ++ @None string :: rest)) 0
                 = false).
  { rewrite length_app. simpl. apply Nat.eqb_neq. lia. }
  rewrite Hlen. split.
  - intros [H|H].
    + now rewrite (forallb_Forall_true _ H).
    + destruct (forallb int_parses ss); [reflexivity|]. cbn [bind].
      now rewrite (forallb_Forall_true _ H).
  - intros Hi Hf. apply forallb_false_iff in Hi. apply forallb_false_iff in Hf.
    now rewrite Hi, Hf.
Qed.

Lemma fst_combine {A B : Type} (a : list A) (b : list B) :
  map fst (combine a b) = firstn (List.length b) a.
Proof.
  revert b. induction a as [|x a IH]; intros [|y b]; simpl; try reflexivity.
  now rewrite IH.
Qed.

Lemma In_keys_fold_restval {V : Type} (v : V) (ks : list string) :
  forall (acc : Dict.dict V) x,
  In x (Dict.keys (fold_left (fun d key => Dict.set key v d) ks acc))
  <-> In x (Dict.keys acc) \/ In x ks.
Proof.
  induction ks as [|k ks IH]; intros acc x; simpl; [tauto|].
  rewrite IH, In_keys_set. intuition congruence.
Qed.

(** Every field name has an entry in the dictionary of a record. *)
Lemma row_dict_keys names row k :
  In k names -> In k (Dict.keys (row_dict names row)).
Proof.
  intros Hin. unfold row_dict. apply In_keys_fold_restval.
  rewrite In_keys_of_items, fst_combine, length_map.
  apply in_app_or. now rewrite firstn_skipn.
Qed.

(** What the generator gives is a line, the end, or [IndexError]. *)
Lemma generator_cases f cc :
  remove_comments_from_file f cc = Raised IndexError \/
  remove_comments_from_file f cc = StopIteration \/
  exists line f',
    remove_comments_from_file f cc
    = Yield line (remove_comments_from_file f' cc).
Proof.
  induction f as [|line f IH]; [right; now left|].
  cbn [remove_comments_from_file].
  destruct (lstrip line) as [|c tail]; [now left|].
  match goal with |- context [if ?b then _ else _] => destruct b end;
    [|exact IH].
  right. right. eauto.
Qed.

Lemma reader_next_result d cc f : forall u,
  match reader_next d u (remove_comments_from_file f cc) with
  | Ok (_, g) => exists f', g = remove_comments_from_file f' cc
  | Raise e => e = IndexError \/ exists c, e = CsvRaised c
  end.
Proof.
  induction f as [|line f IH]; intros u.
  - cbn. now exists [].
  - cbn [remove_comments_from_file].
    destruct (lstrip line) as [|c tail]; [cbn; now left|].
    match goal with |- context [if ?b then _ else _] => destruct b end;
      [|apply IH].
    cbn [reader_next].
    destruct (csv_line d u line) as [e|[u1|r]]; [right; eauto | apply IH | eauto].
Qed.

Lemma read_rows_result d names cc f : forall u n,
  match read_rows d names u (remove_comments_from_file f cc) n with
  | Ok rows => Forall (fun r => forall k, In k names -> In k (Dict.keys r)) rows
  | Raise e => e = IndexError \/ exists c, e = CsvRaised c
  end.
Proof.
  induction f as [|line f IH]; intros u n.
  - assert (Hend : Forall (fun r => forall k, In k names -> In k (Dict.keys r))
             match u with
             | Some u0 =>
                 match csv_end d u0 with
                 | Some (field :: fields) => [row_dict names (field :: fields)]
                 | _ => []
                 end
             | None => []
             end).
    { destruct u as [u|]; [|constructor].
      destruct (csv_end d u) as [[|x row]|]; [constructor | | constructor].
      constructor; [|constructor]. intros k. apply row_dict_keys. }
    destruct n as [[|m]|]; cbn [remove_comments_from_file read_rows];
      [constructor | |];
      (destruct u as [u|]; [|constructor]);
      (destruct (csv_end d u) as [[|x row]|]; exact Hend).
  - cbn [remove_comments_from_file].
    destruct (lstrip line) as [|c tail].
    + destruct n as [[|m]|]; cbn; [constructor | now left..].
    + match goal with |- context [if ?b then _ else _] => destruct b end;
        [|apply IH].
      destruct n as [[|m]|]; cbn [read_rows]; [constructor | |].
      * destruct (csv_line d u line) as [e|[u1|[|x row]]];
          [right; eauto | apply IH | apply IH |].
        specialize (IH None (option_map pred (Some (S m)))).
        destruct (read_rows _ _ _ _ (option_map pred (Some (S m))));
          cbn [bind]; [|assumption].
        constructor; [|assumption]. intros k. apply row_dict_keys.
      * destruct (csv_line d u line) as [e|[u1|[|x row]]];
          [right; eauto | apply IH | apply IH |].
        specialize (IH None (option_map pred None)).
        destruct (read_rows _ _ _ _ (option_map pred None));
          cbn [bind]; [|assumption].
        constructor; [|assumption]. intros k. apply row_dict_keys.
Qed.

Lemma all_result (p : string -> bool) entries :
  match all_ (fun s => _is_parsable_to s p) entries with
  | Ok _ => True
  | Raise e => e = TypeError msg_not_a_string
  end.
Proof.
  induction entries as [|[s|] entries IH]; cbn [all_ _is_parsable_to bind];
    [exact I | | reflexivity].
  destruct (p s); [exact IH | exact I].
Qed.

Lemma choose_type_result entries :
  match choose_type entries with
  | Ok _ => True
  | Raise e => e = TypeError msg_not_a_string
  end.
Proof.
  unfold choose_type. destruct (Nat.eqb _ 0); [exact I|].
  pose proof (all_result int_parses entries) as Hi.
  destruct (all_ _ entries) as [[|]|e]; cbn [bind]; [exact I | | assumption].
  pose proof (all_result float_parses entries) as Hf.
  destruct (all_ _ entries) as [[|]|e]; cbn [bind]; [exact I | exact I | assumption].
Qed.

Lemma entries_result (rows : list (Dict.dict (option string))) col :
  Forall (fun r => In col (Dict.keys r)) rows ->
  exists entries, map_result (fun row => getitem row col) rows = Ok entries.
Proof.
  induction 1 as [|r rows Hr _ [entries IH]]; cbn [map_result]; [eauto|].
  destruct (In_keys_get _ _ Hr) as [v Hv]. unfold getitem at 1.
  rewrite Hv. cbn [bind]. rewrite IH. cbn [bind]. eauto.
Qed.

Lemma column_types_result (rows : list (Dict.dict (option string))) all names :
  Forall (fun r => forall k, In k all -> In k (Dict.keys r)) rows ->
  incl names all ->
  match map_result
          (fun column_name : string =>
             entries <- map_result (fun row => getitem row column_name) rows ;;
             t <- choose_type entries ;;
             Ok (column_name, t)) names
  with
  | Ok cts => map fst cts = names
  | Raise e => e = TypeError msg_not_a_string
  end.
Proof.
  intros Hrows. induction names as [|n names IH]; intros Hincl;
    cbn [map_result]; [reflexivity|].
  destruct (@entries_result rows n) as [entries ->].
  { eapply Forall_impl; [|exact Hrows]. intros r Hr. apply Hr, Hincl. now left. }
  cbn [bind]. pose proof (choose_type_result entries) as Hc.
  destruct (choose_type entries) as [t|e]; cbn [bind]; [|assumption].
  specialize (IH (fun x Hx => Hincl x (or_intror Hx))).
  destruct (map_result _ names) as [cts|e]; cbn [bind]; [|assumption].
  simpl. now rewrite IH.
Qed.

Lemma columns_result (cts : list (string * Hint)) names :
  incl names (map fst cts) ->
  exists cols,
    map_result
      (fun column_name : string =>
         t <- getitem (Dict.of_items cts) column_name ;;
         Ok (column_name,
             column_definition false _no_default_value_marker (Some t) None))
      names = Ok cols /\
    Forall (fun kv => def_default_value (snd kv) = _no_default_value_marker)
           cols.
Proof.
  induction names as [|n names IH]; intros Hincl; cbn [map_result]; [eauto|].
  assert (Hn : In n (Dict.keys (Dict.of_items cts))).
  { apply In_keys_of_items, Hincl. now left. }
  destruct (In_keys_get _ _ Hn) as [t Ht]. unfold getitem at 1.
  rewrite Ht. cbn [bind].
  destruct IH as (cols & -> & Hcols); [intros x Hx; apply Hincl; now right|].
  cbn [bind]. eexists. split; [reflexivity|].
  constructor; [reflexivity | assumption].
Qed.

Lemma Forall_set {V : Type} (P : V -> Prop) k v (d : Dict.dict V) :
  P v -> Forall (fun kv => P (snd kv)) d ->
  Forall (fun kv => P (snd kv)) (Dict.set k v d).
Proof.
  intros Hv. induction 1 as [|[k' v'] d Hkv Hd IH]; cbn [Dict.set].
  - constructor; [assumption | constructor].
  - destruct (String.eqb k k'); constructor; assumption.
Qed.

Lemma Forall_of_items {V : Type} (P : V -> Prop) (items : list (string * V)) :
  Forall (fun kv => P (snd kv)) items ->
  Forall (fun kv => P (snd kv)) (Dict.of_items items).
Proof.
  unfold Dict.of_items.
  assert (H : forall acc : Dict.dict V,
            Forall (fun kv => P (snd kv)) acc ->
            Forall (fun kv => P (snd kv)) items ->
            Forall (fun kv => P (snd kv))
              (fold_left (fun d kv => Dict.set (fst kv) (snd kv) d) items acc)).
  { induction items as [|[k v] items IH]; intros acc Hacc Hitems;
      [assumption|].
    inversion Hitems; subst. cbn [fold_left fst snd].
    apply IH; [now apply Forall_set | assumption]. }
  apply H. constructor.
Qed.

(** Making the class of columns that have no default value goes through,
    with the annotations or with none, or fails on a name that [type] or
    [get_type_hints] reads. *)
Lemma class_creation_result (columns : Dict.dict ColumnDefinition) :
  Forall (fun kv => def_default_value (snd kv) = _no_default_value_marker)
         columns ->
  (forall A, class_creation columns A = Ok A) \/
  (forall A, class_creation columns A = Ok []) \/
  (exists a, forall A,
      class_creation columns A = Raise (TypeError (msg_class_attribute a)))
  \/ (forall A, class_creation columns A = Raise (AttributeError msg_no_items)).
Proof.
  intros H. unfold class_creation.
  destruct (Dict.contains "__slots__" columns); [right; right; left; eauto|].
  destruct (Dict.contains "__qualname__" columns); [right; right; left; eauto|].
  destruct (Dict.contains "__classcell__" columns); [right; right; left; eauto|].
  destruct (Dict.contains "__no_type_check__" columns); [right; left; eauto|].
  destruct (Dict.get "__module__" columns) as [c|] eqn:Hc.
  - apply get_Some_In in Hc. rewrite Forall_forall in H.
    specialize (H _ Hc). cbn [snd] in H. rewrite H. cbn [hash_default bind].
    destruct (Dict.contains "__annotations__" columns); auto.
  - cbn [bind]. destruct (Dict.contains "__annotations__" columns); auto.
Qed.

(** X19. Once the file is open and read as lines of text,
    [schema_from_csv] never fails on a dictionary lookup or an
    assertion: every row has an entry for every column name and every
    column gets a type.  Its failures are the [IndexError] on a blank
    line, the [ValueError] on an empty file, the [ValueError] of [islice]
    on a negative [num_parsed_rows], the [TypeError] of the parsers on a
    missing value, the exceptions of the [csv] module (on the delimiter or
    the escape character, or on a record), and those of making the class
    when a column is named [__slots__], [__qualname__], [__classcell__] or
    [__annotations__], or [__no_type_check__], after which the other
    columns lack their annotation. *)
Theorem schema_from_csv_failures f name properties delimiter cc escape n e :
  schema_from_csv f name properties delimiter cc escape n = Raise e ->
  e = IndexError \/ e = ValueError msg_empty_csv \/
  e = ValueError msg_islice_stop \/ e = TypeError msg_not_a_string \/
  (exists c, e = CsvRaised c) \/
  (exists a, e = TypeError (msg_class_attribute a)) \/
  e = AttributeError msg_no_items \/
  (exists names, e = ValueError (msg_lack_type_annotation names)).
Proof.
  unfold schema_from_csv.
  destruct (csv_dialect delimiter escape) as [c|d]; cbn [bind].
  { intros [= <-]. do 4 right. left. eauto. }
  unfold fieldnames.
  pose proof (reader_next_result d cc f None) as Hhead.
  destruct (reader_next d None (remove_comments_from_file f cc))
    as [[[names|] g]|e0]; cbn [bind].
  3:{ intros [= <-]. destruct Hhead as [->|[c ->]];
        [now left | do 4 right; left; eauto]. }
  2:{ intros [= <-]. right. now left. }
  destruct Hhead as [f' ->].
  assert (Hrows : forall m,
    match read_rows d names None (remove_comments_from_file f' cc) m with
    | Ok rows =>
        Forall (fun r => forall k, In k names -> In k (Dict.keys r)) rows
    | Raise e => e = IndexError \/ exists c, e = CsvRaised c
    end) by apply read_rows_result.
  assert (Hdata : forall csv_data : result (list (Dict.dict (option string))),
    match csv_data with
    | Ok rows =>
        Forall (fun r => forall k, In k names -> In k (Dict.keys r)) rows
    | Raise e' => e' = IndexError \/ e' = ValueError msg_islice_stop \/
                  exists c, e' = CsvRaised c
    end ->
    (csv_data <- csv_data ;;
     column_types <-
       map_result
         (fun column_name : string =>
            entries <- map_result (fun row => getitem row column_name)
                         csv_data ;;
            t <- choose_type entries ;; Ok (column_name, t)) names ;;
     columns <-
       map_result
         (fun column_name : string =>
            t <- getitem (Dict.of_items column_types) column_name ;;
            Ok (column_name,
                column_definition false _no_default_value_marker
                  (Some t) None)) names ;;
     schema_builder (Dict.of_items columns) name properties) = Raise e ->
    e = IndexError \/ e = ValueError msg_empty_csv \/
    e = ValueError msg_islice_stop \/ e = TypeError msg_not_a_string \/
    (exists c, e = CsvRaised c) \/
    (exists a, e = TypeError (msg_class_attribute a)) \/
    e = AttributeError msg_no_items \/
    (exists names, e = ValueError (msg_lack_type_annotation names))).
  { intros [rows|e'] Hd; cbn [bind].
    - pose proof (@column_types_result rows names names Hd (incl_refl _))
        as Hct.
      destruct (map_result _ names) as [cts|e1]; cbn [bind].
      + destruct (@columns_result cts names) as (cols & -> & Hcols);
          [rewrite Hct; apply incl_refl|].
        cbn [bind].
        destruct (@class_creation_result (Dict.of_items cols))
          as [Hcc|[Hcc|[(a & Hcc)|Hcc]]].
        * apply (Forall_of_items
                   (fun c => def_default_value c = _no_default_value_marker)).
          exact Hcols.
        * destruct (@schema_builder_closed E (Dict.of_items cols) name
                      properties (NoDup_keys_of_items cols) Hcc)
            as (s & -> & _).
          discriminate.
        * destruct (@schema_builder_no_type_check E (Dict.of_items cols) name
                      properties Hcc) as [(s & ->)|(names' & ->)];
            [discriminate|].
          intros [= <-]. do 7 right. eauto.
        * rewrite (@schema_builder_class_creation E _ name properties _ Hcc).
          intros [= <-]. do 5 right. left. eauto.
        * rewrite (@schema_builder_class_creation E _ name properties _ Hcc).
          intros [= <-]. do 6 right. left. reflexivity.
      + intros [= <-]. subst e1. tauto.
    - intros [= <-]. destruct Hd as [->|[->|[c ->]]];
        [tauto | tauto | do 4 right; left; eauto]. }
  apply Hdata.
  destruct n as [z|].
  + destruct (z <? 0)%Z; [right; left; reflexivity|].
    specialize (Hrows (Some (Z.to_nat z))).
    destruct (read_rows _ _ _ _ (Some (Z.to_nat z)));
      [assumption | destruct Hrows as [->|H]; auto].
  + specialize (Hrows None).
    destruct (read_rows _ _ _ _ None);
      [assumption | destruct Hrows as [->|H]; auto].
Qed.

End CsvMoreFacts.

(** ** Equality, queries and the builders from annotations *)

Section QueryFacts.
Context {E : External}.

Lemma eq_Ok_found a b r :
  __eq__ a b = Ok r ->
  shadowed "_as_tuple" a = false /\ shadowed "_as_tuple" b = false.
Proof.
  intros H.
  destruct (shadowed "_as_tuple" a) eqn:Ha;
    [rewrite (@eq_shadowed E a b (or_introl Ha)) in H; discriminate|].
  destruct (shadowed "_as_tuple" b) eqn:Hb;
    [rewrite (@eq_shadowed E a b (or_intror Hb)) in H; discriminate|].
  split; reflexivity.
Qed.

Lemma as_tuple_eqb_sym x y : as_tuple_eqb x y = as_tuple_eqb y x.
Proof.
  destruct (as_tuple_eqb x y) eqn:Hxy, (as_tuple_eqb y x) eqn:Hyx;
    try reflexivity.
  - apply as_tuple_eqb_eq in Hxy. symmetry in Hxy.
    apply as_tuple_eqb_eq in Hxy. congruence.
  - apply as_tuple_eqb_eq in Hyx. symmetry in Hyx.
    apply as_tuple_eqb_eq in Hyx. congruence.
Qed.

(** X20. [__eq__] is an equivalence relation on the schemas that store no
    column under the name [_as_tuple]: it holds of such a schema and
    itself, [__eq__ a b] and [__eq__ b a] have the same outcome for any two
    schemas, and it is transitive. *)
Theorem eq_equivalence :
  (forall a : Schema, shadowed "_as_tuple" a = false -> __eq__ a a = Ok true) /\
  (forall a b : Schema, __eq__ a b = __eq__ b a) /\
  (forall a b c : Schema,
     __eq__ a b = Ok true -> __eq__ b c = Ok true -> __eq__ a c = Ok true).
Proof.
  split; [|split].
  - intros a Ha. now apply eq_as_tuple.
  - intros a b.
    destruct (shadowed "_as_tuple" a) eqn:Ha.
    { now rewrite (@eq_shadowed E a b (or_introl Ha)),
                  (@eq_shadowed E b a (or_intror Ha)). }
    destruct (shadowed "_as_tuple" b) eqn:Hb.
    { now rewrite (@eq_shadowed E a b (or_intror Hb)),
                  (@eq_shadowed E b a (or_introl Hb)). }
    rewrite (@eq_found E a b Ha Hb), (@eq_found E b a Hb Ha).
    f_equal. apply as_tuple_eqb_sym.
  - intros a b c Hab Hbc.
    destruct (@eq_Ok_found a b true Hab) as [Ha Hb].
    destruct (@eq_Ok_found b c true Hbc) as [_ Hc].
    apply (@eq_as_tuple E a b Ha Hb) in Hab.
    apply (@eq_as_tuple E b c Hb Hc) in Hbc.
    apply (@eq_as_tuple E a c Ha Hc). congruence.
Qed.

(** X21. The class name plays no part in equality: on definitions given
    under names that do not start with two underscores, none of them
    [_as_tuple], [schema_builder] with the same properties under two names
    returns two schemas that are equal under [__eq__], and hashing the two
    has the same outcome: the same hash, or the same [TypeError] when a
    default value is unhashable. *)
Theorem schema_builder_name_irrelevant columns name1 name2 properties :
  NoDup (Dict.keys columns) ->
  Forall (fun k => String.prefix "__" k = false) (Dict.keys columns) ->
  ~ In "_as_tuple" (Dict.keys columns) ->
  exists s1 s2,
    schema_builder columns name1 properties = Ok s1 /\
    schema_builder columns name2 properties = Ok s2 /\
    __eq__ s1 s2 = Ok true /\ __hash__ s1 = __hash__ s2.
Proof.
  intros Hnd Hplain Hcol.
  destruct (@schema_builder_closed E columns name1 properties Hnd
              (fun A => @class_creation_plain E columns A Hplain))
    as (s1 & H1 & _ & Hp1 & Hc1 & Hd1).
  destruct (@schema_builder_closed E columns name2 properties Hnd
              (fun A => @class_creation_plain E columns A Hplain))
    as (s2 & H2 & _ & Hp2 & Hc2 & Hd2).
  exists s1, s2. split; [assumption|]. split; [assumption|].
  assert (Hs1 : shadowed "_as_tuple" s1 = false)
    by (apply shadowed_keys; now rewrite Hd1).
  assert (Hs2 : shadowed "_as_tuple" s2 = false)
    by (apply shadowed_keys; now rewrite Hd2).
  assert (Heq : _as_tuple s1 = _as_tuple s2).
  { unfold _as_tuple. now rewrite Hp1, Hp2, Hc1, Hc2. }
  split; [now apply eq_as_tuple|].
  rewrite (@hash_found E s1 Hs1), (@hash_found E s2 Hs2). now rewrite Heq.
Qed.

Lemma leftover_of_nothing names : leftover [] names = [].
Proof. induction names as [|n names IH]; [reflexivity | exact IH]. Qed.

(** The schema made of bare annotations. *)
Lemma annotations_only _name (annotations : Dict.dict Hint) ao :
  NoDup (Dict.keys annotations) ->
  exists s,
    SchemaMetaclass _name annotations [] ao = Ok s /\
    built s /\
    __columns__ s
    = map (fun kv => (fst kv, annotated_column ao kv)) annotations /\
    __properties__ s = {| append_only := ao |}.
Proof.
  intros Hnd.
  assert (Hres : map_result (resolve ao (_cls_fields [])) annotations
                 = Ok (map (annotated_column ao) annotations)).
  { apply map_result_map. intros [k h] _. unfold resolve, annotated_column.
    cbn [_cls_fields filter Dict.get fst snd column_definition option_map
         def_dtype def_primary_key def_default_value def_name name_or].
    rewrite !wrap_dtype.
    destruct (DType_eq_dec _ _) as [_|Hne]; [reflexivity | contradiction]. }
  pose proof (@SchemaMetaclass_closed E _name annotations [] ao _ Hnd Hres
                (leftover_of_nothing _)) as Hs.
  eexists. split; [exact Hs|]. split.
  - exists _name, annotations, [], ao. split; [assumption|].
    split; [constructor | exact Hs].
  - split; [|reflexivity]. cbn [__columns__]. rewrite store_NoDup.
    + rewrite map_map. reflexivity.
    + rewrite map_map. exact Hnd.
Qed.

(** X22. [schema_from_types] returns a schema that is not append-only,
    with one column per keyword argument, in the order of the arguments,
    named as the argument, with the wrapped type as dtype, no default value
    and no primary key. *)
Theorem schema_from_types_columns str_kwargs _name kwargs :
  NoDup (Dict.keys kwargs) ->
  exists s,
    schema_from_types str_kwargs _name kwargs = Ok s /\
    __properties__ s = default_properties /\
    __columns__ s = map (fun kv => (fst kv, annotated_column false kv)) kwargs /\
    primary_key_columns s = None /\
    default_values s = [].
Proof.
  intros Hnd. unfold schema_from_types, _schema_builder.
  cbn [default_properties append_only].
  destruct (@annotations_only
              (match _name with
               | Some n => n
               | None => ("schema(" ++ str_kwargs kwargs ++ ")")%string
               end) kwargs false Hnd) as (s & Hs & _ & Hc & Hp).
  exists s. split; [assumption|]. split; [exact Hp|]. split; [assumption|].
  unfold primary_key_columns, default_values. rewrite Hc.
  split.
  - replace (filter _ _) with (@nil (string * ColumnSchema)); [reflexivity|].
    symmetry. apply filter_nil. intros x Hx. apply in_map_iff in Hx.
    destruct Hx as (kv & <- & _). reflexivity.
  - replace (filter _ _) with (@nil (string * ColumnSchema)); [reflexivity|].
    symmetry. apply filter_nil. intros x Hx. apply in_map_iff in Hx.
    destruct Hx as (kv & <- & _). reflexivity.
Qed.

(** X23. [schema_from_columns] returns a schema whose [_dtypes()] is the
    given mapping from names to dtypes, in the given order, and in which no
    column is a primary key. *)
Theorem schema_from_columns_dtypes columns _name :
  NoDup (Dict.keys columns) ->
  exists s,
    schema_from_columns columns _name = Ok s /\
    __dtypes__ s = columns /\
    primary_key_columns s = None.
Proof.
  intros Hnd. unfold schema_from_columns, _schema_builder.
  cbn [default_properties append_only].
  set (A := map (fun kv => (fst kv, hint_of_dtype (snd kv))) columns).
  assert (HA : NoDup (Dict.keys A)).
  { unfold A, Dict.keys. now rewrite map_map. }
  destruct (@annotations_only
              (match _name with
               | Some n => n
               | None => ("schema_from_columns("
                           ++ str_of_list (Dict.keys columns) ++ ")")%string
               end) A false HA) as (s & Hs & Hb & Hc & _).
  exists s. split; [assumption|]. split.
  - rewrite (built_dtypes Hb), Hc. unfold A. rewrite !map_map.
    transitivity (map (fun x => x) columns); [|apply map_id].
    apply map_ext. intros [k d]. cbn [fst snd annotated_column dtype].
    now rewrite wrap_dtype.
  - unfold primary_key_columns. rewrite Hc.
    replace (filter _ _) with (@nil (string * ColumnSchema)); [reflexivity|].
    symmetry. apply filter_nil. intros x Hx. apply in_map_iff in Hx.
    destruct Hx as (kv & <- & _). reflexivity.
Qed.

(** X24. [__getitem__] and [column_properties] fail with [KeyError] on a
    name that is no column; on a column they return the column of that name
    and, as its properties, the dtype of the column with the [append_only]
    flag of the schema. *)
Theorem column_lookup (s : Schema) (k : string) :
  built s ->
  (In k (keys s) ->
     exists c,
       __getitem__ s k = Ok c /\ name c = k /\
       column_properties s k
       = Ok {| cp_dtype := dtype c;
               cp_append_only := append_only (__properties__ s) |})
  /\ (~ In k (keys s) ->
      __getitem__ s k = Raise (KeyError k) /\
      column_properties s k = Raise (KeyError k)).
Proof.
  intros Hb. unfold __getitem__, column_properties, getitem, keys. split.
  - intros Hin. destruct (In_keys_get _ _ Hin) as [c Hc]. rewrite Hc.
    exists c. pose proof (get_Some_In _ _ Hc) as Hin'.
    split; [reflexivity|]. split; [apply (built_names _ _ Hb Hin')|].
    cbn [bind]. now rewrite (built_append_only _ _ Hb Hin').
  - intros Hnot. apply get_None in Hnot. rewrite Hnot. split; reflexivity.
Qed.

(** X25. [primary_key_columns] never returns an empty list: it returns
    [None] exactly when no column is a primary key, and otherwise the list
    of the names of the primary-key columns. *)
Theorem primary_key_columns_spec (s : Schema) :
  built s ->
  (primary_key_columns s = None <->
     forall k c, In (k, c) (__columns__ s) -> primary_key c = false)
  /\ (forall l, primary_key_columns s = Some l ->
        l <> [] /\
        forall k, In k l <->
                  exists c, Dict.get k (__columns__ s) = Some c /\
                            primary_key c = true).
Proof.
  intros Hb. pose proof (built_NoDup Hb) as Hnd. unfold keys in Hnd.
  unfold primary_key_columns.
  assert (Hin : forall k,
    In k (map fst (filter (fun kv => primary_key (snd kv)) (__columns__ s)))
    <-> exists c, Dict.get k (__columns__ s) = Some c /\ primary_key c = true).
  { intros k. rewrite in_map_iff. split.
    - intros ([k' c] & <- & H). apply filter_In in H. destruct H as [H1 H2].
      exists c. split; [now apply In_get | assumption].
    - intros (c & Hc & Hp). exists (k, c). split; [reflexivity|].
      apply filter_In. split; [now apply get_Some_In | assumption]. }
  destruct (map fst (filter _ (__columns__ s))) as [|k0 l0] eqn:Hl.
  - split.
    + split; [|reflexivity]. intros _ k c Hkc.
      destruct (primary_key c) eqn:Hp; [|reflexivity].
      exfalso. apply (proj2 (Hin k)). exists c. split; [now apply In_get | assumption].
    + discriminate.
  - split.
    + split; [discriminate|]. intros H. exfalso.
      destruct (proj1 (Hin k0) (or_introl eq_refl)) as (c & Hc & Hp).
      apply get_Some_In in Hc. rewrite (H _ _ Hc) in Hp. discriminate.
    + intros l [= <-]. split; [discriminate | exact Hin].
Qed.

Lemma NoDup_keys_filter_items {V : Type} (p : string * V -> bool)
    (d : Dict.dict V) :
  NoDup (Dict.keys d) -> NoDup (Dict.keys (filter p d)).
Proof.
  induction d as [|[k v] d IH]; simpl; intros H; [constructor|].
  inversion H as [|? ? Hnotin Hnd]; subst.
  destruct (p (k, v)); simpl; [|auto].
  constructor; [|auto]. intros Hin. apply Hnotin.
  unfold Dict.keys in *. apply in_map_iff in Hin.
  destruct Hin as (x & <- & Hx). apply filter_In in Hx.
  apply in_map. tauto.
Qed.

(** X26. [default_values] has an entry for a name exactly when the column
    of that name has a default value, and the entry is that value. *)
Theorem default_values_spec (s : Schema) k v :
  built s ->
  (Dict.get k (default_values s) = Some v <->
     exists c, Dict.get k (__columns__ s) = Some c /\
               default_value c = v /\ v <> _no_default_value_marker).
Proof.
  intros Hb. pose proof (built_NoDup Hb) as Hnd. unfold keys in Hnd.
  unfold default_values.
  rewrite (get_map default_value).
  assert (Hf : forall c,
    Dict.get k (filter (fun kv => has_default_value (snd kv)) (__columns__ s))
    = Some c <->
    Dict.get k (__columns__ s) = Some c /\ has_default_value c = true).
  { intros c. split.
    - intros H. apply get_Some_In in H. apply filter_In in H.
      destruct H as [H1 H2]. split; [now apply In_get | assumption].
    - intros [H1 H2]. apply In_get.
      + now apply NoDup_keys_filter_items.
      + apply filter_In. split; [now apply get_Some_In | assumption]. }
  assert (Hh : forall c, has_default_value c = true
                         <-> default_value c <> _no_default_value_marker).
  { intros c. unfold has_default_value. rewrite negb_true_iff.
    destruct (DefaultValue_eqb _ _) eqn:H.
    - apply DefaultValue_eqb_eq in H. split; [discriminate | congruence].
    - split; [|reflexivity]. intros _ Heq.
      apply DefaultValue_eqb_eq in Heq. congruence. }
  destruct (Dict.get k (filter _ _)) as [c|] eqn:Hg; cbn [option_map].
  - destruct (proj1 (Hf c) eq_refl) as [Hc Hd]. apply Hh in Hd. split.
    + intros [= <-]. eauto.
    + intros (c' & Hc' & <- & _). congruence.
  - split; [discriminate|]. intros (c & Hc & <- & Hne).
    discriminate (proj2 (Hf c) (conj Hc (proj2 (Hh c) Hne))).
Qed.

End QueryFacts.

(** ** Disjoint union, continued *)

Section UnionMoreFacts.
Context {E : External}.

Lemma resolve_set_ao ao ao' f item c :
  resolve ao f item = Ok c ->
  resolve ao' f item = Ok (with_append_only ao' c).
Proof.
  unfold resolve.
  destruct (match Dict.get (fst item) f with Some a => a | None => _ end);
    [|discriminate].
  destruct (DType_eq_dec _ _); [|discriminate].
  intros [= <-]. reflexivity.
Qed.

Lemma map_result_set_ao ao ao' MF f l : forall cs,
  map_result (resolve ao f) l = Ok cs ->
  (forall item, In item l ->
     Dict.get (fst item) MF = Dict.get (fst item) f) ->
  map_result (resolve ao' MF) l = Ok (map (with_append_only ao') cs).
Proof.
  induction l as [|item l IH]; simpl; intros cs Hcs Hg.
  - injection Hcs as <-. reflexivity.
  - destruct (resolve ao f item) as [c|] eqn:Hc; simpl in Hcs; [|discriminate].
    destruct (map_result (resolve ao f) l) as [cs0|] eqn:Hl; simpl in Hcs;
      [|discriminate].
    injection Hcs as <-.
    rewrite (resolve_get_ext ao' MF f item (Hg item (or_introl eq_refl))).
    rewrite (@resolve_set_ao ao ao' f item c Hc). simpl.
    rewrite (IH cs0 eq_refl (fun i Hi => Hg i (or_intror Hi))). reflexivity.
Qed.

Lemma length_store_NoDup (cs : list ColumnSchema) :
  List.length (store [] cs) = List.length cs -> NoDup (map name cs).
Proof.
  intros Hlen.
  apply (@NoDup_incl_NoDup _ (Dict.keys (store [] cs)) (map name cs)).
  - apply NoDup_keys_store. constructor.
  - unfold Dict.keys. rewrite !length_map. lia.
  - intros x Hx. apply In_keys_store in Hx. destruct Hx as [[]|Hx]. exact Hx.
Qed.

(** The columns of a schema without two annotations resolved to one name
    are the resolved columns, one per annotation. *)
Lemma built_values s :
  built s ->
  List.length (__columns__ s) = List.length (__annotations__ s) ->
  map_result (resolve (append_only (__properties__ s))
                      (_cls_fields (__dict__ s))) (__annotations__ s)
  = Ok (Dict.values (__columns__ s)).
Proof.
  intros Hb Hlen. destruct (built_facts Hb) as (_ & _ & cs & Hcs & _ & Hcols).
  rewrite Hcs. f_equal. rewrite Hcols.
  assert (Hnd : NoDup (map name cs)).
  { apply length_store_NoDup. rewrite <- Hcols, Hlen.
    symmetry. apply (map_result_Ok_length _ _ Hcs). }
  rewrite (store_NoDup _ Hnd). unfold Dict.values. rewrite map_map. simpl.
  symmetry. apply map_id.
Qed.

Lemma merged_columns (MF : Dict.dict attr) (ss : list Schema) :
  Forall built ss ->
  Forall (fun s => List.length (__columns__ s)
                   = List.length (__annotations__ s)) ss ->
  (forall s item, In s ss -> In item (__annotations__ s) ->
     Dict.get (fst item) MF
     = Dict.get (fst item) (_cls_fields (__dict__ s))) ->
  map_result (resolve false MF) (List.concat (map __annotations__ ss))
  = Ok (map (with_append_only false)
            (List.concat (map (fun s => Dict.values (__columns__ s)) ss))).
Proof.
  induction ss as [|s ss IH]; intros Hb Hlen Hget; [reflexivity|].
  inversion Hb as [|? ? Hs Hss]; subst.
  inversion Hlen as [|? ? Hl Hls]; subst.
  cbn [map List.concat]. rewrite map_app.
  apply map_result_app.
  - apply (map_result_set_ao _ false MF _ _ (built_values Hs Hl)).
    intros item. apply Hget. now left.
  - apply IH; [assumption..|]. intros s' item Hin. apply Hget. now right.
Qed.

Lemma columns_by_name (ss : list Schema) :
  Forall built ss ->
  List.concat (map __columns__ ss)
  = map (fun c => (name c, c))
        (List.concat (map (fun s => Dict.values (__columns__ s)) ss)).
Proof.
  induction 1 as [|s ss Hs _ IH]; [reflexivity|].
  cbn [map List.concat]. rewrite map_app, <- IH. f_equal.
  unfold Dict.values. rewrite map_map.
  transitivity (map (fun x => x) (__columns__ s)); [symmetry; apply map_id|].
  apply map_ext_in. intros [k c] Hin. cbn [snd].
  now rewrite (built_names _ _ Hs Hin).
Qed.

(** X27. For schemas with pairwise disjoint annotation names and pairwise
    distinct column names, none of which has two annotations resolved to
    one column, [schema_add] returns a schema that is not append-only and
    whose columns are the columns of the last schema, then those of the
    one before, and so on to the first, each with its name, dtype,
    primary-key flag and default value and with [append_only] reset. *)
Theorem schema_add_columns (schemas : list Schema) :
  Forall built schemas ->
  Forall (fun s => List.length (__columns__ s)
                   = List.length (__annotations__ s)) schemas ->
  disjoint_keys (map __annotations__ schemas) ->
  disjoint_keys (map __columns__ schemas) ->
  exists s,
    schema_add schemas = Ok s /\
    __properties__ s = default_properties /\
    __columns__ s
    = map (fun kv => (fst kv, with_append_only false (snd kv)))
          (List.concat (map __columns__ (rev schemas))).
Proof.
  intros Hb Hlen Hd Hcols. pose proof (fields_disjoint Hb Hd) as Hf.
  unfold schema_add.
  rewrite (proj2 (Nat.eqb_eq _ _) (proj2 (of_chain_length _) Hd)).
  rewrite (proj2 (Nat.eqb_eq _ _) (proj2 (of_chain_length _) Hf)).
  cbn [assert_ bind].
  rewrite (of_chain_disjoint Hd), (of_chain_disjoint Hf).
  set (MA := List.concat (rev (map __annotations__ schemas))).
  set (MF := List.concat (rev (map (fun s => _cls_fields (__dict__ s))
                                   schemas))).
  assert (HMA : NoDup (Dict.keys MA)).
  { unfold MA. rewrite keys_concat, map_rev.
    apply (Permutation_NoDup (Permutation_sym (concat_rev_perm _))).
    exact Hd. }
  assert (HMF : NoDup (Dict.keys MF)).
  { unfold MF. rewrite keys_concat, map_rev.
    apply (Permutation_NoDup (Permutation_sym (concat_rev_perm _))).
    exact Hf. }
  assert (Hcls : _cls_fields MF = MF).
  { unfold _cls_fields. apply forallb_filter_id. apply forallb_forall.
    intros kv Hkv. unfold MF in Hkv. apply in_concat in Hkv.
    destruct Hkv as (d & Hin & Hkv). apply in_rev in Hin.
    apply in_map_iff in Hin. destruct Hin as (s' & <- & _).
    unfold _cls_fields in Hkv. now apply filter_In in Hkv. }
  pose proof (@merged_columns MF (rev schemas)) as Hcs.
  rewrite map_rev in Hcs. fold MA in Hcs.
  specialize (Hcs (Forall_rev Hb) (Forall_rev Hlen)).
  assert (Hget : forall s item, In s (rev schemas) ->
                 In item (__annotations__ s) ->
                 Dict.get (fst item) MF
                 = Dict.get (fst item) (_cls_fields (__dict__ s))).
  { intros s item Hs. apply in_rev in Hs. now apply merged_fields_get. }
  specialize (Hcs Hget).
  assert (Hleft : leftover MF (Dict.keys MA) = []).
  { apply leftover_nil; [assumption|]. intros x Hx.
    unfold MF in Hx. rewrite keys_concat, map_rev, map_map in Hx.
    apply (Permutation_in _ (concat_rev_perm _)) in Hx.
    apply In_concat_fields in Hx. destruct Hx as (s' & Hs' & Hin).
    unfold MA. rewrite keys_concat, map_rev, map_map.
    apply (Permutation_in _ (Permutation_sym (concat_rev_perm _))).
    apply in_concat. exists (Dict.keys (__annotations__ s')). split.
    - apply in_map_iff. eauto.
    - apply built_fields_incl; [|assumption].
      rewrite Forall_forall in Hb. now apply Hb. }
  unfold _schema_builder. cbn [default_properties append_only].
  rewrite <- Hcls in Hcs, Hleft.
  rewrite (@SchemaMetaclass_closed E _ MA MF false _ HMA Hcs Hleft).
  eexists. split; [reflexivity|]. split; [reflexivity|].
  cbn [__columns__].
  set (vals := List.concat
                 (map (fun s => Dict.values (__columns__ s)) (rev schemas))).
  pose proof (columns_by_name (Forall_rev Hb)) as Hitems. fold vals in Hitems.
  rewrite Hitems, map_map. cbn [fst snd].
  rewrite store_NoDup.
  - rewrite map_map. reflexivity.
  - rewrite map_map. cbn [with_append_only name].
    replace (map (fun c => name c) vals)
      with (Dict.keys (List.concat (map __columns__ (rev schemas)))).
    + rewrite keys_concat, !map_rev.
      apply (Permutation_NoDup (Permutation_sym (concat_rev_perm _))).
      exact Hcols.
    + rewrite Hitems. unfold Dict.keys. rewrite map_map. reflexivity.
Qed.

End UnionMoreFacts.

(* ================================================================== *)
(** * The further properties on concrete inputs *)
(* ================================================================== *)

Module MoreCaseFacts.
Import Example Cases MoreCases.

Ltac distinct :=
  vm_compute;
  repeat (apply NoDup_cons; [simpl; intuition congruence|]);
  apply NoDup_nil.

Ltac by_construction s :=
  exists (__name__ s), (__annotations__ s), (__dict__ s),
         (append_only (__properties__ s));
  split; [distinct | split; [distinct | reflexivity]].

Ltac plain_names :=
  repeat (apply Forall_cons; [reflexivity|]); apply Forall_nil.

Lemma Sx_built : built Sx.
Proof. by_construction Sx. Defined.

Lemma Sy_built : built Sy.
Proof. by_construction Sy. Defined.

Lemma Sxy_built : built Sxy.
Proof. by_construction Sxy. Defined.

Lemma Skey_data_built : built Skey_data.
Proof. by_construction Skey_data. Defined.

Lemma Sx_in_Sxy col t :
  Dict.get col (typehints Sx) = Some t -> Dict.get col (typehints Sxy) = Some t.
Proof.
  change (typehints Sx) with [("x", H_int)].
  change (typehints Sxy) with [("x", H_int); ("y", H_str)].
  simpl. destruct (String.eqb col "x"); [exact (fun H => H) | discriminate].
Defined.

Lemma schema_invariants_witness : NoDup (keys Skey_data).
Proof. exact (proj1 (schema_invariants Skey_data_built)). Defined.

Lemma dtypes_and_typehints_follow_columns_witness :
  Dict.keys (__dtypes__ Skey_data) = keys Skey_data.
Proof. exact (proj1 (dtypes_and_typehints_follow_columns Skey_data_built)). Defined.

Lemma schema_builder_total_witness :
  exists s, schema_builder defs_x_why None default_properties = Ok s /\
            built s /\ __properties__ s = default_properties.
Proof.
  apply schema_builder_total; [distinct | plain_names].
Defined.

Lemma schema_builder_columns_witness :
  exists s,
    schema_builder defs_x_why None default_properties = Ok s /\
    __columns__ s
    = map (fun kv => (name_or (def_name (snd kv)) (fst kv),
                      declared_column false kv)) defs_x_why.
Proof.
  apply (@schema_builder_columns external defs_x_why None default_properties);
    [distinct | plain_names | distinct].
Defined.

Lemma not_a_column_definition_witness :
  SchemaMetaclass "C" annotations_a_b dict_b_five false
  = Raise (ValueError (msg_should_be_column_definition "b")).
Proof.
  apply (@not_a_column_definition external "C" [("a", H_int)] "b" H_int []
           dict_b_five false (V_int 5)).
  - distinct.
  - apply Forall_cons; [|apply Forall_nil]. intros a H. discriminate H.
  - reflexivity.
Defined.

Lemma annotation_mismatch_witness :
  SchemaMetaclass "C" annotations_a dict_a_str false
  = Raise (TypeError (msg_annotation_does_not_match "a")).
Proof.
  apply (@annotation_mismatch external "C" [] "a" H_int [] dict_a_str false
           (col false H_str None) D_STR).
  - distinct.
  - apply Forall_nil.
  - reflexivity.
  - reflexivity.
  - discriminate.
Defined.

Lemma update_types_keeps_attributes_witness :
  exists s,
    update_types Skey_data [("data", H_float)] = Ok s /\
    __properties__ s = __properties__ Skey_data /\
    keys s = keys Skey_data /\
    primary_key_columns s = primary_key_columns Skey_data /\
    default_values s = default_values Skey_data /\
    (forall k c, Dict.get k (__columns__ Skey_data) = Some c ->
       Dict.get k (__columns__ s) = Some (retype [("data", H_float)] c)).
Proof.
  apply (@update_types_keeps_attributes external Skey_data [("data", H_float)]).
  - exact Skey_data_built.
  - distinct.
  - plain_names.
  - intros x [<-|[]]. right. left. reflexivity.
Defined.

Lemma update_types_rejects_unknown_witness :
  update_types Sxy [("z", H_float)]
  = Raise (ValueError msg_has_to_be_existing_column).
Proof.
  apply (@update_types_rejects_unknown external Sxy [("z", H_float)]).
  - exact Sxy_built.
  - intros H. destruct (H "z" (or_introl eq_refl)) as [H1|[H1|[]]];
      discriminate H1.
Defined.

Lemma update_types_nothing_witness :
  exists s, update_types Skey_data [] = Ok s /\
            __eq__ Skey_data s = Ok true /\ __hash__ Skey_data = __hash__ s.
Proof.
  apply (@update_types_nothing external Skey_data);
    [exact Skey_data_built | plain_names | reflexivity |].
  intros [H|[H|[]]]; discriminate H.
Defined.

Lemma assert_equal_to_succeeds_iff_witness :
  assert_equal_to Sxy Sx true false = Ok tt.
Proof.
  apply (proj2 (@assert_equal_to_succeeds_iff external Sxy Sx true false
                  Sxy_built Sx_built eq_refl eq_refl
                  (fun _ => conj eq_refl eq_refl))).
  split; [exact Sx_in_Sxy|]. split; [discriminate | reflexivity].
Defined.

Lemma assert_equal_to_reports_missing_witness :
  exists missing,
    assert_equal_to Sx Sxy false true
    = Raise (AssertionError (Some (msg_does_not_have_columns missing))) /\
    forall n, In n missing <-> In n (keys Sxy) /\ ~ In n (keys Sx).
Proof.
  apply (@assert_equal_to_reports_missing external Sx Sxy false true
           Sx_built Sxy_built eq_refl eq_refl).
  - intros x [<-|[]]. left. reflexivity.
  - exists "y". split; [right; left; reflexivity|].
    intros [H|[]]. discriminate H.
Defined.

Lemma assert_equal_to_reports_extra_witness :
  exists extra,
    assert_equal_to Sxy Sx false true
    = Raise (AssertionError (Some (msg_extra_columns extra))) /\
    forall n, In n extra <-> In n (keys Sxy) /\ ~ In n (keys Sx).
Proof.
  apply (@assert_equal_to_reports_extra external Sxy Sx true
           Sxy_built Sx_built eq_refl eq_refl).
  - exact Sx_in_Sxy.
  - exists "y". split; [right; left; reflexivity|].
    intros [H|[]]. discriminate H.
Defined.

Lemma schema_from_pandas_columns_witness :
  exists s,
    schema_from_pandas frame_id_v (Some ["id"]) (Some "sample") = Ok s /\
    __properties__ s = {| append_only := true |} /\
    __columns__ s
    = map (fun kv => (fst kv, sampled_column ["id"] kv)) frame_id_v.
Proof.
  apply (@schema_from_pandas_columns external frame_id_v (Some ["id"])
           (Some "sample")).
  - distinct.
  - plain_names.
  - intros x [<-|[]]. left. reflexivity.
Defined.

Lemma schema_from_pandas_unknown_id_witness :
  schema_from_pandas frame_id_v (Some ["id"; "zz"; "v"]) (Some "sample")
  = Raise (KeyError "zz").
Proof.
  apply (@schema_from_pandas_unknown_id external frame_id_v ["id"] "zz" ["v"]
           (Some "sample")).
  - distinct.
  - intros x [<-|[]]. left. reflexivity.
  - intros [H|[H|[]]]; discriminate H.
Defined.

Lemma schema_from_csv_empty_witness :
  schema_from_csv csv_comment_only None default_properties "," (Some "#") None
    None = Raise (ValueError msg_empty_csv).
Proof.
  apply (proj1 (@schema_from_csv_empty external csv_comment_only None
                  default_properties "," (Some "#") None None)
           (","%char, None) eq_refl).
  apply Forall_cons; [reflexivity | apply Forall_nil].
Defined.

Lemma schema_from_csv_no_sample_witness :
  exists s,
    schema_from_csv csv_blank_second (Some "S") default_properties "," None
      None (Some 0%Z) = Ok s /\
    __dtypes__ s = [("a", D_ANY); ("b", D_ANY)].
Proof.
  apply (@schema_from_csv_no_sample external ("a,b" ++ nl)%string [nl]
           (Some "S") default_properties "," None None (","%char, None)
           ["a"; "b"]).
  - reflexivity.
  - discriminate.
  - reflexivity.
  - reflexivity.
  - distinct.
  - plain_names.
Defined.

Lemma choose_type_none_witness :
  choose_type (map Some ["1"] ++ [None]) = Raise (TypeError msg_not_a_string)
  /\ choose_type (map Some ["x"] ++ [None]) = Ok str.
Proof.
  split.
  - apply (proj1 (choose_type_none ["1"] [])). left.
    apply Forall_cons; [reflexivity | apply Forall_nil].
  - apply (proj2 (choose_type_none ["x"] []));
      intros H; inversion H; discriminate.
Defined.

Lemma schema_from_csv_failures_witness :
  @IndexError external = IndexError \/
  @IndexError external = ValueError msg_empty_csv \/
  @IndexError external = ValueError msg_islice_stop \/
  @IndexError external = TypeError msg_not_a_string \/
  (exists c, @IndexError external = CsvRaised c) \/
  (exists a, @IndexError external = TypeError (msg_class_attribute a)) \/
  @IndexError external = AttributeError msg_no_items \/
  (exists names,
      @IndexError external = ValueError (msg_lack_type_annotation names)).
Proof.
  apply (@schema_from_csv_failures external csv_blank_second (Some "S")
           default_properties "," None None None IndexError).
  reflexivity.
Defined.

Lemma eq_equivalence_witness : __eq__ Sx Sx = Ok true.
Proof.
  apply (proj2 (proj2 eq_equivalence) Sx Sx_bis Sx); reflexivity.
Defined.

Lemma schema_builder_name_irrelevant_witness :
  exists s1 s2,
    schema_builder defs_x_why (Some "one") default_properties = Ok s1 /\
    schema_builder defs_x_why (Some "two") default_properties = Ok s2 /\
    __eq__ s1 s2 = Ok true /\ __hash__ s1 = __hash__ s2.
Proof.
  apply schema_builder_name_irrelevant; [distinct | plain_names |].
  intros [H|[H|[]]]; discriminate H.
Defined.

Lemma schema_from_types_columns_witness :
  exists s,
    schema_from_types no_rendering None [("foo", H_int); ("bar", H_str)]
    = Ok s /\
    __properties__ s = default_properties /\
    __columns__ s
    = map (fun kv => (fst kv, annotated_column false kv))
          [("foo", H_int); ("bar", H_str)] /\
    primary_key_columns s = None /\
    default_values s = [].
Proof. apply schema_from_types_columns. distinct. Defined.

Lemma schema_from_columns_dtypes_witness :
  exists s,
    schema_from_columns [("a", D_INT); ("b", D_Optional D_STR)] None = Ok s /\
    __dtypes__ s = [("a", D_INT); ("b", D_Optional D_STR)] /\
    primary_key_columns s = None.
Proof.
  apply (@schema_from_columns_dtypes external
           [("a", D_INT); ("b", D_Optional D_STR)] None).
  distinct.
Defined.

Lemma column_lookup_witness :
  __getitem__ Skey_data "nope" = Raise (KeyError "nope") /\
  column_properties Skey_data "nope" = Raise (KeyError "nope").
Proof.
  apply (proj2 (@column_lookup external Skey_data "nope" Skey_data_built)).
  intros [H|[H|[]]]; discriminate H.
Defined.

Lemma primary_key_columns_spec_witness :
  ["key"] <> [] /\
  forall k, In k ["key"] <->
            exists c, Dict.get k (__columns__ Skey_data) = Some c /\
                      primary_key c = true.
Proof.
  apply (proj2 (@primary_key_columns_spec external Skey_data Skey_data_built)).
  reflexivity.
Defined.

Lemma default_values_spec_witness :
  exists c, Dict.get "data" (__columns__ Skey_data) = Some c /\
            default_value c = @Default external (V_int 0) /\
            @Default external (V_int 0) <> _no_default_value_marker.
Proof.
  apply (proj1 (@default_values_spec external Skey_data "data"
                  (@Default external (V_int 0)) Skey_data_built)).
  reflexivity.
Defined.

Lemma schema_add_columns_witness :
  exists s,
    schema_add [Sx; Sy] = Ok s /\
    __properties__ s = default_properties /\
    __columns__ s
    = map (fun kv => (fst kv, with_append_only false (snd kv)))
          (List.concat (map __columns__ (rev [Sx; Sy]))).
Proof.
  apply (@schema_add_columns external [Sx; Sy]).
  - apply Forall_cons; [exact Sx_built|].
    apply Forall_cons; [exact Sy_built | apply Forall_nil].
  - apply Forall_cons; [reflexivity|].
    apply Forall_cons; [reflexivity | apply Forall_nil].
  - unfold disjoint_keys. distinct.
  - unfold disjoint_keys. distinct.
Defined.

End MoreCaseFacts.
